(** * gcloud_logs: peek and tail Stackdriver logs of GCE instances

    A shallow embedding of [gcloud_logs.py] and the properties of its
    filter construction, formatting, bounded query and tail loop.

    Python values are modelled as follows:
    - [str] as [string], lists as [list];
    - [datetime] as a record of its calendar fields and an optional [tzinfo],
      with the calendar arithmetic and the conversion to local time of
      [astimezone()] as CPython's [datetime] module does them, on top of
      the C library's [localtime];
    - the dictionary returned by [LogEntry.to_api_repr()] as a [json] tree;
    - exceptions through the [outcome] type;
    - effects on the outside world (queries sent to the logging client,
      lines printed, sleeps, files opened) as a chronological [trace]. *)

From Stdlib Require Import String Ascii List ZArith Lia Bool Arith DecimalString.
Import ListNotations.
Open Scope string_scope.

(* ------------------------------------------------------------------ *)
(** * String helpers *)

(** The double-quote character, written out by its code. *)
Definition dq : string := String "034"%char EmptyString.

(** The escape character that starts terminal control sequences. *)
Definition ESC : ascii := "027"%char.

(** Python's [sep.join(items)]. *)
Fixpoint join (sep : string) (items : list string) : string :=
  match items with
  | [] => EmptyString
  | [x] => x
  | x :: rest => x ++ sep ++ join sep rest
  end.

(** Occurrence of a character in a string. *)
Fixpoint occurs (c : ascii) (s : string) : Prop :=
  match s with
  | EmptyString => False
  | String c' s' => c' = c \/ occurs c s'
  end.

(** [is_suffix t s]: [s] ends with [t]. *)
Definition is_suffix (t s : string) : Prop := exists pre, s = pre ++ t.

(** [is_prefix t s]: [s] starts with [t]. *)
Definition is_prefix (t s : string) : Prop := exists post, s = t ++ post.

(* ------------------------------------------------------------------ *)
(** * Exceptions *)

Inductive exn : Type :=
| KeyError (key : string)
| TypeError
| AttributeError
| KeyboardInterrupt
| BackendError (msg : string)
| ValueError
| OverflowError
| OSError.

Inductive outcome (A : Type) : Type :=
| Ok (a : A)
| Raise (e : exn).
Arguments Ok {A} a.
Arguments Raise {A} e.

Definition obind {A B} (m : outcome A) (f : A -> outcome B) : outcome B :=
  match m with
  | Ok a => f a
  | Raise e => Raise e
  end.

Declare Scope outcome_scope.
Delimit Scope outcome_scope with outcome.
Notation "x <~ m ;; k" := (obind m (fun x => k))
  (at level 61, m at next level, right associativity) : outcome_scope.

(* ------------------------------------------------------------------ *)
(** * datetime *)

(** The naive part of a [datetime]: its calendar and clock fields, and
    [fold], which tells the two readings of a repeated wall-clock time
    apart. *)
Record wallclock : Type := {
  year : N; month : N; day : N;
  hour : N; minute : N; second : N; microsecond : N;
  fold : bool
}.

(** A [tzinfo] object: what [utcoffset(dt)] answers for a wall-clock time,
    in microseconds east of UTC ([None] when the zone gives no offset).
    The objects the script meets (of [datetime], [pytz] and [dateutil])
    are all true in a condition. *)
Record tzinfo : Type := {
  tzname : string;
  utcoffset : wallclock -> option Z
}.

Record datetime : Type := {
  wall : wallclock;
  tz : option tzinfo
}.

(** [pytz.UTC] *)
Definition pytz_UTC : tzinfo :=
  {| tzname := "UTC"; utcoffset := fun _ => Some 0%Z |}.

(** [dt.replace(tzinfo=z)] *)
Definition replace_tzinfo (dt : datetime) (z : option tzinfo) : datetime :=
  {| wall := wall dt; tz := z |}.

(** ** Calendar arithmetic of the [datetime] module

    The proleptic Gregorian calendar as CPython computes with it: days
    are counted from 0001-01-01, which is day 1. *)

Definition MINYEAR : Z := 1.
Definition MAXYEAR : Z := 9999.
Definition MAXORDINAL : Z := 3652059.

Definition is_leap (y : Z) : bool :=
  ((y mod 4 =? 0) && (negb (y mod 100 =? 0) || (y mod 400 =? 0)))%Z.

Definition days_in_month (y m : Z) : Z :=
  if ((m =? 2)%Z && is_leap y)%bool then 29%Z
  else nth (Z.to_nat m) [0; 31; 28; 31; 30; 31; 30; 31; 31; 30; 31; 30; 31]%Z 0%Z.

Definition days_before_month (y m : Z) : Z :=
  (nth (Z.to_nat m) [0; 0; 31; 59; 90; 120; 151; 181; 212; 243; 273; 304; 334] 0
   + (if (2 <? m) && is_leap y then 1 else 0))%Z.

Definition days_before_year (y : Z) : Z :=
  (let y := y - 1 in y * 365 + y / 4 - y / 100 + y / 400)%Z.

Definition ymd_to_ord (y m d : Z) : Z :=
  (days_before_year y + days_before_month y m + d)%Z.

Definition ord_to_ymd (ordinal : Z) : Z * Z * Z :=
  (let ordinal := ordinal - 1 in
   let n400 := ordinal / 146097 in
   let n := ordinal mod 146097 in
   let year := n400 * 400 + 1 in
   let n100 := n / 36524 in
   let n := n mod 36524 in
   let n4 := n / 1461 in
   let n := n mod 1461 in
   let n1 := n / 365 in
   let n := n mod 365 in
   let year := year + n100 * 100 + n4 * 4 + n1 in
   if (n1 =? 4) || (n100 =? 4) then (year - 1, 12, 31)
   else
     let leapyear := (n1 =? 3) && (negb (n4 =? 24) || (n100 =? 3)) in
     let month := Z.shiftr (n + 50) 5 in
     let preceding :=
       nth (Z.to_nat month)
         [0; 0; 31; 59; 90; 120; 151; 181; 212; 243; 273; 304; 334] 0
       + (if (2 <? month) && leapyear then 1 else 0) in
     if n <? preceding
     then let month := month - 1 in
          let preceding := preceding - days_in_month year month in
          (year, month, n - preceding + 1)
     else (year, month, n - preceding + 1))%Z.

(** A date is refused when its year is outside [MINYEAR .. MAXYEAR]. *)
Definition check_year (y m d : Z) : outcome (Z * Z * Z) :=
  if ((MINYEAR <=? y) && (y <=? MAXYEAR))%Z then Ok (y, m, d)
  else Raise OverflowError.

(** [normalize_y_m_d]: brings a day number that ran out of its month
    back into a date; one day out is handled without counting days. *)
Definition normalize_y_m_d (y m d : Z) : outcome (Z * Z * Z) :=
  (let dim := days_in_month y m in
   if (d <? 1) || (dim <? d) then
     if d =? 0 then
       if 1 <? m then check_year y (m - 1) (days_in_month y (m - 1))
       else check_year (y - 1) 12 31
     else if d =? dim + 1 then
       if m <? 12 then check_year y (m + 1) 1 else check_year (y + 1) 1 1
     else
       let ordinal := ymd_to_ord y m 1 + d - 1 in
       if (ordinal <? 1) || (MAXORDINAL <? ordinal) then Raise OverflowError
       else Ok (ord_to_ymd ordinal)
   else check_year y m d)%Z.

(** Microseconds in a day, and the time of day in microseconds. *)
Definition DAY_US : Z := 86400000000.

Definition time_us (w : wallclock) : Z :=
  (((Z.of_N (hour w) * 60 + Z.of_N (minute w)) * 60 + Z.of_N (second w))
     * 1000000 + Z.of_N (microsecond w))%Z.

(** [dt + timedelta(microseconds=delta)] on the naive part: the time of
    day is carried into the day number, which is then normalized;
    [OverflowError] when the date leaves the supported range.  The
    result has [fold] 0. *)
Definition add_us (w : wallclock) (delta : Z) : outcome wallclock :=
  (let total := (time_us w + delta)%Z in
   let t := (total mod DAY_US)%Z in
   ymd <~ normalize_y_m_d (Z.of_N (year w)) (Z.of_N (month w))
            (Z.of_N (day w) + total / DAY_US)%Z ;;
   let '(y, m, d) := ymd in
   Ok {| year := Z.to_N y; month := Z.to_N m; day := Z.to_N d;
         hour := Z.to_N (t / 3600000000);
         minute := Z.to_N ((t / 60000000) mod 60);
         second := Z.to_N ((t / 1000000) mod 60);
         microsecond := Z.to_N (t mod 1000000);
         fold := false |})%outcome.

(** Seconds from the start of day 0 to a wall-clock time, as
    [utc_to_seconds] counts them; the year must be in range. *)
Definition wall_seconds (w : wallclock) : Z :=
  (((ymd_to_ord (Z.of_N (year w)) (Z.of_N (month w)) (Z.of_N (day w)) * 24
     + Z.of_N (hour w)) * 60 + Z.of_N (minute w)) * 60 + Z.of_N (second w))%Z.

Definition utc_to_seconds (w : wallclock) : outcome Z :=
  if ((Z.of_N (year w) <? MINYEAR) || (MAXYEAR <? Z.of_N (year w)))%Z
  then Raise ValueError
  else Ok (wall_seconds w).

(** 1970-01-01, in these seconds. *)
Definition epoch : Z := (719163 * 24 * 60 * 60)%Z.

Definition max_fold_seconds : Z := (24 * 3600)%Z.

(** [datetime.timezone(timedelta(seconds=offset), name)]: the offset
    must lie strictly between minus and plus 24 hours. *)
Definition timezone (offset : Z) (name : string) : outcome tzinfo :=
  if ((-86400 <? offset) && (offset <? 86400))%Z
  then Ok {| tzname := name; utcoffset := fun _ => Some (offset * 1000000)%Z |}
  else Raise ValueError.

(** A timestamp is valid when its fields are those of a real date and
    time of day, as they are for every [datetime] object. *)
Definition valid (w : wallclock) : Prop :=
  (1 <= year w <= 9999)%N /\ (1 <= month w <= 12)%N /\
  (1 <= Z.of_N (day w) <= days_in_month (Z.of_N (year w)) (Z.of_N (month w)))%Z /\
  (hour w < 24)%N /\ (minute w < 60)%N /\ (second w < 60)%N /\
  (microsecond w < 1000000)%N.

Definition valid_date (y m d : Z) : Prop :=
  (1 <= y <= 9999 /\ 1 <= m <= 12 /\ 1 <= d <= days_in_month y m)%Z.

(** The same reading with [fold] 0. *)
Definition clear_fold (w : wallclock) : wallclock :=
  {| year := year w; month := month w; day := day w; hour := hour w;
     minute := minute w; second := second w; microsecond := microsecond w;
     fold := false |}.

(** Decimal text of a number, as ["%d"] prints it. *)
Definition dec (n : N) : string := NilEmpty.string_of_uint (N.to_uint n).

(** ["%0<width>d" % n]: decimal text left-padded with zeros. *)
Fixpoint zeros (k : nat) : string :=
  match k with
  | O => EmptyString
  | S k' => String "0"%char (zeros k')
  end.

Definition pad0 (width : nat) (n : N) : string :=
  let s := dec n in zeros (width - String.length s) ++ s.

(** The clock part of [isoformat()] with [timespec='auto']: microseconds
    are printed only when they are not zero. *)
Definition format_time (w : wallclock) : string :=
  pad0 2 (hour w) ++ ":" ++ pad0 2 (minute w) ++ ":" ++ pad0 2 (second w) ++
  (if (microsecond w =? 0)%N then EmptyString
   else "." ++ pad0 6 (microsecond w)).

(** The UTC offset suffix of [isoformat()]: sign, hours and minutes, then
    seconds and microseconds only when they are not zero. *)
Definition format_offset (off : option Z) : string :=
  match off with
  | None => EmptyString
  | Some o =>
      let sign := if (o <? 0)%Z then "-" else "+" in
      let a := Z.to_N (Z.abs o) in
      let hh := (a / 3600000000)%N in
      let r := (a mod 3600000000)%N in
      let mm := (r / 60000000)%N in
      let ss := (r mod 60000000)%N in
      sign ++ pad0 2 hh ++ ":" ++ pad0 2 mm ++
      (if (ss =? 0)%N then EmptyString
       else ":" ++ pad0 2 (ss / 1000000)%N ++
            (if (ss mod 1000000 =? 0)%N then EmptyString
             else "." ++ pad0 6 (ss mod 1000000)%N))
  end.

(** [dt.utcoffset()]: [None] for a naive value. *)
Definition dt_utcoffset (dt : datetime) : option Z :=
  match tz dt with
  | None => None
  | Some z => utcoffset z (wall dt)
  end.

(** [dt.isoformat()] of the Python standard library, default arguments. *)
Definition isoformat (dt : datetime) : string :=
  pad0 4 (year (wall dt)) ++ "-" ++ pad0 2 (month (wall dt)) ++ "-" ++
  pad0 2 (day (wall dt)) ++ "T" ++ format_time (wall dt) ++
  format_offset (dt_utcoffset dt).

(* ------------------------------------------------------------------ *)
(** * make_filter *)

(** The clauses [make_filter] collects before joining them with [AND]. *)
Definition resource_clause : string :=
  "resource.type=" ++ dq ++ "gce_instance" ++ dq.

Definition instance_clause (instance_name : string) : string :=
  "resource.labels.instance_id=" ++ dq ++ instance_name ++ dq.

Definition lower_clause (from_date : datetime) : string :=
  "timestamp >= " ++ dq ++ isoformat from_date ++ dq.

Definition upper_clause (to_date : datetime) : string :=
  "timestamp <= " ++ dq ++ isoformat to_date ++ dq.

(** The list [clauses] as it stands when [make_filter] reaches its
    [return]: the appends of the source, in order.  A list is true in a
    condition when it is not empty; a [datetime] is always true and
    [None] is false. *)
Definition make_filter_clauses (machines : list string) (from_date : datetime)
    (to_date : option datetime) : list string :=
  let clauses := [resource_clause] in
  let clauses :=
    match machines with
    | [] => clauses
    | _ :: _ =>
        let clause := join " OR " (map instance_clause machines) in
        (clauses ++ [("(" ++ clause ++ ")")%string])%list
    end in
  let clauses := (clauses ++ [lower_clause from_date])%list in
  let clauses :=
    match to_date with
    | Some t => (clauses ++ [upper_clause t])%list
    | None => clauses
    end in
  clauses.

Definition make_filter (machines : list string) (from_date : datetime)
    (to_date : option datetime) : string :=
  join " AND " (make_filter_clauses machines from_date to_date).

(* ------------------------------------------------------------------ *)
(** * Log entries and their API representation *)

(** The structured value [LogEntry.to_api_repr()] returns: a dictionary
    whose values are strings, numbers, booleans, lists or dictionaries.
    Dictionaries keep their keys in insertion order. *)
#[warnings="-register-all"]
Inductive json : Type :=
| JNull
| JBool (b : bool)
| JNum (n : Z)
| JStr (s : string)
| JList (items : list json)
| JDict (fields : list (string * json)).

Record LogEntry : Type := { to_api_repr : json }.

Fixpoint assoc (key : string) (fields : list (string * json)) : option json :=
  match fields with
  | [] => None
  | (k, v) :: rest => if String.eqb k key then Some v else assoc key rest
  end.

(** [obj[key]] with a string key: a dictionary without the key raises
    [KeyError], anything that is not a dictionary raises [TypeError]. *)
Definition getitem (obj : json) (key : string) : outcome json :=
  match obj with
  | JDict fields =>
      match assoc key fields with
      | Some v => Ok v
      | None => Raise (KeyError key)
      end
  | _ => Raise TypeError
  end.

(** [s + v] where [s] is a [str]: [v] must be a [str] too. *)
Definition str_add (s : string) (v : json) : outcome string :=
  match v with
  | JStr t => Ok (s ++ t)
  | _ => Raise TypeError
  end.

(* ------------------------------------------------------------------ *)
(** * colorama constants *)

Definition CSI : string := String "027"%char "[".

(** colorama's [code_to_chars]. *)
Definition code_to_chars (code : N) : string := CSI ++ dec code ++ "m".

Definition Fore_LIGHTRED_EX : string := code_to_chars 91.
Definition Fore_LIGHTGREEN_EX : string := code_to_chars 92.
Definition Fore_LIGHTCYAN_EX : string := code_to_chars 96.
Definition Fore_RESET : string := code_to_chars 39.
Definition Style_BRIGHT : string := code_to_chars 1.
Definition Style_RESET_ALL : string := code_to_chars 0.

(* ------------------------------------------------------------------ *)
(** * How a terminal shows a string

    The reading of "visible text" and "color" used by the properties of
    [line_format]: a terminal that obeys the SGR control sequences
    [ESC [ n m] and shows every other character in the style then in
    force. *)

Record style : Type := { fg : option N; bright : bool }.

Definition default_style : style := {| fg := None; bright := false |}.

(** Effect of the SGR parameter [n] on the style in force. *)
Definition sgr (n : N) (st : style) : style :=
  if (n =? 0)%N then default_style
  else if (n =? 1)%N then {| fg := fg st; bright := true |}
  else if (n =? 22)%N then {| fg := fg st; bright := false |}
  else if (n =? 39)%N then {| fg := None; bright := bright st |}
  else if ((30 <=? n) && (n <=? 37) || (90 <=? n) && (n <=? 97))%N
       then {| fg := Some n; bright := bright st |}
  else st.

Definition digit_of (c : ascii) : option N :=
  let n := N_of_ascii c in
  if ((48 <=? n) && (n <=? 57))%N then Some (n - 48)%N else None.

Inductive term_mode : Type :=
| Text
| Escape
| Params (n : N).

(** The characters a terminal shows for [s], each with its style. *)
Fixpoint render (s : string) (mode : term_mode) (st : style)
  : list (ascii * style) :=
  match s with
  | EmptyString => []
  | String c rest =>
      match mode with
      | Text =>
          if Ascii.eqb c ESC then render rest Escape st
          else (c, st) :: render rest Text st
      | Escape =>
          if Ascii.eqb c "["%char then render rest (Params 0) st
          else render rest Text st
      | Params n =>
          match digit_of c with
          | Some d => render rest (Params (10 * n + d)) st
          | None =>
              if Ascii.eqb c "m"%char then render rest Text (sgr n st)
              else if Ascii.eqb c ";"%char then render rest (Params 0) (sgr n st)
              else render rest Text st
          end
      end
  end.

(** The text [s] shown entirely in style [st]. *)
Fixpoint paint (s : string) (st : style) : list (ascii * style) :=
  match s with
  | EmptyString => []
  | String c rest => (c, st) :: paint rest st
  end.

Definition visible_text (s : string) : string :=
  string_of_list_ascii (map fst (render s Text default_style)).

Definition green : style := {| fg := Some 92%N; bright := false |}.
Definition cyan : style := {| fg := Some 96%N; bright := false |}.
Definition bright_cyan : style := {| fg := Some 96%N; bright := true |}.

(** The line feed character. *)
Definition LF : ascii := "010"%char.

(* ------------------------------------------------------------------ *)
(** * Effects: the trace of what the script does to the outside world *)

Inductive stream : Type :=
| Stdout
| Stderr
| File (path : string).

Inductive event : Type :=
| Query (filter_ : string) (page_size : nat)  (* client.list_entries(...) *)
| Print (file : stream) (text : string)       (* print(text, file=file) *)
| Sleep (seconds : nat)                       (* time.sleep(seconds) *)
| Open (path : string)                        (* open(path, 'w') *)
| Close (path : string).

Definition trace : Type := list event.

(** A computation that may raise and that extends the trace; what it
    did before raising stays in the trace. *)
Definition M (A : Type) : Type := trace -> outcome A * trace.

Definition ret {A} (a : A) : M A := fun tr => (Ok a, tr).

Definition raise {A} (e : exn) : M A := fun tr => (Raise e, tr).

Definition bind {A B} (m : M A) (f : A -> M B) : M B :=
  fun tr =>
    match m tr with
    | (Ok a, tr') => f a tr'
    | (Raise e, tr') => (Raise e, tr')
    end.

Definition emit (ev : event) : M unit := fun tr => (Ok tt, (tr ++ [ev])%list).

Definition lift {A} (o : outcome A) : M A := fun tr => (o, tr).

Declare Scope io_scope.
Delimit Scope io_scope with io.
Notation "x <- m ;; k" := (bind m (fun x => k))
  (at level 61, m at next level, right associativity) : io_scope.
Notation "m ;; k" := (bind m (fun _ => k))
  (at level 61, right associativity) : io_scope.

(** The lines printed to [file], in order. *)
Fixpoint printed (file_is : stream -> bool) (tr : trace) : list string :=
  match tr with
  | [] => []
  | Print f text :: rest =>
      if file_is f then text :: printed file_is rest else printed file_is rest
  | _ :: rest => printed file_is rest
  end.

Definition is_stderr (f : stream) : bool :=
  match f with Stderr => true | _ => false end.

Definition is_stdout (f : stream) : bool :=
  match f with Stdout => true | _ => false end.

(** [same f] recognises the stream [f]. *)
Definition same (f g : stream) : bool :=
  match f, g with
  | Stdout, Stdout => true
  | Stderr, Stderr => true
  | File p, File q => String.eqb p q
  | _, _ => false
  end.

(** The filters of the queries sent to the client, in order. *)
Fixpoint queries (tr : trace) : list string :=
  match tr with
  | [] => []
  | Query filter_ _ :: rest => filter_ :: queries rest
  | _ :: rest => queries rest
  end.

(* ------------------------------------------------------------------ *)
(** * The logging client *)

(** What iterating over the result of [client.list_entries] does, step
    by step: it ends, it hands over the next entry, or an exception is
    raised in the loop while it waits for the next entry: an error of
    the backend, or [KeyboardInterrupt] when the interrupt signal
    arrives.  [rest] in [Raises] is what the query still had to deliver
    at that point. *)
Inductive entry_iter : Type :=
| Stop
| Yield (entry : LogEntry) (rest : entry_iter)
| Raises (e : exn) (rest : entry_iter).

(** The client as it answers one call of [list_entries(filter_, page_size)]. *)
Definition Client : Type := string -> nat -> entry_iter.

(** All entries of a query result, delivered or not. *)
Fixpoint matching (it : entry_iter) : list LogEntry :=
  match it with
  | Stop => []
  | Yield entry rest => entry :: matching rest
  | Raises _ rest => matching rest
  end.

(** The entries handed over before the first exception, if any. *)
Fixpoint delivered (it : entry_iter) : list LogEntry :=
  match it with
  | Stop => []
  | Yield entry rest => entry :: delivered rest
  | Raises _ _ => []
  end.

(** The exception that ends the iteration early, if any. *)
Fixpoint failure (it : entry_iter) : option exn :=
  match it with
  | Stop => None
  | Yield _ rest => failure rest
  | Raises e _ => Some e
  end.

(** A result that is delivered whole. *)
Fixpoint yield_all (entries : list LogEntry) : entry_iter :=
  match entries with
  | [] => Stop
  | entry :: rest => Yield entry (yield_all rest)
  end.

(** The environment of a run: what starting up meets, and the tail
    loop's surroundings iteration by iteration. *)
Record world : Type := {
  client_error : option exn;        (* Client() raises, e.g. no credentials *)
  open_error : string -> option exn; (* open(path, 'w') raises *)
  now : nat -> datetime;            (* datetime.now() in iteration k *)
  client : nat -> Client;           (* the client's answer in iteration k *)
  sleep_interrupted : nat -> bool   (* the signal arrives during the sleep *)
}.

(** The parsed command line. *)
Module Args.
Record t : Type := {
  machine : list string;
  from_date : datetime;
  to_date : option datetime;
  tail : bool;
  utc : bool;
  to_file : option string;
  api : bool
}.
End Args.

(** How the process ends. *)
Inductive exit_status : Type :=
| ExitSuccess
| ExitFailure (e : exn).

(* ------------------------------------------------------------------ *)
(** * The script *)

Definition POLL_INTERVAL : nat := 1.
Definition PAGE_SIZE : nat := 100.

Section Script.

(** Python's [str()] of a value that is not a string (a dictionary, a
    list, a number, ...): part of the language, taken as given. *)
Variable py_repr : json -> string.

(** [localtime] of the C library with the zone data of the process:
    for a POSIX timestamp, the offset east of UTC in seconds and the
    zone's abbreviation ([tm_gmtoff], [tm_zone]); it can fail.  The
    broken-down time it gives is the calendar reading of the timestamp
    moved by that offset.  Part of the environment. *)
Variable localtime : Z -> outcome (Z * string).

(** [local(u)]: the local reading, in seconds, of the instant [u];
    [utc_to_seconds] refuses a reading outside the years 1 to 9999. *)
Definition local (u : Z) : outcome Z :=
  (lt <~ localtime (u - epoch) ;;
   let r := (u + fst lt)%Z in
   if ((r <? 1 * 86400) || ((MAXORDINAL + 1) * 86400 <=? r))%Z
   then Raise ValueError
   else Ok r)%outcome.

(** [local_to_seconds]: solves [t = local(u)] for [u], where [t] is the
    wall-clock reading; of two solutions [fold] picks the later one,
    and in a gap the reading is moved. *)
Definition local_to_seconds (w : wallclock) (fold : bool) : outcome Z :=
  (t <~ utc_to_seconds w ;;
   lt <~ local t ;;
   let a := (lt - t)%Z in
   let u1 := (t - a)%Z in
   t1 <~ local u1 ;;
   let finish (b : Z) : outcome Z :=
     let u2 := (t - b)%Z in
     t2 <~ local u2 ;;
     if (t2 =? t)%Z then Ok u2
     else if (t1 =? t)%Z then Ok u1
     else Ok (if fold then Z.min u1 u2 else Z.max u1 u2) in
   if (t1 =? t)%Z then
     let u2 := if fold then (u1 + max_fold_seconds)%Z
               else (u1 - max_fold_seconds)%Z in
     lt <~ local u2 ;;
     let b := (lt - u2)%Z in
     if (a =? b)%Z then Ok u1 else finish b
   else finish (t1 - u1)%Z)%outcome.

(** The zone of the process at a POSIX timestamp, as a fixed-offset
    [timezone], with its offset in microseconds. *)
Definition local_timezone_from_timestamp (timestamp : Z)
  : outcome (Z * tzinfo) :=
  (lt <~ localtime timestamp ;;
   z <~ timezone (fst lt) (snd lt) ;;
   Ok ((fst lt * 1000000)%Z, z))%outcome.

(** [dt.astimezone()] without argument: [dt] is brought to UTC with its
    own offset, which for a naive [dt] is the offset of the process's
    zone at that local time; the zone of the process at that instant is
    attached and its offset added. *)
Definition astimezone (dt : datetime) : outcome datetime :=
  (offset <~ match dt_utcoffset dt with
             | Some offset => Ok offset
             | None =>
                 (seconds <~ local_to_seconds (wall dt) (fold (wall dt)) ;;
                  oz <~ local_timezone_from_timestamp (seconds - epoch) ;;
                  Ok (fst oz))
             end ;;
   utc <~ add_us (wall dt) (- offset) ;;
   oz <~ local_timezone_from_timestamp (wall_seconds utc - epoch) ;;
   result <~ add_us utc (fst oz) ;;
   Ok {| wall := result; tz := Some (snd oz) |})%outcome.

(** [str(v)], which is also what an f-string field [{v}] gives. *)
Definition py_str (v : json) : string :=
  match v with
  | JStr s => s
  | _ => py_repr v
  end.

Definition api_format (response : LogEntry) : outcome json :=
  Ok (to_api_repr response).

Definition line_format (response : LogEntry) : outcome json :=
  (let json := to_api_repr response in
   resource <~ getitem json "resource" ;;
   labels <~ getitem resource "labels" ;;
   machine <~ getitem labels "instance_id" ;;
   s <~ str_add Fore_LIGHTGREEN_EX machine ;;
   let s := s ++ Fore_LIGHTCYAN_EX in
   timestamp <~ getitem json "timestamp" ;;
   let s := s ++ (" [" ++ py_str timestamp ++ "] ") in
   let s := s ++ Style_BRIGHT in
   severity <~ getitem json "severity" ;;
   let s := s ++ ("(" ++ py_str severity ++ "): ") in
   let s := s ++ Style_RESET_ALL in
   textPayload <~ getitem json "textPayload" ;;
   Ok (JStr (s ++ py_str textPayload)))%outcome.

(** [print(obj, file=outfile)] *)
Definition print (obj : json) (outfile : stream) : M unit :=
  emit (Print outfile (py_str obj)).

(** [client.list_entries(filter_=..., page_size=...)] *)
Definition list_entries (c : Client) (filter_ : string) (page_size : nat)
  : M entry_iter :=
  (emit (Query filter_ page_size) ;; ret (c filter_ page_size))%io.

(** The [for entry in ...] loop of [print_logs], with the current value
    of [empty]. *)
Fixpoint for_entries (it : entry_iter) (formatter : LogEntry -> outcome json)
    (outfile : stream) (empty : bool) : M bool :=
  match it with
  | Stop => ret empty
  | Raises e _ => raise e
  | Yield entry rest =>
      (line <- lift (formatter entry) ;;
       print line outfile ;;
       let empty := false in
       for_entries rest formatter outfile empty)%io
  end.

Definition print_logs (c : Client) (machines : list string)
    (from_date : datetime) (to_date : option datetime)
    (formatter : LogEntry -> outcome json) (outfile : stream) : M bool :=
  (let empty := true in
   it <- list_entries c (make_filter machines from_date to_date) PAGE_SIZE ;;
   for_entries it formatter outfile empty)%io.

(** [time.sleep(seconds)] in iteration [k] of the tail loop. *)
Definition sleep (w : world) (k seconds : nat) : M unit :=
  (emit (Sleep seconds) ;;
   if sleep_interrupted w k then raise KeyboardInterrupt else ret tt)%io.

(** One pass through the body of [while True] in [tail], iteration
    number [k]; returns the low watermark for the next pass. *)
Definition tail_iteration (w : world) (machines : list string)
    (formatter : LogEntry -> outcome json) (outfile : stream)
    (k : nat) (low_watermark : datetime) : M datetime :=
  (high_watermark <- lift (astimezone (now w k)) ;;
   empty <- print_logs (client w k) machines low_watermark
              (Some high_watermark) formatter outfile ;;
   let low_watermark :=
     if negb empty then high_watermark else low_watermark in
   sleep w k POLL_INTERVAL ;;
   ret low_watermark)%io.

(** The first [n] passes of [while True], starting at iteration [k]. *)
Fixpoint tail_loop (w : world) (machines : list string)
    (formatter : LogEntry -> outcome json) (outfile : stream)
    (n k : nat) (low_watermark : datetime) : M datetime :=
  match n with
  | O => ret low_watermark
  | S n' =>
      (low_watermark <- tail_iteration w machines formatter outfile
                          k low_watermark ;;
       tail_loop w machines formatter outfile n' (S k) low_watermark)%io
  end.

Definition interrupt_notice : string :=
  Fore_LIGHTRED_EX ++ "CTRL+C pressed. Aborting." ++ Fore_RESET.

(** [tail], observed for [fuel] passes of its loop: [None] when the
    loop is still running after them. *)
Definition tail (w : world) (machines : list string) (from_date : datetime)
    (formatter : LogEntry -> outcome json) (outfile : stream) (fuel : nat)
  : trace -> option (outcome unit) * trace :=
  fun tr =>
    let low_watermark := from_date in
    match tail_loop w machines formatter outfile fuel 0 low_watermark tr with
    | (Ok _, tr') => (None, tr')
    | (Raise KeyboardInterrupt, tr') =>
        (Some (Ok tt), (tr' ++ [Print Stderr interrupt_notice])%list)
    | (Raise e, tr') => (Some (Raise e), tr')
    end.

Definition adjust_tz (ts : option datetime) (utc : bool)
  : outcome (option datetime) :=
  match ts with
  | None => Ok ts
  | Some t =>
      match tz t with
      | Some _ => Ok ts
      | None =>
          if utc then Ok (Some (replace_tzinfo t (Some pytz_UTC)))
          else (r <~ astimezone t ;; Ok (Some r))%outcome
      end
  end.

(** What the context manager [output_file(args)] yields: standard output,
    or the file named by [--to-file]. *)
Definition output_file (args : Args.t) : stream :=
  match Args.to_file args with
  | None => Stdout
  | Some path => File path
  end.

(** [with output_file(args) as outfile: body]: a file is opened for
    writing before the body and closed when the body is left, normally
    or by an exception; when [open] raises, the body is not entered. *)
Definition with_output_file (w : world) (args : Args.t)
    (body : stream -> trace -> option (outcome unit) * trace)
  : trace -> option (outcome unit) * trace :=
  fun tr =>
    match Args.to_file args with
    | None => body (output_file args) tr
    | Some path =>
        match open_error w path with
        | Some e => (Some (Raise e), tr)
        | None =>
            match body (output_file args) (tr ++ [Open path])%list with
            | (Some r, tr') => (Some r, (tr' ++ [Close path])%list)
            | (None, tr') => (None, tr')
            end
        end
    end.

Definition main (w : world) (args : Args.t) (fuel : nat)
  : trace -> option (outcome unit) * trace :=
  fun tr =>
  let formatter := if Args.api args then api_format else line_format in
  match adjust_tz (Some (Args.from_date args)) (Args.utc args) with
  | Raise e => (Some (Raise e), tr)
  | Ok from_date =>
  match adjust_tz (Args.to_date args) (Args.utc args) with
  | Raise e => (Some (Raise e), tr)
  | Ok to_date =>
  match client_error w with   (* [client = Client()] *)
  | Some e => (Some (Raise e), tr)
  | None =>
  with_output_file w args (fun outfile =>
    match from_date with
    | None => (* [None.isoformat()] in [make_filter] *)
        fun tr => (Some (Raise AttributeError), tr)
    | Some from_date =>
        if Args.tail args
        then tail w (Args.machine args) from_date formatter outfile fuel
        else fun tr =>
               match print_logs (client w 0) (Args.machine args) from_date
                       to_date formatter outfile tr with
               | (Ok _, tr') => (Some (Ok tt), tr')
               | (Raise e, tr') => (Some (Raise e), tr')
               end
    end) tr
  end end end.

(** The script run as a program: it exits successfully when [main]
    returns and with a failure when an exception leaves [main]. *)
Definition script (w : world) (args : Args.t) (fuel : nat)
  : option exit_status * trace :=
  match main w args fuel [] with
  | (Some (Ok _), tr) => (Some ExitSuccess, tr)
  | (Some (Raise e), tr) => (Some (ExitFailure e), tr)
  | (None, tr) => (None, tr)
  end.

(* ---------------------------------------------------------------- *)
(** ** Vocabulary of the properties *)

(** [formatter] turns [entry] into an object that prints as [text]. *)
Definition formats (formatter : LogEntry -> outcome json)
    (entry : LogEntry) (text : string) : Prop :=
  exists obj, formatter entry = Ok obj /\ py_str obj = text.

(** The record exposes an instance identifier, a timestamp, a severity
    and a text payload, whose texts are the four strings. *)
Definition exposes (response : LogEntry)
    (instance timestamp severity payload : string) : Prop :=
  (exists resource labels,
      getitem (to_api_repr response) "resource" = Ok resource /\
      getitem resource "labels" = Ok labels /\
      getitem labels "instance_id" = Ok (JStr instance)) /\
  (exists v, getitem (to_api_repr response) "timestamp" = Ok v /\
             py_str v = timestamp) /\
  (exists v, getitem (to_api_repr response) "severity" = Ok v /\
             py_str v = severity) /\
  (exists v, getitem (to_api_repr response) "textPayload" = Ok v /\
             py_str v = payload).

(** Text without terminal control sequences. *)
Definition plain (s : string) : Prop := ~ occurs ESC s.

(** The bounded query returns true exactly when the query returned at
    least one record. *)
Definition returns_true_iff_some (c : Client) (machines : list string)
    (from_date : datetime) (to_date : option datetime)
    (formatter : LogEntry -> outcome json) (outfile : stream) : Prop :=
  forall tr b tr',
    print_logs c machines from_date to_date formatter outfile tr = (Ok b, tr') ->
    (b = true <->
     matching (c (make_filter machines from_date to_date) PAGE_SIZE) <> []).

(** One call of the bounded query on a backend that returns [entries]
    prints one line per entry to [outfile], in order, each the
    formatter's text of its entry. *)
Definition peek_round_trip (c : Client) (machines : list string)
    (from_date : datetime) (to_date : option datetime)
    (formatter : LogEntry -> outcome json) (outfile : stream)
    (entries : list LogEntry) : Prop :=
  c (make_filter machines from_date to_date) PAGE_SIZE = yield_all entries ->
  exists lines,
    printed (same outfile)
      (snd (print_logs c machines from_date to_date formatter outfile [])) = lines
    /\ List.length lines = List.length entries
    /\ Forall2 (formats formatter) entries lines.

(** In tail mode every query that was sent has all its records
    printed by the time the interrupt has ended the loop. *)
Definition query_runs_to_completion (w : world) (machines : list string)
    (from_date : datetime) (formatter : LogEntry -> outcome json)
    (outfile : stream) : Prop :=
  forall fuel tr,
    tail w machines from_date formatter outfile fuel [] = (Some (Ok tt), tr) ->
    forall k filter_,
      nth_error (queries tr) k = Some filter_ ->
      forall entry text,
        In entry (matching (client w k filter_ PAGE_SIZE)) ->
        formats formatter entry text ->
        In text (printed (same outfile) tr).

(** Starting up succeeds, with these effective bounds: both
    timestamps are adjusted, the client is made and the output file,
    if one is asked for, is opened. *)
Definition starts (w : world) (args : Args.t)
    (from_date : datetime) (to_date : option datetime) : Prop :=
  adjust_tz (Some (Args.from_date args)) (Args.utc args) = Ok (Some from_date)
  /\ adjust_tz (Args.to_date args) (Args.utc args) = Ok to_date
  /\ client_error w = None
  /\ (forall path, Args.to_file args = Some path -> open_error w path = None).

(** With [utc] unset, [adjust_tz] returns the naive [ts] read in the
    zone of the process: an aware timestamp with the wall-clock reading
    of [ts]. *)
Definition returns_local_reading (ts : datetime) : Prop :=
  exists r, adjust_tz (Some ts) false = Ok (Some r)
            /\ tz r <> None /\ wall r = clear_fold (wall ts).

(** The line that [line_format] returns for the record shows on the
    terminal as the four texts in the fixed shape, the instance name
    and the prefix in their colors and the payload in default style. *)
Definition renders_in_shape (response : LogEntry)
    (inst ts sev payload : string) : Prop :=
  exists line,
    line_format response = Ok (JStr line)
    /\ visible_text line =
       inst ++ " [" ++ ts ++ "] (" ++ sev ++ "): " ++ payload
    /\ render line Text default_style =
       (paint inst green ++ paint (" [" ++ ts ++ "] ") cyan ++
        paint ("(" ++ sev ++ "): ") bright_cyan ++
        paint payload default_style)%list.

(** What [main] derives from the command line: the formatter, and the
    events of opening and closing the output stream. *)
Definition formatter_of (args : Args.t) : LogEntry -> outcome json :=
  if Args.api args then api_format else line_format.

Definition opening (args : Args.t) : trace :=
  match Args.to_file args with
  | None => []
  | Some path => [Open path]
  end.

Definition closing (args : Args.t) : trace :=
  match Args.to_file args with
  | None => []
  | Some path => [Close path]
  end.

(* ---------------------------------------------------------------- *)
(** ** Test data *)

(** The aware timestamp 2023-01-01 hh:00:00 UTC. *)
Definition jan1_2023_utc (hh : N) : datetime :=
  {| wall := {| year := 2023; month := 1; day := 1;
                hour := hh; minute := 0; second := 0; microsecond := 0;
                fold := false |}%N;
     tz := Some pytz_UTC |}.

(** The same wall-clock time without a time zone. *)
Definition jan1_2023_naive (hh : N) : datetime :=
  replace_tzinfo (jan1_2023_utc hh) None.

(** A text entry of instance [vm-1]. *)
Definition text_entry (payload : string) : LogEntry :=
  {| to_api_repr :=
       JDict [("insertId", JStr "a1");
              ("resource",
               JDict [("type", JStr "gce_instance");
                      ("labels", JDict [("instance_id", JStr "vm-1");
                                        ("zone", JStr "us-east1-b")])]);
              ("timestamp", JStr "2023-01-01T00:00:05Z");
              ("severity", JStr "INFO");
              ("textPayload", JStr payload)] |}.

(** A payload with a color sequence of its own: red text. *)
Definition red_payload : string := String ESC "[31mred".

(** A structured entry: it has a [jsonPayload] and no [textPayload]. *)
Definition struct_entry : LogEntry :=
  {| to_api_repr :=
       JDict [("resource",
               JDict [("type", JStr "gce_instance");
                      ("labels", JDict [("instance_id", JStr "vm-1")])]);
              ("timestamp", JStr "2023-01-01T00:00:06Z");
              ("severity", JStr "INFO");
              ("jsonPayload", JDict [("message", JStr "started")])] |}.

(** A machine name with a double quote in it. *)
Definition quoted_name : string := "x" ++ dq ++ "y".

(** A zone one hour east of UTC, and a process whose local time it is
    all year round. *)
Definition plus_one : tzinfo :=
  {| tzname := "CET"; utcoffset := fun _ => Some (3600 * 1000000)%Z |}.

Definition local_plus_one (dt : datetime) : datetime :=
  replace_tzinfo dt (Some plus_one).

Definition cet : Z -> outcome (Z * string) :=
  fun _ => Ok (3600%Z, "CET").

(** A process five hours west of UTC all year round. *)
Definition est : Z -> outcome (Z * string) :=
  fun _ => Ok ((-18000)%Z, "EST").

(** A process in Berlin in 2023: summer time from 26 March 01:00 UTC to
    29 October 01:00 UTC. *)
Definition berlin_2023 : Z -> outcome (Z * string) :=
  fun timestamp =>
    if ((1679792400 <=? timestamp) && (timestamp <? 1698541200))%Z
    then Ok (7200%Z, "CEST")
    else Ok (3600%Z, "CET").

(** A naive timestamp with the given date, time of day and [fold]. *)
Definition naive (y m d hh mm : N) (f : bool) : datetime :=
  {| wall := {| year := y; month := m; day := d; hour := hh; minute := mm;
                second := 0; microsecond := 0; fold := f |};
     tz := None |}.

(** How a converted timestamp prints, and the name of its zone. *)
Definition reading (o : outcome datetime) : outcome (string * option string) :=
  (r <~ o ;; Ok (isoformat r, option_map tzname (tz r)))%outcome.

(** The first day of the calendar, as [--from-date 0001-01-01] gives it. *)
Definition first_day : datetime := naive 1 1 1 0 0 false.

(** A stand-in for Python's text of values that are not strings. *)
Definition opaque_repr (v : json) : string := "<object>".

(** A clock that shows 2023-01-01 01:00 in the first pass and goes on
    by one hour per pass until 23:00. *)
Definition hourly (k : nat) : datetime :=
  jan1_2023_naive (N.min (N.of_nat (S k)) 23).

(** A backend that answers every query with the same result. *)
Definition always (it : entry_iter) : Client := fun _ _ => it.

(** A world with the clock at 2023-01-01, one hour per pass: the first
    query finds nothing, the second finds two entries, later ones find
    nothing; the signal arrives during the sleep of pass [stop]. *)
Definition quiet_then_busy (stop : nat) : world :=
  {| client_error := None; open_error := fun _ => None;
     now := hourly;
     client := fun k =>
       if Nat.eqb k 1
       then always (yield_all [text_entry "hello world"; text_entry "bye"])
       else always Stop;
     sleep_interrupted := fun k => Nat.eqb k stop |}.

(** A world in which the signal arrives during the first query, after
    the first of its two entries. *)
Definition interrupted_query : world :=
  {| client_error := None; open_error := fun _ => None;
     now := hourly;
     client := fun _ =>
       always (Yield (text_entry "hello world")
                 (Raises KeyboardInterrupt
                    (Yield (text_entry "bye") Stop)));
     sleep_interrupted := fun _ => false |}.

(** Command lines: tailing [vm-1] into a file, and peeking at it. *)
Definition tail_args : Args.t :=
  {| Args.machine := ["vm-1"]; Args.from_date := jan1_2023_naive 0;
     Args.to_date := None; Args.tail := true; Args.utc := false;
     Args.to_file := Some "out.log"; Args.api := false |}.

Definition peek_args : Args.t :=
  {| Args.machine := ["vm-1"]; Args.from_date := jan1_2023_naive 0;
     Args.to_date := None; Args.tail := false; Args.utc := true;
     Args.to_file := None; Args.api := true |}.

(** Peeking into a file from the first day of the calendar on, in
    local time. *)
Definition first_day_args : Args.t :=
  {| Args.machine := ["vm-1"]; Args.from_date := first_day;
     Args.to_date := None; Args.tail := false; Args.utc := false;
     Args.to_file := Some "out.log"; Args.api := false |}.

(** A process without credentials: [Client()] raises. *)
Definition no_credentials : world :=
  {| client_error := Some (BackendError "DefaultCredentialsError");
     open_error := fun _ => None;
     now := hourly;
     client := fun _ => always Stop;
     sleep_interrupted := fun _ => false |}.

(** A process that may not write where [--to-file] points. *)
Definition read_only : world :=
  {| client_error := None;
     open_error := fun _ => Some OSError;
     now := hourly;
     client := fun _ => always Stop;
     sleep_interrupted := fun _ => false |}.

(** The line [line_format] makes of [text_entry "hello world"]. *)
Definition hello_line : string :=
  Fore_LIGHTGREEN_EX ++ "vm-1" ++ Fore_LIGHTCYAN_EX ++
  " [2023-01-01T00:00:05Z] " ++ Style_BRIGHT ++ "(INFO): " ++
  Style_RESET_ALL ++ "hello world".

(** The text between the first double quote of a clause and the next
    one, and what follows that closing quote: how the backend reads
    the quoted operand of a comparison. *)
Fixpoint until_quote (s : string) : option (string * string) :=
  match s with
  | EmptyString => None
  | String c rest =>
      if Ascii.eqb c "034"%char then Some (EmptyString, rest)
      else match until_quote rest with
           | Some (before, after) => Some (String c before, after)
           | None => None
           end
  end.

Definition quoted_operand (clause : string) : option (string * string) :=
  match until_quote clause with
  | Some (_, after_open) => until_quote after_open
  | None => None
  end.

(* ---------------------------------------------------------------- *)
(** ** Vocabulary of further properties *)

(** The characters [isoformat()] writes: digits and its separators. *)
Definition iso_char (c : ascii) : bool :=
  match digit_of c with
  | Some _ => true
  | None => existsb (Ascii.eqb c) ["-"; "T"; ":"; "."; "+"]%char
  end.

(** The durations of the sleeps, in order. *)
Fixpoint sleeps (tr : trace) : list nat :=
  match tr with
  | [] => []
  | Sleep seconds :: rest => seconds :: sleeps rest
  | _ :: rest => sleeps rest
  end.

(** The openings and closings of files, in order. *)
Fixpoint file_events (tr : trace) : list event :=
  match tr with
  | [] => []
  | Open path :: rest => Open path :: file_events rest
  | Close path :: rest => Close path :: file_events rest
  | _ :: rest => file_events rest
  end.

(** What the query and tail loops may do: query with the fixed page
    size, print to [outfile], sleep for the poll interval. *)
Definition loop_event (outfile : stream) (ev : event) : Prop :=
  match ev with
  | Query _ page_size => page_size = PAGE_SIZE
  | Print file _ => file = outfile
  | Sleep seconds => seconds = POLL_INTERVAL
  | Open _ | Close _ => False
  end.

(** What a whole run may print: lines to the chosen output stream, and
    the interrupt notice to the error stream. *)
Definition run_print (args : Args.t) (ev : event) : Prop :=
  match ev with
  | Print file text =>
      file = output_file args \/ (file = Stderr /\ text = interrupt_notice)
  | _ => True
  end.

(** The six keys [line_format] looks up. *)
Definition line_format_keys : list string :=
  ["resource"; "labels"; "instance_id"; "timestamp"; "severity"; "textPayload"].

(** More test data: a backend that fails after its first entry, a world
    in which nothing ever goes wrong, and a peek into a file. *)
Definition failing_backend : world :=
  {| client_error := None; open_error := fun _ => None;
     now := hourly;
     client := fun _ =>
       always (Yield (text_entry "hello world")
                 (Raises (BackendError "503 Service Unavailable") Stop));
     sleep_interrupted := fun _ => false |}.

Definition calm : world :=
  {| client_error := None; open_error := fun _ => None;
     now := hourly;
     client := fun k =>
       if Nat.eqb k 1
       then always (yield_all [text_entry "hello world"; text_entry "bye"])
       else always Stop;
     sleep_interrupted := fun _ => false |}.

Definition peek_file_args : Args.t :=
  {| Args.machine := ["vm-1"]; Args.from_date := jan1_2023_naive 0;
     Args.to_date := Some (jan1_2023_naive 1); Args.tail := false;
     Args.utc := true; Args.to_file := Some "out.log"; Args.api := false |}.

(** A world whose backend has the same two entries for every query. *)
Definition busy : world :=
  {| client_error := None; open_error := fun _ => None;
     now := hourly;
     client := fun _ =>
       always (yield_all [text_entry "hello world"; text_entry "bye"]);
     sleep_interrupted := fun _ => false |}.

(** The line [line_format] makes of [text_entry "bye"]. *)
Definition bye_line : string :=
  Fore_LIGHTGREEN_EX ++ "vm-1" ++ Fore_LIGHTCYAN_EX ++
  " [2023-01-01T00:00:05Z] " ++ Style_BRIGHT ++ "(INFO): " ++
  Style_RESET_ALL ++ "bye".

(* ---------------------------------------------------------------- *)
(** * Properties *)

(** ** Strings *)

Lemma append_assoc (a b c : string) : (a ++ b) ++ c = a ++ (b ++ c).
Proof. induction a as [|x a IH]; simpl; [reflexivity | now rewrite IH]. Qed.

Lemma append_nil_r (a : string) : a ++ EmptyString = a.
Proof. induction a as [|x a IH]; simpl; [reflexivity | now rewrite IH]. Qed.

Lemma occurs_append (c : ascii) (a b : string) :
  occurs c (a ++ b) <-> occurs c a \/ occurs c b.
Proof. induction a as [|x a IH]; simpl; tauto. Qed.

Lemma join_cons (sep x y : string) (rest : list string) :
  join sep (x :: y :: rest) = x ++ sep ++ join sep (y :: rest).
Proof. reflexivity. Qed.

Lemma join_split (sep : string) (l1 : list string) (x : string) (l2 : list string) :
  exists pre post, join sep (l1 ++ x :: l2) = pre ++ x ++ post.
Proof.
  induction l1 as [|y l1 IH]; simpl.
  - exists EmptyString. destruct l2 as [|z l2].
    + exists EmptyString. now rewrite append_nil_r.
    + now exists (sep ++ join sep (z :: l2)).
  - destruct IH as (pre & post & E).
    destruct (l1 ++ x :: l2)%list as [|z l] eqn:El.
    + now destruct l1.
    + exists (y ++ sep ++ pre), post.
      rewrite E. now rewrite !append_assoc.
Qed.

Lemma join_member (sep x : string) (l : list string) :
  In x l -> exists pre post, join sep l = pre ++ x ++ post.
Proof.
  intros H. apply in_split in H. destruct H as (l1 & l2 & ->).
  apply join_split.
Qed.

(** ** Calendar arithmetic *)

Local Open Scope Z_scope.

Lemma time_us_range w : valid w -> 0 <= time_us w < DAY_US.
Proof. unfold valid, time_us, DAY_US. lia. Qed.

Lemma dim_range y m : 1 <= m <= 12 -> 28 <= days_in_month y m <= 31.
Proof.
  intros H. unfold days_in_month.
  assert (m = 1 \/ m = 2 \/ m = 3 \/ m = 4 \/ m = 5 \/ m = 6 \/ m = 7 \/ m = 8 \/
          m = 9 \/ m = 10 \/ m = 11 \/ m = 12) as Hm by lia.
  destruct (is_leap y);
    repeat (destruct Hm as [-> | Hm]; [simpl; lia|]); subst; simpl; lia.
Qed.

(** The fields of a time of day given in microseconds. *)
Lemma time_fields (h mi s us : Z) :
  0 <= h -> 0 <= mi < 60 -> 0 <= s < 60 -> 0 <= us < 1000000 ->
  let t := ((h * 60 + mi) * 60 + s) * 1000000 + us in
  t / 3600000000 = h /\ (t / 60000000) mod 60 = mi /\
  (t / 1000000) mod 60 = s /\ t mod 1000000 = us.
Proof.
  intros Hh Hm Hs Hu t. subst t.
  repeat split.
  - symmetry. apply (Z.div_unique _ _ _ ((mi * 60 + s) * 1000000 + us)); lia.
  - assert (E : (((h * 60 + mi) * 60 + s) * 1000000 + us) / 60000000 = h * 60 + mi).
    { symmetry. apply (Z.div_unique _ _ _ (s * 1000000 + us)); lia. }
    rewrite E. symmetry. apply (Z.mod_unique _ _ h); lia.
  - assert (E : (((h * 60 + mi) * 60 + s) * 1000000 + us) / 1000000 = (h * 60 + mi) * 60 + s).
    { symmetry. apply (Z.div_unique _ _ _ us); lia. }
    rewrite E. symmetry. apply (Z.mod_unique _ _ (h * 60 + mi)); lia.
  - symmetry. apply (Z.mod_unique _ _ ((h * 60 + mi) * 60 + s)); lia.
Qed.

Lemma check_year_ok (y m d : Z) :
  1 <= y <= 9999 -> check_year y m d = Ok (y, m, d).
Proof.
  intros H. unfold check_year, MINYEAR, MAXYEAR.
  destruct (Z.leb_spec 1 y) as [H1|H1], (Z.leb_spec y 9999) as [H2|H2]; simpl;
    auto; lia.
Qed.

Lemma check_year_inv (y m d : Z) (r : Z * Z * Z) :
  check_year y m d = Ok r -> 1 <= y <= 9999 /\ r = (y, m, d).
Proof.
  unfold check_year, MINYEAR, MAXYEAR.
  destruct (Z.leb_spec 1 y) as [H1|H1], (Z.leb_spec y 9999) as [H2|H2]; simpl;
    intros H; try discriminate. injection H as <-. split; [lia | reflexivity].
Qed.

Lemma normalize_in_range (y m d : Z) :
  1 <= d <= days_in_month y m -> normalize_y_m_d y m d = check_year y m d.
Proof.
  intros H. unfold normalize_y_m_d.
  destruct (Z.ltb_spec d 1) as [H1|H1],
           (Z.ltb_spec (days_in_month y m) d) as [H2|H2]; simpl; auto; lia.
Qed.

Lemma normalize_zero (y m : Z) :
  1 <= m <= 12 ->
  normalize_y_m_d y m 0 =
  if 1 <? m then check_year y (m - 1) (days_in_month y (m - 1))
  else check_year (y - 1) 12 31.
Proof. intros H. unfold normalize_y_m_d. reflexivity. Qed.

Lemma normalize_next (y m : Z) :
  1 <= m <= 12 ->
  normalize_y_m_d y m (days_in_month y m + 1) =
  if m <? 12 then check_year y (m + 1) 1 else check_year (y + 1) 1 1.
Proof.
  intros Hm. pose proof (dim_range y m Hm) as Hd. unfold normalize_y_m_d.
  destruct (Z.ltb_spec (days_in_month y m + 1) 1) as [H1|H1]; [lia|].
  destruct (Z.ltb_spec (days_in_month y m) (days_in_month y m + 1)) as [H2|H2];
    [|lia].
  simpl. destruct (Z.eqb_spec (days_in_month y m + 1) 0) as [H3|H3]; [lia|].
  now rewrite Z.eqb_refl.
Qed.

Lemma dim_december (y : Z) : days_in_month y 12 = 31.
Proof. reflexivity. Qed.

Lemma dim_january (y : Z) : days_in_month y 1 = 31.
Proof. reflexivity. Qed.

Lemma normalize_shift (y m d c y' m' d' : Z) :
  valid_date y m d -> -1 <= c <= 1 ->
  normalize_y_m_d y m (d + c) = Ok (y', m', d') ->
  valid_date y' m' d' /\ normalize_y_m_d y' m' (d' - c) = Ok (y, m, d).
Proof.
  intros (Hy & Hm & Hd) Hc. unfold valid_date.
  pose proof (dim_range y m Hm) as Hdim.
  assert (c = 0 \/ (c = -1 /\ 2 <= d) \/ (c = -1 /\ d = 1) \/
          (c = 1 /\ d < days_in_month y m) \/ (c = 1 /\ d = days_in_month y m))
    as [-> | [(-> & H2) | [(-> & ->) | [(-> & H2) | (-> & H2)]]]] by lia.
  - rewrite Z.add_0_r, normalize_in_range by lia. intros H.
    apply check_year_inv in H. destruct H as (_ & H). injection H as -> -> ->.
    split; [lia|]. rewrite Z.sub_0_r, normalize_in_range by lia.
    now apply check_year_ok.
  - rewrite normalize_in_range by lia. intros H.
    apply check_year_inv in H. destruct H as (_ & H). injection H as -> -> ->.
    split; [lia|]. replace (d + -1 - -1) with d by lia.
    rewrite normalize_in_range by lia. now apply check_year_ok.
  - change (1 + -1) with 0. rewrite normalize_zero by lia.
    destruct (Z.ltb_spec 1 m) as [Hlt|Hlt]; intros H; apply check_year_inv in H;
      destruct H as (Hy' & H); injection H as -> -> ->.
    + pose proof (dim_range y (m - 1)) as Hd'.
      split; [lia|]. replace (days_in_month y (m - 1) - -1)
        with (days_in_month y (m - 1) + 1) by lia.
      rewrite normalize_next by lia.
      destruct (Z.ltb_spec (m - 1) 12) as [Hlt2|Hlt2]; [|lia].
      replace (m - 1 + 1) with m by lia. now apply check_year_ok.
    + assert (m = 1) as -> by lia. rewrite dim_december. split; [lia|].
      change (31 - -1) with (days_in_month (y - 1) 12 + 1).
      rewrite normalize_next by lia. simpl.
      replace (y - 1 + 1) with y by lia. now apply check_year_ok.
  - rewrite normalize_in_range by lia. intros H.
    apply check_year_inv in H. destruct H as (_ & H). injection H as -> -> ->.
    split; [lia|]. replace (d + 1 - 1) with d by lia.
    rewrite normalize_in_range by lia. now apply check_year_ok.
  - rewrite H2, normalize_next by lia.
    destruct (Z.ltb_spec m 12) as [Hlt|Hlt]; intros H; apply check_year_inv in H;
      destruct H as (Hy' & H); injection H as -> -> ->.
    + pose proof (dim_range y (m + 1)) as Hd'.
      split; [lia|]. change (1 - 1) with 0. rewrite normalize_zero by lia.
      destruct (Z.ltb_spec 1 (m + 1)) as [Hlt2|Hlt2]; [|lia].
      replace (m + 1 - 1) with m by lia. now apply check_year_ok.
    + assert (m = 12) as -> by lia. rewrite dim_january. split; [lia|].
      change (1 - 1) with 0. rewrite normalize_zero by lia. simpl.
      replace (y + 1 - 1) with y by lia. now apply check_year_ok.
Qed.

Lemma time_rebuild (t : Z) :
  0 <= t < DAY_US ->
  0 <= t / 3600000000 < 24 /\ 0 <= (t / 60000000) mod 60 < 60 /\
  0 <= (t / 1000000) mod 60 < 60 /\ 0 <= t mod 1000000 < 1000000 /\
  ((t / 3600000000 * 60 + (t / 60000000) mod 60) * 60 + (t / 1000000) mod 60)
    * 1000000 + t mod 1000000 = t.
Proof.
  unfold DAY_US. intros H. Z.div_mod_to_equations. lia.
Qed.

Lemma add_us_back (w u : wallclock) (o : Z) :
  valid w -> - DAY_US < o < DAY_US ->
  add_us w (- o) = Ok u ->
  valid u /\ add_us u o = Ok (clear_fold w).
Proof.
  intros Hv Ho. pose proof (time_us_range w Hv) as HT.
  destruct Hv as (Hy & Hm & Hd & Hh & Hmi & Hs & Hus).
  unfold add_us.
  set (total := time_us w + - o).
  assert (Hc : -1 <= total / DAY_US <= 1 /\ 0 <= total mod DAY_US < DAY_US /\
               total = DAY_US * (total / DAY_US) + total mod DAY_US).
  { subst total. unfold DAY_US in *. Z.div_mod_to_equations. lia. }
  destruct Hc as (Hc & Ht1 & Etotal).
  destruct (normalize_y_m_d (Z.of_N (year w)) (Z.of_N (month w))
              (Z.of_N (day w) + total / DAY_US)) as [[[y' m'] d']|e] eqn:En;
    [|discriminate].
  cbn [obind]. intros H. injection H as <-.
  destruct (normalize_shift _ _ _ _ _ _ _
              (conj (ltac:(lia) : 1 <= Z.of_N (year w) <= 9999)
                    (conj (ltac:(lia) : 1 <= Z.of_N (month w) <= 12) Hd))
              Hc En) as ((Hy' & Hm' & Hd') & Eback).
  destruct (time_rebuild _ Ht1) as (R1 & R2 & R3 & R4 & R5).
  split.
  - unfold valid. cbn [year month day hour minute second microsecond].
    rewrite !Z2N.id by lia. repeat split; lia.
  - unfold time_us. cbn [year month day hour minute second microsecond].
    rewrite !Z2N.id by lia. rewrite R5.
    assert (E2 : (total mod DAY_US + o) / DAY_US = - (total / DAY_US) /\
                 (total mod DAY_US + o) mod DAY_US = time_us w).
    { subst total. unfold DAY_US in *. Z.div_mod_to_equations. lia. }
    destruct E2 as (-> & ->).
    replace (d' + - (total / DAY_US)) with (d' - total / DAY_US) by lia.
    rewrite Eback. cbn [obind].
    destruct (time_fields (Z.of_N (hour w)) (Z.of_N (minute w)) (Z.of_N (second w))
                (Z.of_N (microsecond w)))
      as (F1 & F2 & F3 & F4); try lia.
    unfold time_us. rewrite F1, F2, F3, F4, !N2Z.id. reflexivity.
Qed.

Local Close Scope Z_scope.

(** ** make_filter *)

Example isoformat_jan1 :
  isoformat (jan1_2023_utc 1) = "2023-01-01T01:00:00+00:00".
Proof. reflexivity. Qed.

Example isoformat_with_offset :
  isoformat
    {| wall := {| year := 987; month := 12; day := 31; hour := 23;
                  minute := 59; second := 7; microsecond := 250;
                  fold := false |}%N;
       tz := Some {| tzname := "x";
                     utcoffset := fun _ => Some (-19830000000)%Z |} |}
  = "0987-12-31T23:59:07.000250-05:30:30".
Proof. reflexivity. Qed.

Lemma make_filter_clauses_eq (S : list string) (a : datetime) (b : option datetime) :
  make_filter_clauses S a b =
  (resource_clause ::
   match S with
   | [] => []
   | _ :: _ => [("(" ++ join " OR " (map instance_clause S) ++ ")")%string]
   end ++
   lower_clause a ::
   match b with
   | Some t => [upper_clause t]
   | None => []
   end)%list.
Proof. destruct S, b; reflexivity. Qed.

Lemma in_make_filter_clauses (c : string) (S : list string) (a : datetime)
    (b : option datetime) :
  In c (make_filter_clauses S a b) <->
  c = resource_clause \/
  (S <> [] /\ c = "(" ++ join " OR " (map instance_clause S) ++ ")") \/
  c = lower_clause a \/
  (exists t, b = Some t /\ c = upper_clause t).
Proof.
  rewrite make_filter_clauses_eq. split.
  - intros [<- | H]; [now left|]. apply in_app_or in H.
    destruct H as [H | [<- | H]].
    + right. left. destruct S as [|x S]; [easy|].
      destruct H as [<- | []]. easy.
    + right. right. now left.
    + right. right. right. destruct b as [t|]; [|easy].
      destruct H as [<- | []]. now exists t.
  - intros [-> | [[HS ->] | [-> | (t & -> & ->)]]].
    + now left.
    + right. apply in_or_app. left. destruct S as [|x S]; [easy|]. now left.
    + right. apply in_or_app. right. now left.
    + right. apply in_or_app. right. right. now left.
Qed.

Lemma make_filter_eq (S : list string) (a : datetime) (b : option datetime) :
  make_filter S a b =
    resource_clause ++
    match S with
    | [] => EmptyString
    | _ :: _ => " AND (" ++ join " OR " (map instance_clause S) ++ ")"
    end ++
    " AND " ++ lower_clause a ++
    match b with
    | Some t => " AND " ++ upper_clause t
    | None => EmptyString
    end.
Proof.
  unfold make_filter. rewrite make_filter_clauses_eq.
  destruct S, b; simpl; rewrite ?append_nil_r; reflexivity.
Qed.

Lemma upper_clause_iff_bound (S : list string) (a : datetime) (b : option datetime) :
  (exists c, In c (make_filter_clauses S a b) /\ is_prefix "timestamp <= " c) <->
  b <> None.
Proof.
  split.
  - intros (c & Hin & post & E).
    apply in_make_filter_clauses in Hin.
    destruct Hin as [-> | [[_ ->] | [-> | (t & -> & _)]]];
      [discriminate E | discriminate E | discriminate E | easy].
  - intros Hb. destruct b as [t|]; [|easy].
    exists (upper_clause t). split.
    + apply in_make_filter_clauses. right. right. right. now exists t.
    + unfold is_prefix, upper_clause. eexists. reflexivity.
Qed.


Lemma make_filter_member (S : list string) (a : datetime) (b : option datetime)
    (c : string) :
  In c (make_filter_clauses S a b) ->
  exists pre post, make_filter S a b = pre ++ c ++ post.
Proof. intros H. unfold make_filter. now apply join_member. Qed.

Lemma until_quote_plain (s rest : string) :
  ~ occurs "034"%char s ->
  until_quote (s ++ String "034"%char rest) = Some (s, rest).
Proof.
  induction s as [|c s IH]; simpl; intros H; [reflexivity|].
  destruct (Ascii.eqb_spec c "034"%char) as [-> | Hc]; [tauto|].
  rewrite IH by tauto. reflexivity.
Qed.

(** C10: every machine name goes into its clause as it is, between two
    double quotes, and so into the filter; a name without a double
    quote is read back whole as the quoted operand, and for the name
    [quoted_name] (an x, a double quote, a y) the filter holds that
    quote unescaped: the quoted operand ends at it (it is x) and the
    rest of the name is left outside the quotes. *)
Theorem make_filter_no_escaping :
  (forall name,
      instance_clause name =
      "resource.labels.instance_id=" ++ dq ++ name ++ dq)
  /\ (forall S a b name,
         In name S ->
         exists pre post,
           make_filter S a b =
           pre ++ ("resource.labels.instance_id=" ++ dq ++ name ++ dq) ++ post)
  /\ (forall name,
         ~ occurs "034"%char name ->
         quoted_operand (instance_clause name) = Some (name, EmptyString))
  /\ exists name,
      occurs "034"%char name
      /\ (forall a,
             make_filter [name] a None =
             resource_clause ++
             " AND (resource.labels.instance_id=" ++ dq ++
             "x" ++ dq ++ "y" ++ dq ++ ") AND " ++ lower_clause a)
      /\ quoted_operand (instance_clause name) = Some ("x", "y" ++ dq)
      /\ quoted_operand (instance_clause name) <> Some (name, EmptyString).
Proof.
  split; [reflexivity|]. split; [|split].
  - intros S a b name Hin.
    destruct (join_member " OR " (instance_clause name) (map instance_clause S))
      as (p1 & q1 & E1); [now apply in_map|].
    destruct (make_filter_member S a b
                ("(" ++ join " OR " (map instance_clause S) ++ ")"))
      as (p2 & q2 & E2).
    { apply in_make_filter_clauses. right. left.
      split; [now destruct S|reflexivity]. }
    exists (p2 ++ "(" ++ p1), (q1 ++ ")" ++ q2).
    rewrite E2, E1. unfold instance_clause.
    rewrite !append_assoc. reflexivity.
  - intros name H. unfold quoted_operand, instance_clause, dq. simpl.
    rewrite until_quote_plain by exact H. reflexivity.
  - exists quoted_name. split; [|split; [|split]].
    + simpl. tauto.
    + intros a. reflexivity.
    + reflexivity.
    + discriminate.
Qed.

(** ** Calendar arithmetic: day numbers *)

Local Open Scope Z_scope.

Lemma days_before_year_succ (y : Z) :
  1 <= y ->
  days_before_year (y + 1) =
  days_before_year y + 365 + (if is_leap y then 1 else 0).
Proof.
  intros Hy. unfold days_before_year, is_leap.
  replace (y + 1 - 1) with y by lia.
  destruct (Z.eqb_spec (y mod 4) 0) as [H4|H4],
           (Z.eqb_spec (y mod 100) 0) as [H100|H100],
           (Z.eqb_spec (y mod 400) 0) as [H400|H400]; cbn [andb orb negb];
    Z.div_mod_to_equations; lia.
Qed.

Lemma days_before_month_succ (y m : Z) :
  1 <= m < 12 ->
  days_before_month y (m + 1) = days_before_month y m + days_in_month y m.
Proof.
  intros H. unfold days_before_month, days_in_month.
  assert (m = 1 \/ m = 2 \/ m = 3 \/ m = 4 \/ m = 5 \/ m = 6 \/ m = 7 \/ m = 8 \/
          m = 9 \/ m = 10 \/ m = 11) as Hm by lia.
  destruct (is_leap y);
    repeat (destruct Hm as [-> | Hm]; [reflexivity|]); subst; reflexivity.
Qed.

Lemma normalize_shift_ord (y m d c y' m' d' : Z) :
  valid_date y m d -> -1 <= c <= 1 ->
  normalize_y_m_d y m (d + c) = Ok (y', m', d') ->
  ymd_to_ord y' m' d' = ymd_to_ord y m d + c.
Proof.
  intros (Hy & Hm & Hd) Hc.
  pose proof (dim_range y m Hm) as Hdim.
  assert (c = 0 \/ (c = -1 /\ 2 <= d) \/ (c = -1 /\ d = 1) \/
          (c = 1 /\ d < days_in_month y m) \/ (c = 1 /\ d = days_in_month y m))
    as [-> | [(-> & H2) | [(-> & ->) | [(-> & H2) | (-> & H2)]]]] by lia.
  - rewrite Z.add_0_r, normalize_in_range by lia. intros H.
    apply check_year_inv in H. destruct H as (_ & H). injection H as -> -> ->.
    lia.
  - rewrite normalize_in_range by lia. intros H.
    apply check_year_inv in H. destruct H as (_ & H). injection H as -> -> ->.
    unfold ymd_to_ord. lia.
  - change (1 + -1) with 0. rewrite normalize_zero by lia.
    destruct (Z.ltb_spec 1 m) as [Hlt|Hlt]; intros H; apply check_year_inv in H;
      destruct H as (Hy' & H); injection H as -> -> ->.
    + unfold ymd_to_ord.
      pose proof (days_before_month_succ y (m - 1)) as E.
      replace (m - 1 + 1) with m in E by lia. lia.
    + assert (m = 1) as -> by lia. unfold ymd_to_ord.
      pose proof (days_before_year_succ (y - 1)) as E.
      replace (y - 1 + 1) with y in E by lia.
      unfold days_before_month. cbn [Z.to_nat nth Z.ltb Z.compare andb].
      destruct (is_leap (y - 1)); simpl; lia.
  - rewrite normalize_in_range by lia. intros H.
    apply check_year_inv in H. destruct H as (_ & H). injection H as -> -> ->.
    unfold ymd_to_ord. lia.
  - rewrite H2, normalize_next by lia.
    destruct (Z.ltb_spec m 12) as [Hlt|Hlt]; intros H; apply check_year_inv in H;
      destruct H as (Hy' & H); injection H as -> -> ->.
    + unfold ymd_to_ord. rewrite days_before_month_succ by lia. lia.
    + assert (m = 12) as -> by lia. unfold ymd_to_ord.
      rewrite days_before_year_succ by lia.
      unfold days_before_month, days_in_month.
      destruct (is_leap y); simpl; lia.
Qed.

Lemma add_us_seconds (w u : wallclock) (g : Z) :
  valid w -> -86400 < g < 86400 ->
  add_us w (g * 1000000) = Ok u ->
  wall_seconds u = wall_seconds w + g.
Proof.
  intros Hv Hg. pose proof (time_us_range w Hv) as HT.
  destruct Hv as (Hy & Hm & Hd & Hh & Hmi & Hs & Hus).
  unfold add_us.
  set (total := time_us w + g * 1000000).
  assert (Hc : -1 <= total / DAY_US <= 1 /\ 0 <= total mod DAY_US < DAY_US /\
               total = DAY_US * (total / DAY_US) + total mod DAY_US).
  { subst total. unfold DAY_US in *. Z.div_mod_to_equations. lia. }
  destruct Hc as (Hc & Ht1 & Etotal).
  destruct (normalize_y_m_d (Z.of_N (year w)) (Z.of_N (month w))
              (Z.of_N (day w) + total / DAY_US)) as [[[y' m'] d']|e] eqn:En;
    [|discriminate].
  cbn [obind]. intros H. injection H as <-.
  pose proof (normalize_shift_ord _ _ _ _ _ _ _
              (conj (ltac:(lia) : 1 <= Z.of_N (year w) <= 9999)
                    (conj (ltac:(lia) : 1 <= Z.of_N (month w) <= 12) Hd))
              Hc En) as Eord.
  destruct (normalize_shift _ _ _ _ _ _ _
              (conj (ltac:(lia) : 1 <= Z.of_N (year w) <= 9999)
                    (conj (ltac:(lia) : 1 <= Z.of_N (month w) <= 12) Hd))
              Hc En) as ((Hy' & Hm' & Hd') & _).
  destruct (time_rebuild _ Ht1) as (R1 & R2 & R3 & R4 & R5).
  unfold wall_seconds. cbn [year month day hour minute second microsecond].
  rewrite !Z2N.id by lia. rewrite Eord.
  unfold time_us in total. subst total. unfold DAY_US in *.
  Z.div_mod_to_equations. lia.
Qed.

Lemma days_before_month_range (y m : Z) :
  1 <= m <= 12 ->
  0 <= days_before_month y m /\
  days_before_month y m + days_in_month y m <= 366.
Proof.
  intros H. unfold days_before_month, days_in_month.
  assert (m = 1 \/ m = 2 \/ m = 3 \/ m = 4 \/ m = 5 \/ m = 6 \/ m = 7 \/ m = 8 \/
          m = 9 \/ m = 10 \/ m = 11 \/ m = 12) as Hm by lia.
  destruct (is_leap y);
    repeat (destruct Hm as [-> | Hm]; [simpl; lia|]); subst; simpl; lia.
Qed.

Lemma wall_seconds_range (w : wallclock) :
  valid w -> (2 <= year w <= 9998)%N ->
  366 * 86400 <= wall_seconds w < (MAXORDINAL - 363) * 86400.
Proof.
  intros (Hy & Hm & Hd & Hh & Hmi & Hs & Hus) Hy2.
  pose proof (days_before_month_range (Z.of_N (year w)) (Z.of_N (month w))
                ltac:(lia)) as (B1 & B2).
  unfold wall_seconds, ymd_to_ord, MAXORDINAL.
  assert (365 <= days_before_year (Z.of_N (year w)) <= 3651329).
  { unfold days_before_year. Z.div_mod_to_equations. lia. }
  lia.
Qed.

Lemma add_us_total (w : wallclock) (o : Z) :
  valid w -> (2 <= year w <= 9998)%N -> - DAY_US < o < DAY_US ->
  exists u, add_us w o = Ok u.
Proof.
  intros Hv Hy2 Ho. pose proof (time_us_range w Hv) as HT.
  destruct Hv as (Hy & Hm & Hd & Hh & Hmi & Hs & Hus).
  unfold add_us.
  set (total := time_us w + o).
  assert (Hc : -1 <= total / DAY_US <= 1).
  { subst total. unfold DAY_US in *. Z.div_mod_to_equations. lia. }
  pose proof (dim_range (Z.of_N (year w)) (Z.of_N (month w)) ltac:(lia)) as Hdim.
  assert (exists r, normalize_y_m_d (Z.of_N (year w)) (Z.of_N (month w))
                      (Z.of_N (day w) + total / DAY_US) = Ok r) as ([[y' m'] d'] & ->).
  { set (y := Z.of_N (year w)) in *. set (m := Z.of_N (month w)) in *.
    set (d := Z.of_N (day w)) in *. set (c := total / DAY_US) in *.
    assert ((1 <= d + c <= days_in_month y m) \/ d + c = 0 \/
            d + c = days_in_month y m + 1) as [H | [-> | ->]] by lia.
    - rewrite normalize_in_range by exact H. rewrite check_year_ok by lia.
      eexists. reflexivity.
    - rewrite normalize_zero by lia. destruct (1 <? m);
        rewrite check_year_ok by lia; eexists; reflexivity.
    - rewrite normalize_next by lia. destruct (m <? 12);
        rewrite check_year_ok by lia; eexists; reflexivity. }
  cbn [obind]. eexists. reflexivity.
Qed.

Local Close Scope Z_scope.

(** ** adjust_tz *)

Lemma isoformat_replace_utc (ts : datetime) :
  tz ts = None ->
  isoformat (replace_tzinfo ts (Some pytz_UTC)) = isoformat ts ++ "+00:00".
Proof.
  intros H. unfold isoformat, dt_utcoffset, replace_tzinfo.
  rewrite H. cbn [tz wall]. rewrite !append_assoc. reflexivity.
Qed.

Lemma timezone_inv (offset : Z) (name : string) (z : tzinfo) :
  timezone offset name = Ok z ->
  (-86400 < offset < 86400)%Z /\
  z = {| tzname := name; utcoffset := fun _ => Some (offset * 1000000)%Z |}.
Proof.
  unfold timezone.
  destruct (Z.ltb_spec (-86400) offset) as [H1|H1],
           (Z.ltb_spec offset 86400) as [H2|H2];
    cbn [andb]; intros H; try discriminate.
  injection H as <-. split; [lia | reflexivity].
Qed.

Lemma timezone_ok (offset : Z) (name : string) :
  (-86400 < offset < 86400)%Z ->
  timezone offset name =
  Ok {| tzname := name; utcoffset := fun _ => Some (offset * 1000000)%Z |}.
Proof.
  intros H. unfold timezone.
  destruct (Z.ltb_spec (-86400) offset) as [H1|H1],
           (Z.ltb_spec offset 86400) as [H2|H2];
    cbn [andb]; try lia. reflexivity.
Qed.

Lemma local_timezone_from_timestamp_inv (timestamp o : Z) (z : tzinfo) :
  local_timezone_from_timestamp timestamp = Ok (o, z) ->
  exists gmtoff zone,
    localtime timestamp = Ok (gmtoff, zone)
    /\ timezone gmtoff zone = Ok z
    /\ o = (gmtoff * 1000000)%Z.
Proof.
  unfold local_timezone_from_timestamp.
  destruct (localtime timestamp) as [[gmtoff zone]|e]; [|discriminate].
  cbn [obind fst snd].
  destruct (timezone gmtoff zone) as [z'|e] eqn:Ez; [|discriminate].
  cbn [obind]. intros H. injection H as <- <-.
  exists gmtoff, zone. repeat split. exact Ez.
Qed.

Lemma local_ok (u g : Z) (zone : string) :
  localtime (u - epoch) = Ok (g, zone) ->
  (1 * 86400 <= u + g < (MAXORDINAL + 1) * 86400)%Z ->
  local u = Ok (u + g)%Z.
Proof.
  intros E H. unfold local. rewrite E. cbn [obind fst].
  destruct (Z.ltb_spec (u + g) (1 * 86400)) as [H1|H1],
           (Z.leb_spec ((MAXORDINAL + 1) * 86400) (u + g)) as [H2|H2]; cbn [orb];
    try lia. reflexivity.
Qed.

(** The steps of [astimezone()] on a naive timestamp that it converts. *)
Lemma astimezone_naive_inv (dt r : datetime) :
  tz dt = None -> astimezone dt = Ok r ->
  exists u g1 zone1 z1 utc g2 zone2 z2,
    local_to_seconds (wall dt) (fold (wall dt)) = Ok u
    /\ localtime (u - epoch) = Ok (g1, zone1)
    /\ timezone g1 zone1 = Ok z1
    /\ add_us (wall dt) (- (g1 * 1000000)) = Ok utc
    /\ localtime (wall_seconds utc - epoch) = Ok (g2, zone2)
    /\ timezone g2 zone2 = Ok z2
    /\ add_us utc (g2 * 1000000) = Ok (wall r)
    /\ tz r = Some z2.
Proof.
  intros Hn. unfold astimezone, dt_utcoffset. rewrite Hn.
  destruct (local_to_seconds (wall dt) (fold (wall dt))) as [u|e] eqn:Eu;
    [|discriminate].
  cbn [obind].
  destruct (local_timezone_from_timestamp (u - epoch)) as [[o1 z1]|e] eqn:E1;
    [|discriminate].
  cbn [obind fst].
  destruct (add_us (wall dt) (- o1)) as [utc|e] eqn:Eutc; [|discriminate].
  cbn [obind].
  destruct (local_timezone_from_timestamp (wall_seconds utc - epoch))
    as [[o2 z2]|e] eqn:E2; [|discriminate].
  cbn [obind fst snd].
  destruct (add_us utc o2) as [res|e] eqn:Eres; [|discriminate].
  cbn [obind]. intros H. injection H as <-.
  apply local_timezone_from_timestamp_inv in E1, E2.
  destruct E1 as (g1 & zone1 & L1 & T1 & ->).
  destruct E2 as (g2 & zone2 & L2 & T2 & ->).
  exists u, g1, zone1, z1, utc, g2, zone2, z2. cbn [wall tz].
  repeat split; assumption.
Qed.

Lemma astimezone_aware (dt r : datetime) :
  astimezone dt = Ok r -> tz r <> None.
Proof.
  unfold astimezone.
  destruct (match dt_utcoffset dt with Some o => _ | None => _ end) as [o|e];
    [|discriminate].
  cbn [obind]. destruct (add_us (wall dt) (- o)) as [utc|e]; [|discriminate].
  cbn [obind].
  destruct (local_timezone_from_timestamp (wall_seconds utc - epoch))
    as [[o2 z2]|e]; [|discriminate].
  cbn [obind fst snd]. destruct (add_us utc o2); [|discriminate].
  cbn [obind]. intros H. injection H as <-. discriminate.
Qed.

(** In a zone with one offset all year round, [astimezone()] returns a
    naive timestamp away from the ends of the calendar with the same
    reading and that offset. *)
Lemma astimezone_constant_zone (dt : datetime) (c : Z) (name : string)
    (z : tzinfo) :
  tz dt = None -> valid (wall dt) -> (2 <= year (wall dt) <= 9998)%N ->
  (forall t, localtime t = Ok (c, name)) ->
  timezone c name = Ok z ->
  astimezone dt = Ok {| wall := clear_fold (wall dt); tz := Some z |}.
Proof.
  intros Hn Hv Hy Hl Hz.
  destruct (timezone_inv _ _ _ Hz) as (Hc & _).
  pose proof (wall_seconds_range _ Hv Hy) as Ht.
  assert (Hy' : (1 <= year (wall dt) <= 9999)%N) by lia.
  assert (Lz : forall t, local_timezone_from_timestamp t = Ok ((c * 1000000)%Z, z)).
  { intros t. unfold local_timezone_from_timestamp. rewrite Hl.
    cbn [obind fst snd]. rewrite Hz. reflexivity. }
  assert (Ls : local_to_seconds (wall dt) (fold (wall dt))
               = Ok (wall_seconds (wall dt) - c)%Z).
  { unfold local_to_seconds, utc_to_seconds, MINYEAR, MAXYEAR.
    destruct (Z.ltb_spec (Z.of_N (year (wall dt))) 1); [lia|].
    destruct (Z.ltb_spec 9999 (Z.of_N (year (wall dt)))); [lia|].
    cbn [orb obind].
    set (t := wall_seconds (wall dt)) in *. unfold MAXORDINAL in Ht.
    rewrite (local_ok t c name) by (rewrite ?Hl; unfold MAXORDINAL; auto; lia).
    cbn [obind].
    replace (t + c - t)%Z with c by lia.
    rewrite (local_ok (t - c) c name) by (rewrite ?Hl; unfold MAXORDINAL; auto; lia).
    cbn [obind]. replace (t - c + c)%Z with t by lia. rewrite Z.eqb_refl.
    unfold max_fold_seconds.
    destruct (fold (wall dt)).
    - rewrite (local_ok (t - c + 24 * 3600) c name)
        by (rewrite ?Hl; unfold MAXORDINAL; auto; lia).
      cbn [obind].
      replace (t - c + 24 * 3600 + c - (t - c + 24 * 3600))%Z with c by lia.
      rewrite Z.eqb_refl. reflexivity.
    - rewrite (local_ok (t - c - 24 * 3600) c name)
        by (rewrite ?Hl; unfold MAXORDINAL; auto; lia).
      cbn [obind].
      replace (t - c - 24 * 3600 + c - (t - c - 24 * 3600))%Z with c by lia.
      rewrite Z.eqb_refl. reflexivity. }
  unfold astimezone, dt_utcoffset. rewrite Hn, Ls. cbn [obind].
  rewrite Lz. cbn [obind fst snd].
  destruct (add_us_total (wall dt) (- (c * 1000000))%Z Hv Hy) as (utc & Eutc);
    [unfold DAY_US; lia|].
  rewrite Eutc. cbn [obind]. rewrite Lz. cbn [obind fst snd].
  destruct (add_us_back (wall dt) utc (c * 1000000)%Z Hv) as (_ & Eback);
    [unfold DAY_US; lia | exact Eutc |].
  rewrite Eback. reflexivity.
Qed.


Lemma adjust_tz_some (ts : datetime) (utc : bool) (r : option datetime) :
  adjust_tz (Some ts) utc = Ok r -> exists r', r = Some r'.
Proof.
  unfold adjust_tz. destruct (tz ts); [|destruct utc].
  - intros H. injection H as <-. eauto.
  - intros H. injection H as <-. eauto.
  - destruct (astimezone ts); [|discriminate]. cbn [obind].
    intros H. injection H as <-. eauto.
Qed.

(** ** Traces *)

Lemma printed_app (p : stream -> bool) (t1 t2 : trace) :
  printed p (t1 ++ t2)%list = (printed p t1 ++ printed p t2)%list.
Proof.
  induction t1 as [|ev t1 IH]; simpl; [reflexivity|].
  destruct ev; try exact IH. destruct (p file); simpl; now rewrite IH.
Qed.

Lemma same_refl (f : stream) : same f f = true.
Proof. destruct f; simpl; try reflexivity. apply String.eqb_refl. Qed.

Lemma printed_prints (f : stream) (lines : list string) :
  printed (same f) (map (Print f) lines) = lines.
Proof.
  induction lines as [|l lines IH]; simpl; [reflexivity|].
  now rewrite same_refl, IH.
Qed.

Lemma printed_other (p : stream -> bool) (f : stream) (lines : list string) :
  p f = false -> printed p (map (Print f) lines) = [].
Proof.
  intros H. induction lines as [|l lines IH]; simpl; [reflexivity|].
  now rewrite H.
Qed.

Lemma queries_app (t1 t2 : trace) :
  queries (t1 ++ t2)%list = (queries t1 ++ queries t2)%list.
Proof.
  induction t1 as [|ev t1 IH]; simpl; [reflexivity|].
  destruct ev; try exact IH. simpl. now rewrite IH.
Qed.

Lemma queries_prints (f : stream) (lines : list string) :
  queries (map (Print f) lines) = [].
Proof. induction lines; simpl; auto. Qed.

(** ** The loop over the entries *)

Lemma matching_delivered (it : entry_iter) :
  failure it = None -> matching it = delivered it.
Proof.
  induction it as [|entry rest IH|e rest IH]; simpl; intros H;
    [reflexivity | now rewrite IH | discriminate].
Qed.

Lemma delivered_yield_all (entries : list LogEntry) :
  delivered (yield_all entries) = entries /\
  failure (yield_all entries) = None /\
  matching (yield_all entries) = entries.
Proof.
  induction entries as [|e entries (IH1 & IH2 & IH3)]; simpl;
    [now repeat split|].
  now rewrite IH1, IH2, IH3.
Qed.

(** What the loop prints and how it ends, for as long as the formatter
    does not raise. *)
Lemma for_entries_run (formatter : LogEntry -> outcome json) (outfile : stream)
    (it : entry_iter) :
  forall (lines : list string) (empty : bool) (tr : trace),
    Forall2 (formats formatter) (delivered it) lines ->
    for_entries it formatter outfile empty tr =
    (match failure it with
     | Some e => Raise e
     | None => Ok (match delivered it with [] => empty | _ :: _ => false end)
     end,
     (tr ++ map (Print outfile) lines)%list).
Proof.
  induction it as [|entry rest IH|e rest IH]; intros lines empty tr H; simpl in *.
  - inversion H; subst. simpl. now rewrite app_nil_r.
  - inversion H as [|? text ? lines' (obj & E & Etext) H']; subst.
    unfold bind, lift, print, emit. rewrite E.
    rewrite (IH lines' false _ H'). simpl.
    rewrite <- app_assoc. simpl.
    destruct (failure rest); [reflexivity|].
    now destruct (delivered rest).
  - inversion H; subst. unfold raise. simpl. now rewrite app_nil_r.
Qed.

(** A formatter that raises ends the loop there. *)
Lemma for_entries_formatter_raises (formatter : LogEntry -> outcome json)
    (outfile : stream) (it : entry_iter) :
  forall (before : list LogEntry) (entry : LogEntry) (after : list LogEntry)
         (lines : list string) (e : exn) (empty : bool) (tr : trace),
    delivered it = (before ++ entry :: after)%list ->
    Forall2 (formats formatter) before lines ->
    formatter entry = Raise e ->
    for_entries it formatter outfile empty tr =
    (Raise e, (tr ++ map (Print outfile) lines)%list).
Proof.
  induction it as [|entry0 rest IH|e0 rest IH];
    intros before entry after lines e empty tr Hd Hf He; simpl in *.
  - now destruct before.
  - destruct before as [|b before]; simpl in Hd;
      injection Hd as Hentry Hrest; subst entry0.
    + inversion Hf; subst. unfold bind, lift. rewrite He.
      simpl. now rewrite app_nil_r.
    + inversion Hf as [|? text ? lines' (obj & E & Etext) H']; subst.
      unfold bind, lift, print, emit. rewrite E.
      rewrite (IH before entry after lines' e false _ Hrest H' He).
      simpl. now rewrite <- app_assoc.
  - now destruct before.
Qed.

(** A loop that ends normally met no exception, and tells whether it
    found no entry. *)
Lemma for_entries_ok_inv (formatter : LogEntry -> outcome json)
    (outfile : stream) (it : entry_iter) :
  forall (empty b : bool) (tr tr' : trace),
    for_entries it formatter outfile empty tr = (Ok b, tr') ->
    failure it = None /\
    b = match matching it with [] => empty | _ :: _ => false end.
Proof.
  induction it as [|entry rest IH|e rest IH]; intros empty b tr tr' H; simpl in *.
  - unfold ret in H. inversion H. now split.
  - unfold bind, lift, print, emit in H.
    destruct (formatter entry) as [obj|e]; [|discriminate].
    apply IH in H. destruct H as (Hf & ->). split; [exact Hf|].
    now destruct (matching rest).
  - discriminate.
Qed.

Lemma print_logs_unfold (c : Client) (machines : list string)
    (from_date : datetime) (to_date : option datetime)
    (formatter : LogEntry -> outcome json) (outfile : stream) (tr : trace) :
  print_logs c machines from_date to_date formatter outfile tr =
  for_entries (c (make_filter machines from_date to_date) PAGE_SIZE)
    formatter outfile true
    (tr ++ [Query (make_filter machines from_date to_date) PAGE_SIZE])%list.
Proof. reflexivity. Qed.

(** The loop sends no query and prints to [outfile] only. *)
Lemma for_entries_trace (formatter : LogEntry -> outcome json)
    (outfile : stream) (it : entry_iter) :
  forall (empty : bool) (tr : trace),
    exists lines,
      snd (for_entries it formatter outfile empty tr) =
      (tr ++ map (Print outfile) lines)%list.
Proof.
  induction it as [|entry rest IH|e rest IH]; intros empty tr; simpl.
  - exists []. simpl. now rewrite app_nil_r.
  - unfold bind, lift, print, emit.
    destruct (formatter entry) as [obj|e].
    + destruct (IH false (tr ++ [Print outfile (py_str obj)])%list) as (lines & E).
      exists (py_str obj :: lines). rewrite E. now rewrite <- app_assoc.
    + exists []. simpl. now rewrite app_nil_r.
  - exists []. simpl. now rewrite app_nil_r.
Qed.

Lemma formats_all (formatter : LogEntry -> outcome json) (entries : list LogEntry) :
  (forall e, In e entries -> exists obj, formatter e = Ok obj) ->
  exists lines, Forall2 (formats formatter) entries lines.
Proof.
  induction entries as [|e entries IH]; intros H.
  - exists []. constructor.
  - destruct (H e) as (obj & E); [now left|].
    destruct IH as (lines & IH); [intros; apply H; now right|].
    exists (py_str obj :: lines). constructor; [|exact IH]. now exists obj.
Qed.

(** ** print_logs *)

(** C2, as the code has it: a call of [print_logs] that returns gives
    [true] exactly when the query returned no record, and the call
    does return when neither the client nor the formatter raises. *)
Theorem print_logs_returns_empty (c : Client) (machines : list string)
    (from_date : datetime) (to_date : option datetime)
    (formatter : LogEntry -> outcome json) (outfile : stream) (tr : trace) :
  (forall b tr',
      print_logs c machines from_date to_date formatter outfile tr = (Ok b, tr') ->
      (b = true <->
       matching (c (make_filter machines from_date to_date) PAGE_SIZE) = []))
  /\ (failure (c (make_filter machines from_date to_date) PAGE_SIZE) = None ->
      (forall e,
          In e (matching (c (make_filter machines from_date to_date) PAGE_SIZE)) ->
          exists obj, formatter e = Ok obj) ->
      exists tr',
        print_logs c machines from_date to_date formatter outfile tr =
        (Ok match matching (c (make_filter machines from_date to_date) PAGE_SIZE) with
            | [] => true
            | _ :: _ => false
            end, tr')).
Proof.
  rewrite print_logs_unfold. split.
  - intros b tr' H. apply for_entries_ok_inv in H. destruct H as (_ & ->).
    destruct (matching _); split; congruence.
  - intros Hf Hfmt. rewrite (matching_delivered _ Hf) in *.
    destruct (formats_all formatter _ Hfmt) as (lines & Hl).
    rewrite (for_entries_run formatter outfile _ lines true _ Hl), Hf.
    now eexists.
Qed.

(** ** The formatters *)

Lemma api_format_formats (e : LogEntry) :
  formats api_format e (py_str (to_api_repr e)).
Proof. now exists (to_api_repr e). Qed.

Lemma line_format_ok (response : LogEntry) (inst ts sev payload : string) :
  exposes response inst ts sev payload ->
  line_format response =
  Ok (JStr (Fore_LIGHTGREEN_EX ++ inst ++ Fore_LIGHTCYAN_EX ++
            " [" ++ ts ++ "] " ++ Style_BRIGHT ++
            "(" ++ sev ++ "): " ++ Style_RESET_ALL ++ payload)).
Proof.
  intros ((resource & labels & E1 & E2 & E3) & (v1 & E4 & <-) &
          (v2 & E5 & <-) & (v3 & E6 & <-)).
  unfold line_format. rewrite E1. cbn [obind]. rewrite E2. cbn [obind].
  rewrite E3. cbn [obind str_add]. rewrite E4. cbn [obind].
  rewrite E5. cbn [obind]. rewrite E6. cbn [obind].
  do 2 f_equal. rewrite !append_assoc. reflexivity.
Qed.

Lemma line_format_formats (e : LogEntry) (inst ts sev payload : string) :
  exposes e inst ts sev payload ->
  formats line_format e
    (Fore_LIGHTGREEN_EX ++ inst ++ Fore_LIGHTCYAN_EX ++
     " [" ++ ts ++ "] " ++ Style_BRIGHT ++
     "(" ++ sev ++ "): " ++ Style_RESET_ALL ++ payload).
Proof.
  intros H. eexists.
  split; [apply (line_format_ok _ _ _ _ _ H) | reflexivity].
Qed.

(** C4, as the code has it: when the backend returns [entries] and the
    formatter gives a text for each of them, one call of [print_logs]
    sends one query and then prints exactly these texts to [outfile],
    one line per entry and in the order of the entries.  The raw
    formatter gives a text for every entry, the line formatter for
    every entry that exposes the four fields it reads. *)
Theorem print_logs_emits_formatted (c : Client) (machines : list string)
    (from_date : datetime) (to_date : option datetime)
    (formatter : LogEntry -> outcome json) (outfile : stream)
    (entries : list LogEntry) (lines : list string) (tr : trace) :
  c (make_filter machines from_date to_date) PAGE_SIZE = yield_all entries ->
  Forall2 (formats formatter) entries lines ->
  print_logs c machines from_date to_date formatter outfile tr =
    (Ok match entries with [] => true | _ :: _ => false end,
     (tr ++ Query (make_filter machines from_date to_date) PAGE_SIZE
         :: map (Print outfile) lines)%list)
  /\ printed (same outfile)
       (snd (print_logs c machines from_date to_date formatter outfile tr)) =
     (printed (same outfile) tr ++ lines)%list
  /\ List.length lines = List.length entries
  /\ (forall e, formats api_format e (py_str (to_api_repr e)))
  /\ (forall e inst ts sev payload,
         exposes e inst ts sev payload ->
         formats line_format e
           (Fore_LIGHTGREEN_EX ++ inst ++ Fore_LIGHTCYAN_EX ++
            " [" ++ ts ++ "] " ++ Style_BRIGHT ++
            "(" ++ sev ++ "): " ++ Style_RESET_ALL ++ payload)).
Proof.
  intros Hc Hl.
  assert (E : print_logs c machines from_date to_date formatter outfile tr =
              (Ok match entries with [] => true | _ :: _ => false end,
               (tr ++ Query (make_filter machines from_date to_date) PAGE_SIZE
                   :: map (Print outfile) lines)%list)).
  { rewrite print_logs_unfold, Hc.
    destruct (delivered_yield_all entries) as (Hd & Hf & _).
    rewrite (for_entries_run formatter outfile _ lines true).
    - rewrite Hf, Hd, <- app_assoc. reflexivity.
    - now rewrite Hd. }
  split; [exact E|]. split; [|split; [|split]].
  - rewrite E. cbn [snd]. rewrite printed_app. cbn [printed].
    now rewrite printed_prints.
  - symmetry. exact (Forall2_length Hl).
  - exact api_format_formats.
  - exact line_format_formats.
Qed.

(** ** How a line of [line_format] shows on a terminal *)

Lemma render_plain (s t : string) (st : style) :
  plain s -> render (s ++ t) Text st = (paint s st ++ render t Text st)%list.
Proof.
  unfold plain. induction s as [|c s IH]; simpl; intros H; [reflexivity|].
  destruct (Ascii.eqb_spec c ESC) as [-> | Hc]; [tauto|].
  rewrite IH by tauto. reflexivity.
Qed.

Lemma render_plain_end (s : string) (st : style) :
  plain s -> render s Text st = paint s st.
Proof.
  intros H. rewrite <- (append_nil_r s) at 1.
  rewrite render_plain by exact H. simpl. apply app_nil_r.
Qed.

Lemma paint_app (s t : string) (st : style) :
  paint (s ++ t) st = (paint s st ++ paint t st)%list.
Proof. induction s as [|c s IH]; simpl; [reflexivity | now rewrite IH]. Qed.

Lemma shown_paint (s : string) (st : style) (rest : list (ascii * style)) :
  string_of_list_ascii (map fst (paint s st ++ rest)) =
  s ++ string_of_list_ascii (map fst rest).
Proof. induction s as [|c s IH]; simpl; [reflexivity | now rewrite IH]. Qed.

Lemma render_green (t : string) :
  render (Fore_LIGHTGREEN_EX ++ t) Text default_style = render t Text green.
Proof. reflexivity. Qed.

Lemma render_cyan (t : string) :
  render (Fore_LIGHTCYAN_EX ++ t) Text green = render t Text cyan.
Proof. reflexivity. Qed.

Lemma render_bright (t : string) :
  render (Style_BRIGHT ++ t) Text cyan = render t Text bright_cyan.
Proof. reflexivity. Qed.

Lemma render_reset (t : string) (st : style) :
  render (Style_RESET_ALL ++ t) Text st = render t Text default_style.
Proof. reflexivity. Qed.

Lemma plain_literals :
  plain " [" /\ plain "] " /\ plain "(" /\ plain "): ".
Proof. unfold plain. simpl. repeat split; intuition discriminate. Qed.

Lemma render_line (inst ts sev payload : string) :
  plain inst -> plain ts -> plain sev -> plain payload ->
  render (Fore_LIGHTGREEN_EX ++ inst ++ Fore_LIGHTCYAN_EX ++
          " [" ++ ts ++ "] " ++ Style_BRIGHT ++
          "(" ++ sev ++ "): " ++ Style_RESET_ALL ++ payload)
         Text default_style =
  (paint inst green ++ paint (" [" ++ ts ++ "] ") cyan ++
   paint ("(" ++ sev ++ "): ") bright_cyan ++ paint payload default_style)%list.
Proof.
  intros Hi Ht Hs Hp. destruct plain_literals as (L1 & L2 & L3 & L4).
  rewrite render_green, (render_plain inst _ _ Hi), render_cyan.
  rewrite (render_plain " [" _ _ L1), (render_plain ts _ _ Ht),
    (render_plain "] " _ _ L2), render_bright.
  rewrite (render_plain "(" _ _ L3), (render_plain sev _ _ Hs),
    (render_plain "): " _ _ L4), render_reset.
  rewrite (render_plain_end payload _ Hp).
  rewrite !paint_app, <- !app_assoc. reflexivity.
Qed.

(** C6, as the code has it: for a record that exposes instance
    identifier, timestamp, severity and text payload, [line_format]
    returns one string: the
    instance in light green, then the bracketed timestamp in light cyan
    and the parenthesised severity in bright light cyan, then the
    payload after a reset of all styles.  When the four texts hold no
    control sequence, a terminal shows
    [<instance> [<timestamp>] (<severity>): <payload>] in these styles,
    the payload in the default style; the two colors differ; and the
    string has no line break unless a field has one. *)
Theorem line_format_shape (response : LogEntry) (inst ts sev payload : string) :
  exposes response inst ts sev payload ->
  exists line,
    line_format response = Ok (JStr line)
    /\ line = Fore_LIGHTGREEN_EX ++ inst ++ Fore_LIGHTCYAN_EX ++
              " [" ++ ts ++ "] " ++ Style_BRIGHT ++
              "(" ++ sev ++ "): " ++ Style_RESET_ALL ++ payload
    /\ (plain inst -> plain ts -> plain sev -> plain payload ->
        render line Text default_style =
          (paint inst green ++ paint (" [" ++ ts ++ "] ") cyan ++
           paint ("(" ++ sev ++ "): ") bright_cyan ++
           paint payload default_style)%list
        /\ visible_text line =
           inst ++ " [" ++ ts ++ "] (" ++ sev ++ "): " ++ payload)
    /\ fg green <> fg cyan /\ fg green <> None /\ fg cyan <> None
    /\ (~ occurs LF inst -> ~ occurs LF ts -> ~ occurs LF sev ->
        ~ occurs LF payload -> ~ occurs LF line).
Proof.
  intros H. eexists. split; [apply (line_format_ok _ _ _ _ _ H)|].
  split; [reflexivity|]. split; [|repeat split; try discriminate].
  - intros Hi Ht Hs Hp.
    pose proof (render_line inst ts sev payload Hi Ht Hs Hp) as R.
    split; [exact R|].
    unfold visible_text. rewrite R.
    rewrite !paint_app, <- !app_assoc.
    rewrite !shown_paint.
    rewrite <- (app_nil_r (paint payload default_style)), shown_paint.
    simpl. rewrite append_nil_r. reflexivity.
  - intros Hi Ht Hs Hp Hline.
    repeat (apply occurs_append in Hline; destruct Hline as [Hline | Hline];
            try tauto);
      simpl in Hline; intuition discriminate.
Qed.

(** ** An omitted upper bound *)

Lemma print_logs_queries (c : Client) (machines : list string)
    (from_date : datetime) (to_date : option datetime)
    (formatter : LogEntry -> outcome json) (outfile : stream) (tr : trace) :
  queries (snd (print_logs c machines from_date to_date formatter outfile tr)) =
  (queries tr ++ [make_filter machines from_date to_date])%list.
Proof.
  rewrite print_logs_unfold.
  destruct (for_entries_trace formatter outfile
              (c (make_filter machines from_date to_date) PAGE_SIZE) true
              (tr ++ [Query (make_filter machines from_date to_date) PAGE_SIZE])%list)
    as (lines & E).
  rewrite E, !queries_app, queries_prints. simpl. now rewrite app_nil_r.
Qed.

(** What [main] does once starting up has succeeded. *)
Lemma main_started (w : world) (args : Args.t) (fuel : nat) (tr : trace)
    (from_date : datetime) (to_date : option datetime) :
  starts w args from_date to_date ->
  main w args fuel tr =
  match
    (if Args.tail args
     then tail w (Args.machine args) from_date (formatter_of args)
            (output_file args) fuel
     else fun tr =>
            match print_logs (client w 0) (Args.machine args) from_date
                    to_date (formatter_of args) (output_file args) tr with
            | (Ok _, tr') => (Some (Ok tt), tr')
            | (Raise e, tr') => (Some (Raise e), tr')
            end) (tr ++ opening args)%list
  with
  | (Some r, tr') => (Some r, (tr' ++ closing args)%list)
  | (None, tr') => (None, tr')
  end.
Proof.
  intros (Hf & Ht & Hc & Ho).
  unfold main, with_output_file, formatter_of, opening, closing, output_file.
  rewrite Hf, Ht, Hc.
  destruct (Args.to_file args) as [path|]; cbv beta iota.
  - rewrite (Ho path eq_refl). reflexivity.
  - rewrite !app_nil_r.
    destruct (Args.tail args).
    + destruct (tail _ _ _ _ _ _ _) as [[r|] tr']; now rewrite ?app_nil_r.
    + destruct (print_logs _ _ _ _ _ _ _) as [[b|e] tr']; now rewrite ?app_nil_r.
Qed.

(** C9: without a timestamp [adjust_tz] returns [None] whatever [utc]
    is; the filter built with that upper bound ends with the
    lower-bound clause and has no upper-bound clause; and a peek run
    without [--to-date] that has started up sends exactly one query,
    with that filter. *)
Theorem omitted_to_date (utc : bool) :
  adjust_tz None utc = Ok None
  /\ (forall S a to_date,
         adjust_tz None utc = Ok to_date ->
         make_filter S a to_date =
           resource_clause ++
           match S with
           | [] => EmptyString
           | _ :: _ => " AND (" ++ join " OR " (map instance_clause S) ++ ")"
           end ++
           " AND " ++ lower_clause a
         /\ ~ (exists c, In c (make_filter_clauses S a to_date) /\
                         is_prefix "timestamp <= " c))
  /\ (forall w args fuel from_date to_date,
         Args.utc args = utc ->
         Args.to_date args = None ->
         Args.tail args = false ->
         starts w args from_date to_date ->
         to_date = None /\
         queries (snd (main w args fuel [])) =
         [make_filter (Args.machine args) from_date None]).
Proof.
  split; [reflexivity|]. split.
  - intros S a to_date H. cbn [adjust_tz] in H. injection H as <-.
    split.
    + rewrite make_filter_eq, append_nil_r. reflexivity.
    + intros H. now apply upper_clause_iff_bound in H.
  - intros w args fuel from_date to_date Hutc Hto Htail Hs.
    assert (to_date = None) as ->.
    { destruct Hs as (_ & H & _). rewrite Hto in H. cbn [adjust_tz] in H.
      now injection H. }
    split; [reflexivity|].
    rewrite (main_started _ _ _ _ _ _ Hs), Htail.
    pose proof (print_logs_queries (client w 0) (Args.machine args) from_date
                  None (formatter_of args) (output_file args)
                  ([] ++ opening args)%list) as Q.
    assert (Qo : queries (opening args) = []).
    { unfold opening. now destruct (Args.to_file args). }
    assert (Qc : queries (closing args) = []).
    { unfold closing. now destruct (Args.to_file args). }
    destruct (print_logs _ _ _ _ _ _ _) as [[b|e] tr']; cbn [snd] in *;
      rewrite queries_app, Q, Qc, queries_app, Qo; reflexivity.
Qed.

(** ** The tail loop *)

Lemma tail_iteration_unfold (w : world) (machines : list string)
    (formatter : LogEntry -> outcome json) (outfile : stream)
    (k : nat) (lo : datetime) (tr : trace) :
  tail_iteration w machines formatter outfile k lo tr =
  match astimezone (now w k) with
  | Ok hi =>
      match print_logs (client w k) machines lo (Some hi) formatter outfile tr
      with
      | (Ok empty, tr') =>
          (if sleep_interrupted w k then Raise KeyboardInterrupt
           else Ok (if negb empty then hi else lo),
           (tr' ++ [Sleep POLL_INTERVAL])%list)
      | (Raise e, tr') => (Raise e, tr')
      end
  | Raise e => (Raise e, tr)
  end.
Proof.
  unfold tail_iteration, bind, lift, sleep, emit, ret, raise.
  destruct (astimezone (now w k)) as [hi|e]; [|reflexivity].
  destruct (print_logs _ _ _ _ _ _ _) as [[empty|e] tr']; [|reflexivity].
  now destruct (sleep_interrupted w k).
Qed.

Lemma tail_loop_step (w : world) (machines : list string)
    (formatter : LogEntry -> outcome json) (outfile : stream)
    (n k : nat) (lo : datetime) (tr : trace) :
  tail_loop w machines formatter outfile (S n) k lo tr =
  match tail_iteration w machines formatter outfile k lo tr with
  | (Ok lo', tr') => tail_loop w machines formatter outfile n (S k) lo' tr'
  | (Raise e, tr') => (Raise e, tr')
  end.
Proof. reflexivity. Qed.

(** Once the loop has been left by an exception, looking at it for
    longer changes nothing. *)
Lemma tail_loop_more (w : world) (machines : list string)
    (formatter : LogEntry -> outcome json) (outfile : stream) (more : nat) :
  forall (n k : nat) (lo : datetime) (tr tr' : trace) (e : exn),
    tail_loop w machines formatter outfile n k lo tr = (Raise e, tr') ->
    tail_loop w machines formatter outfile (n + more) k lo tr = (Raise e, tr').
Proof.
  induction n as [|n IH]; intros k lo tr tr' e H.
  - discriminate.
  - change (S n + more) with (S (n + more)).
    rewrite tail_loop_step in *.
    destruct (tail_iteration _ _ _ _ _ _ _) as [[lo'|e'] tr1];
      [now apply IH | exact H].
Qed.

(** An iteration that has read the clock sends its query first;
    everything it prints goes to [outfile]. *)
Lemma tail_iteration_trace (w : world) (machines : list string)
    (formatter : LogEntry -> outcome json) (outfile : stream)
    (k : nat) (lo hi : datetime) (tr : trace) :
  astimezone (now w k) = Ok hi ->
  exists lines rest,
    snd (tail_iteration w machines formatter outfile k lo tr) =
    (tr ++ Query (make_filter machines lo (Some hi)) PAGE_SIZE
        :: map (Print outfile) lines ++ rest)%list
    /\ (rest = [] \/ rest = [Sleep POLL_INTERVAL]).
Proof.
  intros Hhi. rewrite tail_iteration_unfold, Hhi, print_logs_unfold.
  destruct (for_entries_trace formatter outfile
              (client w k (make_filter machines lo (Some hi)) PAGE_SIZE) true
              (tr ++ [Query (make_filter machines lo (Some hi)) PAGE_SIZE])%list)
    as (lines & E).
  exists lines.
  destruct (for_entries _ _ _ _ _) as [[empty|e] tr1]; cbn [snd] in *; subst tr1.
  - exists [Sleep POLL_INTERVAL]. split; [|now right].
    now rewrite <- !app_assoc.
  - exists []. split; [|now left].
    now rewrite <- !app_assoc, app_nil_r.
Qed.

(** An iteration in which reading the clock fails does nothing else. *)
Lemma tail_iteration_clock_fails (w : world) (machines : list string)
    (formatter : LogEntry -> outcome json) (outfile : stream)
    (k : nat) (lo : datetime) (tr : trace) (e : exn) :
  astimezone (now w k) = Raise e ->
  tail_iteration w machines formatter outfile k lo tr = (Raise e, tr).
Proof. intros H. now rewrite tail_iteration_unfold, H. Qed.

(** Whatever an iteration does, it prints to [outfile] only. *)
Lemma tail_iteration_stderr (w : world) (machines : list string)
    (formatter : LogEntry -> outcome json) (outfile : stream)
    (k : nat) (lo : datetime) (tr : trace) :
  is_stderr outfile = false ->
  printed is_stderr (snd (tail_iteration w machines formatter outfile k lo tr)) =
  printed is_stderr tr.
Proof.
  intros Hout. destruct (astimezone (now w k)) as [hi|e] eqn:Hhi.
  - destruct (tail_iteration_trace w machines formatter outfile k lo hi tr Hhi)
      as (lines & rest & E & Hrest).
    rewrite E, printed_app. cbn [printed]. rewrite printed_app.
    rewrite (printed_other is_stderr outfile lines Hout).
    destruct Hrest as [-> | ->]; simpl; now rewrite app_nil_r.
  - now rewrite (tail_iteration_clock_fails _ _ _ _ _ _ _ _ Hhi).
Qed.

Lemma tail_loop_stderr (w : world) (machines : list string)
    (formatter : LogEntry -> outcome json) (outfile : stream) :
  is_stderr outfile = false ->
  forall (n k : nat) (lo : datetime) (tr : trace),
    printed is_stderr (snd (tail_loop w machines formatter outfile n k lo tr)) =
    printed is_stderr tr.
Proof.
  intros Hout. induction n as [|n IH]; intros k lo tr; [reflexivity|].
  rewrite tail_loop_step.
  pose proof (tail_iteration_stderr w machines formatter outfile k lo tr Hout)
    as Hit.
  destruct (tail_iteration _ _ _ _ _ _ _) as [[lo'|e] tr1]; cbn [snd] in *.
  - now rewrite IH.
  - exact Hit.
Qed.

(** C1: when the bounded query of iteration [k], for the window from
    [lo] to the captured high watermark [hi], returns and the loop goes
    on, iteration [k+1] starts with lower bound [lo] if the query
    returned no record and with [hi] if it returned at least one; and
    the query of iteration [k+1] is built with that lower bound. *)
Theorem tail_watermark_step (w : world) (machines : list string)
    (formatter : LogEntry -> outcome json) (outfile : stream)
    (n k : nat) (lo hi : datetime) (tr : trace) (b : bool) (tr' : trace) :
  astimezone (now w k) = Ok hi ->
  let records :=
    matching (client w k (make_filter machines lo (Some hi)) PAGE_SIZE) in
  let next := match records with [] => lo | _ :: _ => hi end in
  print_logs (client w k) machines lo (Some hi) formatter outfile tr
    = (Ok b, tr') ->
  sleep_interrupted w k = false ->
  tail_iteration w machines formatter outfile k lo tr =
    (Ok next, (tr' ++ [Sleep POLL_INTERVAL])%list)
  /\ tail_loop w machines formatter outfile (S n) k lo tr =
     tail_loop w machines formatter outfile n (S k) next
       (tr' ++ [Sleep POLL_INTERVAL])%list
  /\ (List.length records = 0 -> next = lo)
  /\ (1 <= List.length records -> next = hi)
  /\ (forall hi',
         astimezone (now w (S k)) = Ok hi' ->
         exists rest,
           snd (tail_iteration w machines formatter outfile (S k) next
                  (tr' ++ [Sleep POLL_INTERVAL])%list) =
           ((tr' ++ [Sleep POLL_INTERVAL]) ++
            Query (make_filter machines next (Some hi')) PAGE_SIZE :: rest)%list).
Proof.
  intros Hhi records next Hq Hs.
  assert (Hb : b = match records with [] => true | _ :: _ => false end).
  { rewrite print_logs_unfold in Hq. apply for_entries_ok_inv in Hq.
    now destruct Hq as (_ & ->). }
  assert (Hit : tail_iteration w machines formatter outfile k lo tr =
                (Ok next, (tr' ++ [Sleep POLL_INTERVAL])%list)).
  { rewrite tail_iteration_unfold, Hhi, Hq, Hs, Hb.
    unfold next. now destruct records. }
  split; [exact Hit|]. split; [|split; [|split]].
  - rewrite tail_loop_step, Hit. reflexivity.
  - unfold next. now destruct records.
  - unfold next. destruct records; simpl; [lia | reflexivity].
  - intros hi' Hhi'.
    destruct (tail_iteration_trace w machines formatter outfile (S k) next hi'
                (tr' ++ [Sleep POLL_INTERVAL])%list Hhi')
      as (lines & rest & E & _).
    eexists. exact E.
Qed.

(** ** The interrupt *)

Lemma tail_interrupted (w : world) (machines : list string) (from_date : datetime)
    (formatter : LogEntry -> outcome json) (outfile : stream)
    (fuel : nat) (tr tr' : trace) :
  tail_loop w machines formatter outfile fuel 0 from_date tr =
    (Raise KeyboardInterrupt, tr') ->
  tail w machines from_date formatter outfile fuel tr =
    (Some (Ok tt), (tr' ++ [Print Stderr interrupt_notice])%list).
Proof. intros H. unfold tail. now rewrite H. Qed.

Lemma main_interrupted (w : world) (args : Args.t) (fuel : nat)
    (from_date : datetime) (to_date : option datetime) (tr' : trace) :
  Args.tail args = true ->
  starts w args from_date to_date ->
  tail_loop w (Args.machine args) (formatter_of args) (output_file args) fuel 0
    from_date (opening args) = (Raise KeyboardInterrupt, tr') ->
  main w args fuel [] =
    (Some (Ok tt), (tr' ++ Print Stderr interrupt_notice :: closing args)%list).
Proof.
  intros Ht Ea H. rewrite (main_started _ _ _ _ _ _ Ea), Ht.
  change ([] ++ opening args)%list with (opening args).
  rewrite (tail_interrupted _ _ _ _ _ _ _ _ H).
  now rewrite <- app_assoc.
Qed.

Lemma output_file_not_stderr (args : Args.t) : is_stderr (output_file args) = false.
Proof. unfold output_file. now destruct (Args.to_file args). Qed.

(** C7: when [KeyboardInterrupt] is raised in the tail loop of a run
    that has started up, wherever in the loop that is, [tail] returns
    normally after printing its
    notice to the error stream, [main] returns, and the process exits
    successfully; the notice is the only line on the error stream; and
    the result no longer depends on how long the loop is observed. *)
Theorem interrupt_ends_tail_cleanly (w : world) (args : Args.t) (fuel : nat)
    (from_date : datetime) (to_date : option datetime) (tr' : trace) :
  Args.tail args = true ->
  starts w args from_date to_date ->
  tail_loop w (Args.machine args) (formatter_of args) (output_file args) fuel 0
    from_date (opening args) = (Raise KeyboardInterrupt, tr') ->
  tail w (Args.machine args) from_date (formatter_of args) (output_file args) fuel
    (opening args) =
    (Some (Ok tt), (tr' ++ [Print Stderr interrupt_notice])%list)
  /\ script w args fuel =
     (Some ExitSuccess,
      (tr' ++ Print Stderr interrupt_notice :: closing args)%list)
  /\ printed is_stderr (snd (script w args fuel)) = [interrupt_notice]
  /\ forall more, script w args (fuel + more) = script w args fuel.
Proof.
  intros Ht Ea H.
  assert (Es : forall n,
             tail_loop w (Args.machine args) (formatter_of args) (output_file args) n 0
               from_date (opening args) = (Raise KeyboardInterrupt, tr') ->
             script w args n =
             (Some ExitSuccess,
              (tr' ++ Print Stderr interrupt_notice :: closing args)%list)).
  { intros n Hn. unfold script.
    now rewrite (main_interrupted w args n from_date to_date tr'). }
  split; [now apply tail_interrupted|]. split; [now apply Es|]. split.
  - rewrite (Es fuel H). cbn [snd].
    pose proof (tail_loop_stderr w (Args.machine args) (formatter_of args)
                  (output_file args) (output_file_not_stderr args) fuel 0 from_date
                  (opening args)) as P.
    rewrite H in P. cbn [snd] in P.
    rewrite printed_app, P. unfold opening, closing.
    now destruct (Args.to_file args).
  - intros more. rewrite (Es fuel H). apply Es.
    now apply tail_loop_more.
Qed.

(** C8, as the code has it: the handler encloses the whole loop, so the
    interrupt takes effect where it is raised.  Raised while the loop
    waits for the next record of the query of iteration [k], it ends
    the loop at once: the records delivered so far are printed, those
    the query still had to deliver are not.  Raised during the sleep
    of iteration [k], it ends the loop after the query of that
    iteration has printed all its records. *)
Theorem interrupt_takes_effect_where_raised (w : world) (machines : list string)
    (formatter : LogEntry -> outcome json) (outfile : stream)
    (n k : nat) (lo hi : datetime) (tr : trace) (lines : list string) :
  astimezone (now w k) = Ok hi ->
  let filter_ := make_filter machines lo (Some hi) in
  let it := client w k filter_ PAGE_SIZE in
  Forall2 (formats formatter) (delivered it) lines ->
  (failure it = Some KeyboardInterrupt ->
   tail_loop w machines formatter outfile (S n) k lo tr =
     (Raise KeyboardInterrupt,
      (tr ++ Query filter_ PAGE_SIZE :: map (Print outfile) lines)%list)
   /\ List.length lines = List.length (delivered it))
  /\ (failure it = None -> sleep_interrupted w k = true ->
      tail_loop w machines formatter outfile (S n) k lo tr =
        (Raise KeyboardInterrupt,
         (tr ++ Query filter_ PAGE_SIZE :: map (Print outfile) lines
             ++ [Sleep POLL_INTERVAL])%list)
      /\ delivered it = matching it
      /\ List.length lines = List.length (matching it)).
Proof.
  intros Hhi filter_ it Hl.
  pose proof (Forall2_length Hl) as Hlen.
  assert (Hq : print_logs (client w k) machines lo (Some hi)
                 formatter outfile tr =
               (match failure it with
                | Some e => Raise e
                | None => Ok match delivered it with [] => true | _ :: _ => false end
                end,
                (tr ++ Query filter_ PAGE_SIZE :: map (Print outfile) lines)%list)).
  { rewrite print_logs_unfold. fold filter_. fold it.
    rewrite (for_entries_run formatter outfile it lines true _ Hl).
    now rewrite <- app_assoc. }
  rewrite tail_loop_step, tail_iteration_unfold, Hhi, Hq. split.
  - intros Hf. rewrite Hf. split; [reflexivity | now symmetry].
  - intros Hf Hs. rewrite Hf, Hs. split; [|split].
    + now rewrite <- app_assoc.
    + symmetry. now apply matching_delivered.
    + rewrite (matching_delivered it Hf). now symmetry.
Qed.

(* ---------------------------------------------------------------- *)
(** * Further properties *)

(** ** The text of timestamps *)

Lemma string_of_uint_chars (d : Decimal.uint) (c : ascii) :
  occurs c (NilEmpty.string_of_uint d) -> iso_char c = true.
Proof.
  induction d; simpl; intros H; try contradiction;
    destruct H as [<- | H]; auto.
Qed.

Lemma zeros_chars (k : nat) (c : ascii) :
  occurs c (zeros k) -> iso_char c = true.
Proof.
  induction k as [|k IH]; simpl; intros H; [contradiction|].
  destruct H as [<- | H]; auto.
Qed.

Lemma dec_chars (n : N) (c : ascii) :
  occurs c (dec n) -> iso_char c = true.
Proof. apply string_of_uint_chars. Qed.

Ltac iso_chars H :=
  repeat (apply occurs_append in H; destruct H as [H | H]);
  try (now apply zeros_chars in H);
  try (now apply dec_chars in H);
  try (simpl in H; repeat (destruct H as [<- | H]; [reflexivity|]);
       contradiction).

Lemma format_time_chars (w : wallclock) (c : ascii) :
  occurs c (format_time w) -> iso_char c = true.
Proof.
  unfold format_time. intros H.
  destruct (microsecond w =? 0)%N; iso_chars H.
Qed.

Lemma format_offset_chars (off : option Z) (c : ascii) :
  occurs c (format_offset off) -> iso_char c = true.
Proof.
  unfold format_offset. intros H. destruct off as [o|]; [|contradiction].
  cbv zeta in H.
  destruct (o <? 0)%Z;
    destruct ((Z.to_N (Z.abs o) mod 3600000000) mod 60000000 =? 0)%N;
    try destruct ((((Z.to_N (Z.abs o) mod 3600000000) mod 60000000)
                     mod 1000000) =? 0)%N;
    iso_chars H.
Qed.

Lemma isoformat_chars (dt : datetime) (c : ascii) :
  occurs c (isoformat dt) -> iso_char c = true.
Proof.
  unfold isoformat. intros H.
  do 6 (apply occurs_append in H; destruct H as [H | H]; [iso_chars H|]).
  apply occurs_append in H. destruct H as [H | H].
  - now apply format_time_chars in H.
  - now apply format_offset_chars in H.
Qed.

(** X7: the text of a timestamp is made of digits and the separators
    of the ISO format only, whatever the fields and the zone of the
    timestamp; so it holds no double quote, and both timestamp clauses
    of the filter read back as exactly that text between their quotes. *)
Theorem timestamp_clauses_well_quoted (dt : datetime) :
  (forall c, occurs c (isoformat dt) -> iso_char c = true)
  /\ ~ occurs "034"%char (isoformat dt)
  /\ quoted_operand (lower_clause dt) = Some (isoformat dt, EmptyString)
  /\ quoted_operand (upper_clause dt) = Some (isoformat dt, EmptyString).
Proof.
  assert (Hq : ~ occurs "034"%char (isoformat dt)).
  { intros H. apply isoformat_chars in H. discriminate H. }
  split; [intros c; apply isoformat_chars|]. split; [exact Hq|]. split.
  - unfold quoted_operand, lower_clause, dq. simpl.
    rewrite until_quote_plain by exact Hq. reflexivity.
  - unfold quoted_operand, upper_clause, dq. simpl.
    rewrite until_quote_plain by exact Hq. reflexivity.
Qed.

(** ** What [line_format] needs and how it fails *)

Lemma getitem_raises (obj : json) (key : string) (e : exn) :
  getitem obj key = Raise e -> e = TypeError \/ e = KeyError key.
Proof.
  unfold getitem. destruct obj; try (intros H; injection H as <-; now left).
  destruct (assoc key fields); [discriminate|].
  intros H. injection H as <-. now right.
Qed.

Lemma line_format_ok_inv (response : LogEntry) (obj : json) :
  line_format response = Ok obj ->
  exists inst ts sev payload,
    exposes response inst ts sev payload /\
    obj = JStr (Fore_LIGHTGREEN_EX ++ inst ++ Fore_LIGHTCYAN_EX ++
                " [" ++ ts ++ "] " ++ Style_BRIGHT ++
                "(" ++ sev ++ "): " ++ Style_RESET_ALL ++ payload).
Proof.
  intros H0. pose proof H0 as H. unfold line_format in H.
  destruct (getitem (to_api_repr response) "resource") as [resource|] eqn:E1;
    [|discriminate].
  cbn [obind] in H.
  destruct (getitem resource "labels") as [labels|] eqn:E2; [|discriminate].
  cbn [obind] in H.
  destruct (getitem labels "instance_id") as [machine|] eqn:E3; [|discriminate].
  cbn [obind] in H.
  destruct machine as [| | |inst| |]; try discriminate. cbn [obind str_add] in H.
  destruct (getitem (to_api_repr response) "timestamp") as [v1|] eqn:E4;
    [|discriminate].
  cbn [obind] in H.
  destruct (getitem (to_api_repr response) "severity") as [v2|] eqn:E5;
    [|discriminate].
  cbn [obind] in H.
  destruct (getitem (to_api_repr response) "textPayload") as [v3|] eqn:E6;
    [|discriminate].
  assert (Hex : exposes response inst (py_str v1) (py_str v2) (py_str v3)).
  { split; [now exists resource, labels|].
    split; [now exists v1|]. split; [now exists v2 | now exists v3]. }
  exists inst, (py_str v1), (py_str v2), (py_str v3). split; [exact Hex|].
  rewrite (line_format_ok _ _ _ _ _ Hex) in H0. now injection H0 as <-.
Qed.

(** X4: [line_format] returns a result exactly for the records that
    expose the four fields it reads, with a string as instance
    identifier; the result is then a string, never a dictionary. *)
Theorem line_format_succeeds_iff (response : LogEntry) :
  ((exists obj, line_format response = Ok obj) <->
   (exists inst ts sev payload, exposes response inst ts sev payload))
  /\ (forall obj, line_format response = Ok obj -> exists line, obj = JStr line).
Proof.
  split; [split|].
  - intros (obj & H). apply line_format_ok_inv in H.
    destruct H as (inst & ts & sev & payload & H & _). now exists inst, ts, sev, payload.
  - intros (inst & ts & sev & payload & H).
    eexists. apply (line_format_ok _ _ _ _ _ H).
  - intros obj H. apply line_format_ok_inv in H.
    destruct H as (inst & ts & sev & payload & _ & ->). now eexists.
Qed.

(** X5: when [line_format] fails, it fails with [KeyError] for one of
    the six keys it looks up or with [TypeError] (a value that should
    be a dictionary or a string is not), and never prints or returns a
    partial line; a record without [resource] fails on that key first,
    whatever else it lacks. *)
Theorem line_format_failures (response : LogEntry) :
  (forall e,
      line_format response = Raise e ->
      e = TypeError \/ exists key, In key line_format_keys /\ e = KeyError key)
  /\ (forall fields,
         to_api_repr response = JDict fields ->
         assoc "resource" fields = None ->
         line_format response = Raise (KeyError "resource"))
  /\ (forall v,
         getitem (to_api_repr response) "resource" = Ok v ->
         (forall fields, v <> JDict fields) ->
         line_format response = Raise TypeError).
Proof.
  split; [|split].
  - intros e H.
    assert (K : forall obj key,
               In key line_format_keys ->
               getitem obj key = Raise e ->
               e = TypeError \/ exists key, In key line_format_keys /\ e = KeyError key).
    { intros obj key Hin Hg. apply getitem_raises in Hg.
      destruct Hg as [-> | ->]; [now left | right; now exists key]. }
    unfold line_format in H.
    destruct (getitem (to_api_repr response) "resource") as [resource|] eqn:E1;
      cbn [obind] in H;
      [|injection H as ->; eapply (K _ "resource"); [simpl; tauto | exact E1]].
    destruct (getitem resource "labels") as [labels|] eqn:E2; cbn [obind] in H;
      [|injection H as ->; eapply (K _ "labels"); [simpl; tauto | exact E2]].
    destruct (getitem labels "instance_id") as [machine|] eqn:E3; cbn [obind] in H;
      [|injection H as ->; eapply (K _ "instance_id"); [simpl; tauto | exact E3]].
    destruct machine as [| | |inst| |]; cbn [obind str_add] in H;
      try (injection H as <-; now left).
    destruct (getitem (to_api_repr response) "timestamp") as [v1|] eqn:E4;
      cbn [obind] in H;
      [|injection H as ->; eapply (K _ "timestamp"); [simpl; tauto | exact E4]].
    destruct (getitem (to_api_repr response) "severity") as [v2|] eqn:E5;
      cbn [obind] in H;
      [|injection H as ->; eapply (K _ "severity"); [simpl; tauto | exact E5]].
    destruct (getitem (to_api_repr response) "textPayload") as [v3|] eqn:E6;
      cbn [obind] in H;
      [discriminate
      |injection H as ->; eapply (K _ "textPayload"); [simpl; tauto | exact E6]].
  - intros fields Hr Ha. unfold line_format, getitem. rewrite Hr, Ha. reflexivity.
  - intros v Hv Hnd. unfold line_format. rewrite Hv. cbn [obind].
    destruct v; try reflexivity. now destruct (Hnd fields).
Qed.

(** ** What [print_logs] does in every case *)

Lemma for_entries_prefix (formatter : LogEntry -> outcome json)
    (outfile : stream) (it : entry_iter) :
  forall (empty : bool) (tr : trace),
    exists lines,
      snd (for_entries it formatter outfile empty tr) =
      (tr ++ map (Print outfile) lines)%list
      /\ Forall2 (formats formatter)
           (firstn (List.length lines) (delivered it)) lines
      /\ (forall b,
             fst (for_entries it formatter outfile empty tr) = Ok b ->
             List.length lines = List.length (matching it)).
Proof.
  induction it as [|entry rest IH|e rest IH]; intros empty tr; simpl.
  - exists []. simpl. split; [now rewrite app_nil_r|]. split; [constructor|easy].
  - unfold bind, lift, print, emit.
    destruct (formatter entry) as [obj|e] eqn:E.
    + destruct (IH false (tr ++ [Print outfile (py_str obj)])%list)
        as (lines & Et & Hl & Hn).
      exists (py_str obj :: lines). split; [|split].
      * rewrite Et. now rewrite <- app_assoc.
      * simpl. constructor; [now exists obj | exact Hl].
      * intros b Hb. simpl. f_equal. now apply (Hn b).
    + exists []. simpl. split; [now rewrite app_nil_r|].
      split; [constructor | discriminate].
  - exists []. simpl. split; [now rewrite app_nil_r|].
    split; [constructor | discriminate].
Qed.

(** X1: whatever happens in it, a call of [print_logs] first sends one
    query, with the filter [make_filter] builds and a page size of 100,
    and after that only prints to [outfile]: the formatter's texts of
    the first entries delivered, in order.  When the call returns, it
    has printed one line for each entry of the result. *)
Theorem print_logs_trace (c : Client) (machines : list string)
    (from_date : datetime) (to_date : option datetime)
    (formatter : LogEntry -> outcome json) (outfile : stream) (tr : trace) :
  exists lines,
    snd (print_logs c machines from_date to_date formatter outfile tr) =
      (tr ++ Query (make_filter machines from_date to_date) 100
          :: map (Print outfile) lines)%list
    /\ Forall2 (formats formatter)
         (firstn (List.length lines)
            (delivered (c (make_filter machines from_date to_date) PAGE_SIZE)))
         lines
    /\ (forall b,
           fst (print_logs c machines from_date to_date formatter outfile tr) = Ok b ->
           List.length lines =
           List.length (matching (c (make_filter machines from_date to_date)
                                    PAGE_SIZE))).
Proof.
  rewrite print_logs_unfold.
  destruct (for_entries_prefix formatter outfile
              (c (make_filter machines from_date to_date) PAGE_SIZE) true
              (tr ++ [Query (make_filter machines from_date to_date) PAGE_SIZE])%list)
    as (lines & Et & Hl & Hn).
  exists lines. split; [|split].
  - rewrite Et, <- app_assoc. reflexivity.
  - exact Hl.
  - exact Hn.
Qed.

(** X2: when the formatter raises on an entry, [print_logs] raises the
    same exception at that entry: the lines of the entries before it
    are printed, nothing is printed for it or for the entries after it,
    and no boolean is returned. *)
Theorem print_logs_formatter_error (c : Client) (machines : list string)
    (from_date : datetime) (to_date : option datetime)
    (formatter : LogEntry -> outcome json) (outfile : stream) (tr : trace)
    (before : list LogEntry) (entry : LogEntry) (after : list LogEntry)
    (lines : list string) (e : exn) :
  delivered (c (make_filter machines from_date to_date) PAGE_SIZE) =
    (before ++ entry :: after)%list ->
  Forall2 (formats formatter) before lines ->
  formatter entry = Raise e ->
  print_logs c machines from_date to_date formatter outfile tr =
    (Raise e,
     (tr ++ Query (make_filter machines from_date to_date) PAGE_SIZE
         :: map (Print outfile) lines)%list)
  /\ List.length lines = List.length before.
Proof.
  intros Hd Hl He. split; [|symmetry; exact (Forall2_length Hl)].
  rewrite print_logs_unfold.
  rewrite (for_entries_formatter_raises formatter outfile _ before entry after
             lines e true _ Hd Hl He).
  now rewrite <- app_assoc.
Qed.

(** X3: when the client raises while the result is iterated (a backend
    or network error), [print_logs] raises the same exception after
    having printed the entries delivered before it; it neither retries
    nor returns. *)
Theorem print_logs_client_error (c : Client) (machines : list string)
    (from_date : datetime) (to_date : option datetime)
    (formatter : LogEntry -> outcome json) (outfile : stream) (tr : trace)
    (lines : list string) (e : exn) :
  failure (c (make_filter machines from_date to_date) PAGE_SIZE) = Some e ->
  Forall2 (formats formatter)
    (delivered (c (make_filter machines from_date to_date) PAGE_SIZE)) lines ->
  print_logs c machines from_date to_date formatter outfile tr =
    (Raise e,
     (tr ++ Query (make_filter machines from_date to_date) PAGE_SIZE
         :: map (Print outfile) lines)%list)
  /\ queries (snd (print_logs c machines from_date to_date formatter outfile tr)) =
     (queries tr ++ [make_filter machines from_date to_date])%list.
Proof.
  intros Hf Hl. split; [|apply print_logs_queries].
  rewrite print_logs_unfold.
  rewrite (for_entries_run formatter outfile _ lines true _ Hl), Hf.
  now rewrite <- app_assoc.
Qed.

Lemma api_format_formats_all (entries : list LogEntry) :
  Forall2 (formats api_format) entries
    (map (fun entry => py_str (to_api_repr entry)) entries).
Proof.
  induction entries as [|entry entries IH]; simpl; constructor;
    [apply api_format_formats | exact IH].
Qed.

(** X6: in raw mode the formatter never fails, so [print_logs] raises
    only what the client raises: it prints the text of the API
    representation of every entry delivered, and returns exactly when
    the client delivers the whole result. *)
Theorem print_logs_raw (c : Client) (machines : list string)
    (from_date : datetime) (to_date : option datetime)
    (outfile : stream) (tr : trace) :
  print_logs c machines from_date to_date api_format outfile tr =
    (match failure (c (make_filter machines from_date to_date) PAGE_SIZE) with
     | Some e => Raise e
     | None =>
         Ok match delivered (c (make_filter machines from_date to_date) PAGE_SIZE) with
            | [] => true
            | _ :: _ => false
            end
     end,
     (tr ++ Query (make_filter machines from_date to_date) PAGE_SIZE
         :: map (fun entry => Print outfile (py_str (to_api_repr entry)))
              (delivered (c (make_filter machines from_date to_date) PAGE_SIZE)))%list)
  /\ ((exists b tr',
          print_logs c machines from_date to_date api_format outfile tr = (Ok b, tr'))
      <-> failure (c (make_filter machines from_date to_date) PAGE_SIZE) = None).
Proof.
  assert (E : print_logs c machines from_date to_date api_format outfile tr =
    (match failure (c (make_filter machines from_date to_date) PAGE_SIZE) with
     | Some e => Raise e
     | None =>
         Ok match delivered (c (make_filter machines from_date to_date) PAGE_SIZE) with
            | [] => true
            | _ :: _ => false
            end
     end,
     (tr ++ Query (make_filter machines from_date to_date) PAGE_SIZE
         :: map (fun entry => Print outfile (py_str (to_api_repr entry)))
              (delivered (c (make_filter machines from_date to_date) PAGE_SIZE)))%list)).
  { rewrite print_logs_unfold.
    rewrite (for_entries_run api_format outfile _ _ true _
               (api_format_formats_all _)).
    now rewrite <- app_assoc, map_map. }
  split; [exact E|]. rewrite E. split.
  - intros (b & tr' & H). now destruct (failure _).
  - intros ->. now eexists _, _.
Qed.

(** ** adjust_tz, applied twice *)

(** X8: what [adjust_tz] returns for a timestamp is always aware, and
    adjusting a second time, with either value of the flag, changes
    nothing and cannot fail. *)
Theorem adjust_tz_idempotent (ts : option datetime) (utc utc' : bool)
    (r : option datetime) :
  adjust_tz ts utc = Ok r ->
  adjust_tz r utc' = Ok r
  /\ (forall t, r = Some t -> tz t <> None).
Proof.
  intros H.
  assert (A : forall t, r = Some t -> tz t <> None).
  { intros t ->. unfold adjust_tz in H. destruct ts as [t0|]; [|discriminate].
    destruct (tz t0) eqn:Et.
    - injection H as ->. now rewrite Et.
    - destruct utc.
      + injection H as <-. discriminate.
      + destruct (astimezone t0) as [r0|e] eqn:Ea; [|discriminate].
        cbn [obind] in H. injection H as ->.
        now apply (astimezone_aware t0). }
  split; [|exact A].
  destruct r as [t|]; [|reflexivity].
  specialize (A t eq_refl). unfold adjust_tz. now destruct (tz t).
Qed.

(** ** The tail loop, pass after pass *)

Lemma sleeps_app (t1 t2 : trace) :
  sleeps (t1 ++ t2)%list = (sleeps t1 ++ sleeps t2)%list.
Proof.
  induction t1 as [|ev t1 IH]; simpl; [reflexivity|].
  destruct ev; try exact IH. simpl. now rewrite IH.
Qed.

Lemma sleeps_prints (f : stream) (lines : list string) :
  sleeps (map (Print f) lines) = [].
Proof. induction lines; simpl; auto. Qed.

(** A pass that is completed has read the clock, sent its query,
    printed to [outfile] and slept once; the bound it hands on is the
    old one or the high watermark it captured. *)
Lemma tail_iteration_ok (w : world) (machines : list string)
    (formatter : LogEntry -> outcome json) (outfile : stream)
    (k : nat) (lo lo1 : datetime) (tr tr1 : trace) :
  tail_iteration w machines formatter outfile k lo tr = (Ok lo1, tr1) ->
  exists hi,
    astimezone (now w k) = Ok hi
    /\ (lo1 = lo \/ lo1 = hi)
    /\ exists lines,
        tr1 = (tr ++ Query (make_filter machines lo (Some hi)) PAGE_SIZE
                  :: map (Print outfile) lines ++ [Sleep POLL_INTERVAL])%list.
Proof.
  rewrite tail_iteration_unfold.
  destruct (astimezone (now w k)) as [hi|e]; [|discriminate].
  rewrite print_logs_unfold.
  destruct (for_entries_trace formatter outfile
              (client w k (make_filter machines lo (Some hi)) PAGE_SIZE) true
              (tr ++ [Query (make_filter machines lo (Some hi)) PAGE_SIZE])%list)
    as (lines & E).
  destruct (for_entries _ _ _ _ _) as [[empty|e] tr2]; cbn [snd] in E; subst tr2;
    [|discriminate].
  destruct (sleep_interrupted w k); [discriminate|].
  intros H. injection H as <- <-. exists hi. split; [reflexivity|]. split.
  - destruct empty; simpl; auto.
  - exists lines. now rewrite <- !app_assoc.
Qed.

(** X9: through any number of consecutive polls that find nothing the
    lower bound does not move: the loop sends one query per pass, each
    from the same lower bound up to the high watermark [hi j] captured
    in its pass, sleeps after each, and prints nothing. *)
Theorem tail_holds_low_watermark (w : world) (machines : list string)
    (formatter : LogEntry -> outcome json) (outfile : stream)
    (lo : datetime) (hi : nat -> datetime) (n : nat) :
  forall (k : nat) (tr : trace),
    (forall j, k <= j < k + n ->
               astimezone (now w j) = Ok (hi j) /\
               client w j (make_filter machines lo (Some (hi j))) PAGE_SIZE
                 = Stop /\
               sleep_interrupted w j = false) ->
    tail_loop w machines formatter outfile n k lo tr =
    (Ok lo,
     (tr ++ flat_map
              (fun j => [Query (make_filter machines lo (Some (hi j))) PAGE_SIZE;
                         Sleep POLL_INTERVAL])
              (seq k n))%list).
Proof.
  induction n as [|n IH]; intros k tr H.
  - simpl. unfold ret. now rewrite app_nil_r.
  - rewrite tail_loop_step, tail_iteration_unfold.
    destruct (H k) as (Hhi & Hc & Hs); [lia|].
    rewrite Hhi, print_logs_unfold, Hc. cbn [for_entries].
    unfold ret. rewrite Hs. cbn [negb].
    rewrite IH by (intros j Hj; apply H; lia).
    cbn [seq flat_map]. now rewrite <- !app_assoc.
Qed.

Lemma tail_loop_ok_polls (w : world) (machines : list string)
    (formatter : LogEntry -> outcome json) (outfile : stream) (n : nat) :
  forall (k : nat) (lo lo' : datetime) (tr tr' : trace),
    tail_loop w machines formatter outfile n k lo tr = (Ok lo', tr') ->
    sleeps tr' = (sleeps tr ++ repeat POLL_INTERVAL n)%list
    /\ exists lows highs,
        List.length lows = n
        /\ Forall2 (fun j hi => astimezone (now w j) = Ok hi) (seq k n) highs
        /\ queries tr' =
           (queries tr ++
            map (fun p => make_filter machines (fst p) (Some (snd p)))
                (combine lows highs))%list
        /\ Forall (fun l => l = lo \/ In l highs) (lo' :: lows).
Proof.
  induction n as [|n IH]; intros k lo lo' tr tr' H.
  - simpl in H. unfold ret in H. injection H as <- <-.
    split; [now rewrite app_nil_r|]. exists [], []. simpl.
    split; [reflexivity|]. split; [constructor|].
    split; [now rewrite app_nil_r|].
    constructor; [now left | constructor].
  - rewrite tail_loop_step in H.
    destruct (tail_iteration w machines formatter outfile k lo tr)
      as [[lo1|e] tr1] eqn:Eit; [|discriminate].
    apply tail_iteration_ok in Eit.
    destruct Eit as (hi & Hhi & Hlo1 & lines & ->).
    apply IH in H. destruct H as (Hs & lows & highs & Hlen & Hhs & Hq & Hf).
    split; [|exists (lo :: lows), (hi :: highs); split; [|split; [|split]]].
    + rewrite Hs, sleeps_app. cbn [sleeps]. rewrite sleeps_app, sleeps_prints.
      simpl. now rewrite <- app_assoc.
    + simpl. now rewrite Hlen.
    + cbn [seq]. now constructor.
    + rewrite Hq, queries_app. cbn [queries]. rewrite queries_app, queries_prints.
      simpl. now rewrite <- app_assoc.
    + assert (Hw : forall l,
                 (l = lo1 \/ In l highs) -> l = lo \/ In l (hi :: highs)).
      { intros l [-> | Hin].
        - destruct Hlo1 as [-> | ->]; [now left | right; now left].
        - right. now right. }
      inversion Hf as [|? ? Hhd Htl]; subst.
      constructor; [now apply Hw|].
      constructor; [now left|].
      eapply Forall_impl; [|exact Htl]. exact Hw.
Qed.

(** X10: when [n] passes have been completed, the loop has slept [n]
    times for the poll interval and sent [n] queries, the one of pass
    [j] bounded above by the high watermark captured in pass [j]; and
    every lower bound used or handed on is the starting one or a high
    watermark captured in one of these passes. *)
Theorem tail_loop_polls (w : world) (machines : list string)
    (formatter : LogEntry -> outcome json) (outfile : stream) (n : nat)
    (k : nat) (lo lo' : datetime) (tr tr' : trace) :
  tail_loop w machines formatter outfile n k lo tr = (Ok lo', tr') ->
  sleeps tr' = (sleeps tr ++ repeat POLL_INTERVAL n)%list
  /\ exists lows highs,
      List.length lows = n
      /\ Forall2 (fun j hi => astimezone (now w j) = Ok hi) (seq k n) highs
      /\ queries tr' =
         (queries tr ++
          map (fun p => make_filter machines (fst p) (Some (snd p)))
              (combine lows highs))%list
      /\ Forall (fun l => l = lo \/ In l highs) (lo' :: lows).
Proof. apply tail_loop_ok_polls. Qed.

(** X11: the loop has no exit of its own.  In a world where the clock
    can be read in every pass, the client never fails, the formatter
    gives a text for every entry and no interrupt arrives, [tail] is
    still running after any number of passes, a query sent in each of
    them. *)
Theorem tail_runs_until_stopped (w : world) (machines : list string)
    (from_date : datetime) (formatter : LogEntry -> outcome json)
    (outfile : stream) (fuel : nat) (tr : trace) :
  (forall j, exists hi, astimezone (now w j) = Ok hi) ->
  (forall j filter_, failure (client w j filter_ PAGE_SIZE) = None) ->
  (forall j filter_ entry,
      In entry (matching (client w j filter_ PAGE_SIZE)) ->
      exists obj, formatter entry = Ok obj) ->
  (forall j, sleep_interrupted w j = false) ->
  fst (tail w machines from_date formatter outfile fuel tr) = None
  /\ List.length (queries (snd (tail w machines from_date formatter outfile fuel tr)))
     = List.length (queries tr) + fuel.
Proof.
  intros Hclock Hf Hfmt Hs.
  assert (Hrun : forall n k lo tr0,
             exists lo' tr', tail_loop w machines formatter outfile n k lo tr0 =
                             (Ok lo', tr')).
  { induction n as [|n IH]; intros k lo tr0; [now eexists _, _|].
    rewrite tail_loop_step, tail_iteration_unfold.
    destruct (Hclock k) as (hi & ->). rewrite print_logs_unfold.
    destruct (formats_all formatter
                (delivered (client w k (make_filter machines lo (Some hi))
                              PAGE_SIZE)))
      as (lines & Hl).
    { intros entry Hin. apply (Hfmt k (make_filter machines lo (Some hi))).
      now rewrite (matching_delivered _ (Hf k _)). }
    rewrite (for_entries_run formatter outfile _ lines true _ Hl), Hf, Hs.
    apply IH. }
  unfold tail.
  destruct (Hrun fuel 0 from_date tr) as (lo' & tr' & E). rewrite E. cbn [fst snd].
  split; [reflexivity|].
  destruct (tail_loop_ok_polls w machines formatter outfile fuel 0 from_date lo' tr tr' E)
    as (_ & lows & highs & Hlen & Hhs & Hq & _).
  apply Forall2_length in Hhs. rewrite length_seq in Hhs.
  rewrite Hq, length_app, length_map, length_combine, Hlen, <- Hhs.
  now rewrite Nat.min_id.
Qed.

(** ** The shape of a whole run *)

Lemma loop_events_prints (outfile : stream) (lines : list string) :
  Forall (loop_event outfile) (map (Print outfile) lines).
Proof. induction lines; simpl; constructor; auto. reflexivity. Qed.

Lemma tail_loop_events (w : world) (machines : list string)
    (formatter : LogEntry -> outcome json) (outfile : stream) (n : nat) :
  forall (k : nat) (lo : datetime) (tr : trace),
    exists ext,
      snd (tail_loop w machines formatter outfile n k lo tr) = (tr ++ ext)%list
      /\ Forall (loop_event outfile) ext.
Proof.
  induction n as [|n IH]; intros k lo tr.
  - exists []. simpl. split; [now rewrite app_nil_r | constructor].
  - rewrite tail_loop_step.
    destruct (astimezone (now w k)) as [hi|e0] eqn:Hhi.
    2:{ rewrite (tail_iteration_clock_fails _ _ _ _ _ _ _ _ Hhi). exists [].
        cbn [snd]. split; [now rewrite app_nil_r | constructor]. }
    destruct (tail_iteration_trace w machines formatter outfile k lo hi tr Hhi)
      as (lines & rest & E & Hrest).
    assert (Hext : Forall (loop_event outfile)
                     (Query (make_filter machines lo (Some hi))
                        PAGE_SIZE :: map (Print outfile) lines ++ rest)).
    { constructor; [reflexivity|]. apply Forall_app. split.
      - apply loop_events_prints.
      - destruct Hrest as [-> | ->]; repeat constructor. }
    destruct (tail_iteration _ _ _ _ _ _ _) as [[lo'|e] tr1]; cbn [snd] in E; subst tr1.
    + destruct (IH (S k) lo' (tr ++ Query (make_filter machines lo (Some hi))
                                      PAGE_SIZE
                                  :: map (Print outfile) lines ++ rest)%list)
        as (ext & E & Hf).
      eexists. rewrite E, <- app_assoc. split; [reflexivity|].
      apply Forall_app. now split.
    + eexists. split; [reflexivity | exact Hext].
Qed.

(** The body of [main], started on [tr0]: it adds events of the loops,
    then at most the notice, which goes with a normal return. *)
Lemma main_body_shape (w : world) (args : Args.t) (fuel : nat)
    (from_date : datetime) (to_date : option datetime) (tr0 : trace) :
  exists r ext notice,
    (if Args.tail args
     then tail w (Args.machine args) from_date (formatter_of args)
            (output_file args) fuel tr0
     else match print_logs (client w 0) (Args.machine args) from_date
                  to_date (formatter_of args) (output_file args) tr0 with
          | (Ok _, tr') => (Some (Ok tt), tr')
          | (Raise e, tr') => (Some (Raise e), tr')
          end) = (r, (tr0 ++ ext ++ notice)%list)
    /\ Forall (loop_event (output_file args)) ext
    /\ (notice = [] \/
        (notice = [Print Stderr interrupt_notice] /\ r = Some (Ok tt) /\
         Args.tail args = true)).
Proof.
  destruct (Args.tail args).
  - unfold tail.
    destruct (tail_loop_events w (Args.machine args) (formatter_of args)
                (output_file args) fuel 0 from_date tr0) as (ext & E & Hf).
    destruct (tail_loop _ _ _ _ _ _ _ _) as [[lo'|e] tr1]; cbn [snd] in E; subst tr1.
    + exists None, ext, []. rewrite app_nil_r. auto.
    + destruct e;
        try (eexists _, ext, []; rewrite app_nil_r; split; [reflexivity|]; now auto).
      exists (Some (Ok tt)), ext, [Print Stderr interrupt_notice].
      rewrite <- app_assoc. split; [reflexivity|]. split; [exact Hf|]. now right.
  - rewrite print_logs_unfold.
    destruct (for_entries_trace (formatter_of args) (output_file args)
                (client w 0 (make_filter (Args.machine args) from_date
                               to_date)
                   PAGE_SIZE) true
                (tr0 ++ [Query (make_filter (Args.machine args) from_date
                                  to_date)
                           PAGE_SIZE])%list) as (lines & E).
    assert (Hf : Forall (loop_event (output_file args))
                   (Query (make_filter (Args.machine args) from_date
                             to_date)
                      PAGE_SIZE :: map (Print (output_file args)) lines)).
    { constructor; [reflexivity | apply loop_events_prints]. }
    destruct (for_entries _ _ _ _ _) as [[b|e] tr1]; cbn [snd] in E; subst tr1;
      eexists _, _, []; rewrite app_nil_r, <- app_assoc;
      (split; [reflexivity|]); split; auto.
Qed.

(** Starting up succeeds, or [main] is left at once by the exception
    that made it fail, with nothing done. *)
Lemma main_start_cases (w : world) (args : Args.t) :
  (exists from_date to_date, starts w args from_date to_date)
  \/ (exists e, forall fuel tr, main w args fuel tr = (Some (Raise e), tr)).
Proof.
  unfold starts, main, with_output_file.
  destruct (adjust_tz (Some (Args.from_date args)) (Args.utc args))
    as [from_date|e] eqn:Ef; [|right; now exists e].
  destruct (adjust_tz_some _ _ _ Ef) as (f & ->).
  destruct (adjust_tz (Args.to_date args) (Args.utc args))
    as [to_date|e] eqn:Et; [|right; now exists e].
  destruct (client_error w) as [e|] eqn:Ec; [right; now exists e|].
  destruct (Args.to_file args) as [path|] eqn:Ep.
  - destruct (open_error w path) as [e|] eqn:Eo; [right; now exists e|].
    left. exists f, to_date. repeat split. intros p H. now injection H as <-.
  - left. exists f, to_date. repeat split. discriminate.
Qed.

Lemma main_shape (w : world) (args : Args.t) (fuel : nat)
    (from_date : datetime) (to_date : option datetime) :
  starts w args from_date to_date ->
  exists r ext notice,
    main w args fuel [] =
      (r, (opening args ++ ext ++ notice ++
           match r with Some _ => closing args | None => [] end)%list)
    /\ Forall (loop_event (output_file args)) ext
    /\ (notice = [] \/
        (notice = [Print Stderr interrupt_notice] /\ r = Some (Ok tt) /\
         Args.tail args = true)).
Proof.
  intros Hst. rewrite (main_started _ _ _ _ _ _ Hst).
  change ([] ++ opening args)%list with (opening args).
  destruct (main_body_shape w args fuel from_date to_date (opening args))
    as (r & ext & notice & E & Hf & Hn).
  exists r, ext, notice. split; [|now split].
  destruct (Args.tail args); rewrite E; destruct r;
    now rewrite <- ?app_assoc, ?app_nil_r.
Qed.

Lemma file_events_app (t1 t2 : trace) :
  file_events (t1 ++ t2)%list = (file_events t1 ++ file_events t2)%list.
Proof.
  induction t1 as [|ev t1 IH]; simpl; [reflexivity|].
  destruct ev; try exact IH; simpl; now rewrite IH.
Qed.

Lemma loop_events_quiet (outfile : stream) (p : stream -> bool) (ext : trace) :
  Forall (loop_event outfile) ext ->
  file_events ext = [] /\ (p outfile = false -> printed p ext = []).
Proof.
  induction 1 as [|ev ext Hev _ (IH1 & IH2)]; [now split|].
  destruct ev; simpl in *; try contradiction; split; auto.
  intros Hp. subst file. rewrite Hp. auto.
Qed.

(** X12: a run of [main] that has started up opens the file named by
    [--to-file] before anything else and closes it last, on every path
    that ends: normal return, exception, or interrupt of the tail
    loop; it opens and closes nothing else, and nothing at all without
    [--to-file].  A run that fails to start, because a timestamp cannot
    be adjusted, the client cannot be made or the file cannot be
    opened, ends with that exception and has done nothing: no file is
    open, no query was sent.  So in every run that has ended each
    opened file has been closed. *)
Theorem output_file_opened_and_closed (w : world) (args : Args.t) (fuel : nat) :
  (forall from_date to_date,
      starts w args from_date to_date ->
      file_events (snd (main w args fuel [])) =
        (opening args ++
         match fst (main w args fuel []) with
         | Some _ => closing args
         | None => []
         end)%list
      /\ (forall path r,
             Args.to_file args = Some path ->
             fst (main w args fuel []) = Some r ->
             exists middle,
               snd (main w args fuel []) =
                 (Open path :: middle ++ [Close path])%list
               /\ file_events middle = []))
  /\ ((forall from_date to_date, ~ starts w args from_date to_date) ->
      exists e, main w args fuel [] = (Some (Raise e), []))
  /\ (forall e, client_error w = Some e ->
                snd (main w args fuel []) = []
                /\ exists e', fst (main w args fuel []) = Some (Raise e'))
  /\ (forall path e,
         Args.to_file args = Some path -> open_error w path = Some e ->
         snd (main w args fuel []) = []
         /\ exists e', fst (main w args fuel []) = Some (Raise e'))
  /\ (forall r,
         fst (main w args fuel []) = Some r ->
         file_events (snd (main w args fuel [])) = []
         \/ exists path,
             Args.to_file args = Some path
             /\ file_events (snd (main w args fuel [])) =
                [Open path; Close path]).
Proof.
  assert (Started : forall from_date to_date,
      starts w args from_date to_date ->
      file_events (snd (main w args fuel [])) =
        (opening args ++
         match fst (main w args fuel []) with
         | Some _ => closing args
         | None => []
         end)%list
      /\ (forall path r,
             Args.to_file args = Some path ->
             fst (main w args fuel []) = Some r ->
             exists middle,
               snd (main w args fuel []) =
                 (Open path :: middle ++ [Close path])%list
               /\ file_events middle = [])).
  { intros from_date to_date Hst.
    destruct (main_shape w args fuel from_date to_date Hst)
      as (r & ext & notice & E & Hf & Hn).
    rewrite E. cbn [fst snd].
    destruct (loop_events_quiet _ is_stderr _ Hf) as (Hfe & _).
    assert (Hne : file_events notice = []).
    { destruct Hn as [-> | (-> & _)]; reflexivity. }
    split.
    - rewrite !file_events_app, Hfe, Hne. simpl.
      unfold opening, closing. destruct (Args.to_file args), r; reflexivity.
    - intros path r0 Hp Hr. subst r. unfold opening, closing. rewrite Hp.
      exists (ext ++ notice)%list. split.
      + simpl. now rewrite <- app_assoc.
      + now rewrite file_events_app, Hfe, Hne. }
  split; [exact Started|]. split; [|split; [|split]].
  - intros Hno. destruct (main_start_cases w args) as [(f & t & Hst) | (e & He)].
    + now destruct (Hno f t).
    + exists e. apply He.
  - intros e Hc. unfold main. rewrite Hc.
    destruct (adjust_tz (Some (Args.from_date args)) (Args.utc args));
      [|cbn [fst snd]; eauto].
    destruct (adjust_tz (Args.to_date args) (Args.utc args));
      cbn [fst snd]; eauto.
  - intros path e Hp Ho. unfold main, with_output_file. rewrite Hp, Ho.
    destruct (adjust_tz (Some (Args.from_date args)) (Args.utc args));
      [|cbn [fst snd]; eauto].
    destruct (adjust_tz (Args.to_date args) (Args.utc args));
      [|cbn [fst snd]; eauto].
    destruct (client_error w); cbn [fst snd]; eauto.
  - intros r Hr.
    destruct (main_start_cases w args) as [(f & t & Hst) | (e & He)].
    + destruct (Started f t Hst) as (Hfe & _). rewrite Hfe, Hr.
      unfold opening, closing.
      destruct (Args.to_file args) as [path|]; [right | now left].
      exists path. now split.
    + left. now rewrite He.
Qed.

(** X13: a run of [main] prints log lines to the chosen output stream
    only, and prints nothing else but the interrupt notice, to the
    error stream and at most once; with [--to-file] nothing goes to
    standard output. *)
Theorem streams_kept_apart (w : world) (args : Args.t) (fuel : nat) :
  Forall (run_print args) (snd (main w args fuel []))
  /\ (printed is_stderr (snd (main w args fuel [])) = [] \/
      printed is_stderr (snd (main w args fuel [])) = [interrupt_notice])
  /\ (forall path, Args.to_file args = Some path ->
                   printed is_stdout (snd (main w args fuel [])) = []).
Proof.
  destruct (main_start_cases w args) as [(f & t & Hst) | (e & He)].
  2:{ rewrite He. cbn [snd]. split; [constructor|]. split; [now left|].
      reflexivity. }
  destruct (main_shape w args fuel f t Hst) as (r & ext & notice & E & Hf & Hn).
  rewrite E. cbn [snd].
  split; [|split].
  - apply Forall_app. split.
    { unfold opening. destruct (Args.to_file args); repeat constructor. }
    apply Forall_app. split.
    { eapply Forall_impl; [|exact Hf]. intros ev Hev.
      destruct ev; simpl in *; auto. }
    apply Forall_app. split.
    { destruct Hn as [-> | (-> & _)]; [constructor|].
      constructor; [|constructor]. simpl. now right. }
    unfold closing. destruct r, (Args.to_file args); repeat constructor.
  - destruct (loop_events_quiet _ is_stderr _ Hf) as (_ & Hp).
    rewrite !printed_app, Hp by apply output_file_not_stderr.
    unfold opening, closing.
    destruct (Args.to_file args), r; destruct Hn as [-> | (-> & _)]; simpl; auto.
  - intros path Hpath.
    destruct (loop_events_quiet _ is_stdout _ Hf) as (_ & Hp).
    rewrite !printed_app, Hp by (unfold output_file; now rewrite Hpath).
    unfold opening, closing. rewrite Hpath.
    destruct r; destruct Hn as [-> | (-> & _)]; reflexivity.
Qed.

(** ** How a run ends *)

Lemma script_peek (w : world) (args : Args.t) (fuel : nat)
    (from_date : datetime) (to_date : option datetime) :
  Args.tail args = false ->
  starts w args from_date to_date ->
  script w args fuel =
  match print_logs (client w 0) (Args.machine args) from_date to_date
          (formatter_of args) (output_file args) (opening args) with
  | (Ok _, tr') => (Some ExitSuccess, (tr' ++ closing args)%list)
  | (Raise e, tr') => (Some (ExitFailure e), (tr' ++ closing args)%list)
  end.
Proof.
  intros Ht Hst. unfold script. rewrite (main_started _ _ _ _ _ _ Hst), Ht.
  change ([] ++ opening args)%list with (opening args).
  now destruct (print_logs _ _ _ _ _ _ _) as [[b|e] tr'].
Qed.

(** X14: a whole peek run.  When the backend delivers its result and
    the formatter gives a text for each entry, the script opens the
    output file if one is named, sends one query built from the adjusted
    bounds, prints the texts in order, closes the file and exits
    successfully; it never sleeps. *)
Theorem peek_run (w : world) (args : Args.t) (fuel : nat)
    (from_date : datetime) (to_date : option datetime)
    (entries : list LogEntry) (lines : list string) :
  let filter_ := make_filter (Args.machine args) from_date to_date in
  Args.tail args = false ->
  starts w args from_date to_date ->
  client w 0 filter_ PAGE_SIZE = yield_all entries ->
  Forall2 (formats (formatter_of args)) entries lines ->
  script w args fuel =
    (Some ExitSuccess,
     (opening args ++ Query filter_ PAGE_SIZE
        :: map (Print (output_file args)) lines ++ closing args)%list)
  /\ sleeps (snd (script w args fuel)) = []
  /\ printed (same (output_file args)) (snd (script w args fuel)) = lines.
Proof.
  intros filter_ Ht Ea Hc Hl.
  assert (E : script w args fuel =
              (Some ExitSuccess,
               (opening args ++ Query filter_ PAGE_SIZE
                  :: map (Print (output_file args)) lines ++ closing args)%list)).
  { rewrite (script_peek w args fuel from_date to_date Ht Ea), print_logs_unfold.
    fold filter_. rewrite Hc.
    destruct (delivered_yield_all entries) as (Hd & Hf & _).
    rewrite (for_entries_run (formatter_of args) (output_file args) _ lines true);
      [|now rewrite Hd].
    rewrite Hf. now rewrite <- !app_assoc. }
  split; [exact E|]. rewrite E. cbn [snd]. split.
  - rewrite sleeps_app. cbn [sleeps]. rewrite sleeps_app, sleeps_prints.
    unfold opening, closing. now destruct (Args.to_file args).
  - rewrite printed_app. cbn [printed]. rewrite printed_app, printed_prints.
    unfold opening, closing. destruct (Args.to_file args); simpl; now rewrite app_nil_r.
Qed.

(** X15: in peek mode nothing is caught.  An exception raised while the
    result is iterated, a backend error or [KeyboardInterrupt] alike,
    ends the script with a failure exit: the lines of the entries
    delivered before it stay printed, the output file is closed, and no
    notice goes to the error stream. *)
Theorem peek_exception_is_failure (w : world) (args : Args.t) (fuel : nat)
    (from_date : datetime) (to_date : option datetime)
    (lines : list string) (e : exn) :
  let filter_ := make_filter (Args.machine args) from_date to_date in
  Args.tail args = false ->
  starts w args from_date to_date ->
  failure (client w 0 filter_ PAGE_SIZE) = Some e ->
  Forall2 (formats (formatter_of args))
    (delivered (client w 0 filter_ PAGE_SIZE)) lines ->
  script w args fuel =
    (Some (ExitFailure e),
     (opening args ++ Query filter_ PAGE_SIZE
        :: map (Print (output_file args)) lines ++ closing args)%list)
  /\ printed is_stderr (snd (script w args fuel)) = [].
Proof.
  intros filter_ Ht Ea Hf Hl.
  assert (E : script w args fuel =
              (Some (ExitFailure e),
               (opening args ++ Query filter_ PAGE_SIZE
                  :: map (Print (output_file args)) lines ++ closing args)%list)).
  { rewrite (script_peek w args fuel from_date to_date Ht Ea), print_logs_unfold.
    fold filter_.
    rewrite (for_entries_run (formatter_of args) (output_file args) _ lines true _ Hl).
    rewrite Hf. now rewrite <- !app_assoc. }
  split; [exact E|]. rewrite E. cbn [snd].
  rewrite printed_app. cbn [printed]. rewrite printed_app.
  rewrite (printed_other is_stderr _ lines (output_file_not_stderr args)).
  unfold opening, closing. now destruct (Args.to_file args).
Qed.

(** X16: in tail mode only the interrupt is caught.  Any other
    exception that leaves the loop, such as a backend error or a
    formatter's [KeyError], ends the script with a failure exit for
    that exception: the output file is closed, no notice is printed,
    and the loop is not resumed. *)
Theorem tail_exception_is_failure (w : world) (args : Args.t) (fuel : nat)
    (from_date : datetime) (to_date : option datetime) (e : exn) (tr' : trace) :
  Args.tail args = true ->
  starts w args from_date to_date ->
  tail_loop w (Args.machine args) (formatter_of args) (output_file args) fuel 0
    from_date (opening args) = (Raise e, tr') ->
  e <> KeyboardInterrupt ->
  script w args fuel = (Some (ExitFailure e), (tr' ++ closing args)%list)
  /\ printed is_stderr (snd (script w args fuel)) = []
  /\ forall more, script w args (fuel + more) = script w args fuel.
Proof.
  intros Ht Ea H He.
  assert (Es : forall n,
             tail_loop w (Args.machine args) (formatter_of args) (output_file args)
               n 0 from_date (opening args) = (Raise e, tr') ->
             script w args n = (Some (ExitFailure e), (tr' ++ closing args)%list)).
  { intros n Hn. unfold script. rewrite (main_started _ _ _ _ _ _ Ea), Ht.
    change ([] ++ opening args)%list with (opening args).
    unfold tail. rewrite Hn.
    destruct e; try reflexivity. now destruct He. }
  split; [now apply Es|]. split.
  - rewrite (Es fuel H). cbn [snd].
    pose proof (tail_loop_stderr w (Args.machine args) (formatter_of args)
                  (output_file args) (output_file_not_stderr args) fuel 0 from_date
                  (opening args)) as P.
    rewrite H in P. cbn [snd] in P.
    rewrite printed_app, P. unfold opening, closing.
    now destruct (Args.to_file args).
  - intros more. rewrite (Es fuel H). apply Es. now apply tail_loop_more.
Qed.

(** ** One line after another on the terminal *)

(** X17: a line of [line_format] does not leak its colors.  When the
    four texts of the record hold no control sequence, whatever follows
    the line that [line_format] returns for it is shown on the terminal
    as if the line were not there: the line ends in the default style,
    in which it began. *)
Theorem line_format_resets_style (response : LogEntry)
    (inst ts sev payload rest : string) :
  exposes response inst ts sev payload ->
  plain inst -> plain ts -> plain sev -> plain payload ->
  exists line,
    line_format response = Ok (JStr line)
    /\ render (line ++ rest) Text default_style =
       (render line Text default_style ++ render rest Text default_style)%list.
Proof.
  intros He Hi Ht Hs Hp. eexists.
  split; [apply (line_format_ok _ _ _ _ _ He)|].
  destruct plain_literals as (L1 & L2 & L3 & L4).
  rewrite (render_line inst ts sev payload Hi Ht Hs Hp).
  rewrite !append_assoc.
  rewrite render_green, (render_plain inst _ _ Hi), render_cyan.
  rewrite (render_plain " [" _ _ L1), (render_plain ts _ _ Ht),
    (render_plain "] " _ _ L2), render_bright.
  rewrite (render_plain "(" _ _ L3), (render_plain sev _ _ Hs),
    (render_plain "): " _ _ L4), render_reset.
  rewrite (render_plain payload _ _ Hp).
  rewrite !paint_app, <- !app_assoc. reflexivity.
Qed.

(** ** Consecutive windows *)

(** X18: both bounds of a window are inclusive, and after a pass that
    found records the next window starts at the very instant at which
    that pass's window ended: the query of pass [k] ends with the
    clause [timestamp <= hi] and the query of pass [k+1] asks for
    [timestamp >= hi], with the same text for [hi].  No instant falls
    between two windows, and the boundary instant belongs to both. *)
Theorem tail_windows_share_boundary (w : world) (machines : list string)
    (formatter : LogEntry -> outcome json) (outfile : stream)
    (k : nat) (lo hi hi' : datetime) (tr tr' : trace) :
  astimezone (now w k) = Ok hi ->
  astimezone (now w (S k)) = Ok hi' ->
  print_logs (client w k) machines lo (Some hi) formatter outfile tr
    = (Ok false, tr') ->
  sleep_interrupted w k = false ->
  is_suffix (" AND timestamp <= " ++ dq ++ isoformat hi ++ dq)
    (make_filter machines lo (Some hi))
  /\ is_suffix (" AND timestamp >= " ++ dq ++ isoformat hi ++ dq ++
                " AND timestamp <= " ++ dq ++ isoformat hi' ++ dq)
       (make_filter machines hi (Some hi'))
  /\ exists rest,
      snd (tail_loop w machines formatter outfile 2 k lo tr) =
      (tr' ++ Sleep POLL_INTERVAL
           :: Query (make_filter machines hi (Some hi')) PAGE_SIZE :: rest)%list.
Proof.
  intros Hhi Hhi' Hq Hs. split; [|split].
  - rewrite make_filter_eq. unfold upper_clause.
    exists (resource_clause ++
            match machines with
            | [] => EmptyString
            | _ :: _ => " AND (" ++ join " OR " (map instance_clause machines) ++ ")"
            end ++ " AND " ++ lower_clause lo).
    rewrite !append_assoc. reflexivity.
  - rewrite make_filter_eq. unfold upper_clause, lower_clause.
    exists (resource_clause ++
            match machines with
            | [] => EmptyString
            | _ :: _ => " AND (" ++ join " OR " (map instance_clause machines) ++ ")"
            end).
    rewrite !append_assoc. reflexivity.
  - rewrite tail_loop_step, tail_iteration_unfold, Hhi, Hq, Hs.
    cbn [negb]. rewrite tail_loop_step.
    destruct (tail_iteration_trace w machines formatter outfile (S k) hi hi'
                (tr' ++ [Sleep POLL_INTERVAL])%list Hhi')
      as (lines & rest & E & _).
    destruct (tail_iteration _ _ _ _ _ _ _) as [[lo2|e] tr2]; cbn [snd] in *;
      subst tr2; eexists; rewrite <- app_assoc; reflexivity.
Qed.

End Script.

(* ------------------------------------------------------------------ *)
(** * The properties at work on the test data *)

(** What Python 3.11 prints for these conversions with [TZ=Europe/Berlin]:
    a time in the gap of 26 March is moved, a time repeated on
    29 October is told apart by [fold]. *)
Example astimezone_in_berlin :
  map (fun dt => reading (astimezone berlin_2023 dt))
    [naive 2023 3 26 2 30 false; naive 2023 3 26 2 30 true;
     naive 2023 10 29 2 30 false; naive 2023 10 29 2 30 true;
     naive 2023 7 1 0 0 false]
  = [Ok ("2023-03-26T01:30:00+01:00", Some "CET");
     Ok ("2023-03-26T03:30:00+02:00", Some "CEST");
     Ok ("2023-10-29T02:30:00+02:00", Some "CEST");
     Ok ("2023-10-29T02:30:00+01:00", Some "CET");
     Ok ("2023-07-01T00:00:00+02:00", Some "CEST")].
Proof. vm_compute. reflexivity. Qed.

(** And with [TZ=CET-1], at the ends of the calendar. *)
Example astimezone_in_cet :
  map (fun dt => reading (astimezone cet dt))
    [naive 1 1 1 0 0 false; naive 1 1 2 0 0 false;
     naive 9999 12 31 23 0 false; naive 9999 12 31 22 59 false;
     naive 2023 1 1 0 0 false]
  = [Raise ValueError;
     Ok ("0001-01-02T00:00:00+01:00", Some "CET");
     Raise ValueError;
     Ok ("9999-12-31T22:59:00+01:00", Some "CET");
     Ok ("2023-01-01T00:00:00+01:00", Some "CET")].
Proof. vm_compute. reflexivity. Qed.

(** And with [TZ=EST5]: west of UTC it is the last hours of the
    calendar that cannot be brought to UTC. *)
Example astimezone_in_est :
  map (fun dt => reading (astimezone est dt))
    [naive 1 1 1 23 59 false; naive 2024 2 29 22 30 false;
     naive 9999 12 31 18 59 false; naive 9999 12 31 19 0 false]
  = [Raise ValueError;
     Ok ("2024-02-29T22:30:00-05:00", Some "EST");
     Ok ("9999-12-31T18:59:00-05:00", Some "EST");
     Raise OverflowError].
Proof. vm_compute. reflexivity. Qed.

Lemma clock_in_cet (w : world) (k : nat) (hh : N) :
  now w k = jan1_2023_naive hh -> (hh < 24)%N ->
  astimezone cet (now w k) = Ok (local_plus_one (jan1_2023_naive hh)).
Proof.
  intros -> H.
  apply (astimezone_constant_zone cet (jan1_2023_naive hh) 3600 "CET" plus_one);
    try reflexivity.
  - unfold valid. cbn [wall jan1_2023_naive jan1_2023_utc replace_tzinfo year
                       month day hour minute second microsecond].
    change (days_in_month (Z.of_N 2023) (Z.of_N 1)) with 31%Z. lia.
  - cbn. lia.
Qed.

Lemma text_entry_exposes (payload : string) :
  exposes opaque_repr (text_entry payload)
    "vm-1" "2023-01-01T00:00:05Z" "INFO" payload.
Proof.
  split; [|split; [|split]].
  - do 2 eexists. repeat split; reflexivity.
  - eexists. split; reflexivity.
  - eexists. split; reflexivity.
  - eexists. split; reflexivity.
Qed.

(** The second pass of [quiet_then_busy] finds two records and moves the
    low watermark to the high watermark captured in that pass. *)
Lemma tail_watermark_step_witness :
  sleep_interrupted (quiet_then_busy 5) 1 = false
  /\ fst (tail_iteration opaque_repr cet (quiet_then_busy 5)
            ["vm-1"] (line_format opaque_repr) Stdout 1 (jan1_2023_utc 0) [])
     = Ok (local_plus_one (jan1_2023_naive 2))
  /\ fst (tail_iteration opaque_repr cet (quiet_then_busy 5)
            ["vm-1"] (line_format opaque_repr) Stdout 0 (jan1_2023_utc 0) [])
     = Ok (jan1_2023_utc 0).
Proof.
  split; [reflexivity|]. split.
  - destruct (tail_watermark_step opaque_repr cet (quiet_then_busy 5)
                ["vm-1"] (line_format opaque_repr) Stdout 0 1 (jan1_2023_utc 0)
                (local_plus_one (jan1_2023_naive 2)) []
                false
                (snd (print_logs opaque_repr (client (quiet_then_busy 5) 1) ["vm-1"]
                        (jan1_2023_utc 0)
                        (Some (local_plus_one (now (quiet_then_busy 5) 1)))
                        (line_format opaque_repr) Stdout []))
                eq_refl eq_refl eq_refl) as (H & _).
    rewrite H. reflexivity.
  - destruct (tail_watermark_step opaque_repr cet (quiet_then_busy 5)
                ["vm-1"] (line_format opaque_repr) Stdout 0 0 (jan1_2023_utc 0)
                (local_plus_one (jan1_2023_naive 1)) []
                true
                (snd (print_logs opaque_repr (client (quiet_then_busy 5) 0) ["vm-1"]
                        (jan1_2023_utc 0)
                        (Some (local_plus_one (now (quiet_then_busy 5) 0)))
                        (line_format opaque_repr) Stdout []))
                eq_refl eq_refl eq_refl) as (H & _).
    rewrite H. reflexivity.
Defined.

(** On a query without result [print_logs] returns [true]: not "true
    exactly when at least one record was returned". *)
Lemma print_logs_true_on_empty :
  ~ returns_true_iff_some opaque_repr (always Stop) ["vm-1"]
      (jan1_2023_utc 0) (Some (jan1_2023_utc 1)) api_format Stdout.
Proof.
  intros H.
  destruct (H [] true _ eq_refl) as (H1 & _).
  now apply H1.
Qed.

Lemma print_logs_returns_empty_witness :
  fst (print_logs opaque_repr (always (yield_all [text_entry "hello world"]))
         ["vm-1"] (jan1_2023_utc 0) None (line_format opaque_repr) Stdout [])
  = Ok false
  /\ fst (print_logs opaque_repr (always Stop)
            ["vm-1"] (jan1_2023_utc 0) None (line_format opaque_repr) Stdout [])
     = Ok true.
Proof.
  split.
  - destruct (print_logs_returns_empty opaque_repr
                (always (yield_all [text_entry "hello world"]))
                ["vm-1"] (jan1_2023_utc 0) None (line_format opaque_repr) Stdout [])
      as (_ & H).
    destruct H as (tr' & E).
    + reflexivity.
    + intros e [<- | []]. eexists. reflexivity.
    + rewrite E. reflexivity.
  - destruct (print_logs_returns_empty opaque_repr (always Stop)
                ["vm-1"] (jan1_2023_utc 0) None (line_format opaque_repr) Stdout [])
      as (_ & H).
    destruct H as (tr' & E).
    + reflexivity.
    + intros e [].
    + rewrite E. reflexivity.
Defined.

(** A structured entry has no [textPayload]: the line formatter raises
    [KeyError] and the query prints no line for its one record. *)
Lemma line_format_breaks_round_trip :
  ~ peek_round_trip opaque_repr (always (yield_all [struct_entry])) ["vm-1"]
      (jan1_2023_utc 0) (Some (jan1_2023_utc 1)) (line_format opaque_repr)
      Stdout [struct_entry].
Proof.
  intros H. destruct (H eq_refl) as (lines & Hp & Hlen & _).
  vm_compute in Hp. subst lines. discriminate Hlen.
Qed.

Example line_format_struct_entry :
  line_format opaque_repr struct_entry = Raise (KeyError "textPayload").
Proof. reflexivity. Qed.

Lemma print_logs_emits_formatted_witness :
  always (yield_all [text_entry "hello world"; text_entry "bye"])
    (make_filter ["vm-1"] (jan1_2023_utc 0) None) PAGE_SIZE =
  yield_all [text_entry "hello world"; text_entry "bye"]
  /\ printed (same Stdout)
       (snd (print_logs opaque_repr
               (always (yield_all [text_entry "hello world"; text_entry "bye"]))
               ["vm-1"] (jan1_2023_utc 0) None (line_format opaque_repr) Stdout []))
     = [hello_line;
        Fore_LIGHTGREEN_EX ++ "vm-1" ++ Fore_LIGHTCYAN_EX ++
        " [2023-01-01T00:00:05Z] " ++ Style_BRIGHT ++ "(INFO): " ++
        Style_RESET_ALL ++ "bye"].
Proof.
  split; [reflexivity|].
  refine (proj1 (proj2 (print_logs_emits_formatted opaque_repr
                          (always (yield_all [text_entry "hello world"; text_entry "bye"]))
                          ["vm-1"] (jan1_2023_utc 0) None (line_format opaque_repr)
                          Stdout [text_entry "hello world"; text_entry "bye"]
                          _ [] eq_refl _))).
  constructor; [|constructor; [|constructor]].
  - apply (line_format_formats opaque_repr _ _ _ _ _ (text_entry_exposes "hello world")).
  - apply (line_format_formats opaque_repr _ _ _ _ _ (text_entry_exposes "bye")).
Defined.


Lemma make_filter_no_escaping_witness :
  In quoted_name ["vm-1"; quoted_name]
  /\ (exists pre post,
         make_filter ["vm-1"; quoted_name] (jan1_2023_utc 0) None =
         pre ++ ("resource.labels.instance_id=" ++ dq ++ quoted_name ++ dq) ++ post)
  /\ quoted_operand (instance_clause "vm-1") = Some ("vm-1", EmptyString).
Proof.
  destruct make_filter_no_escaping as (_ & H1 & H2 & _).
  split; [right; now left|]. split.
  - apply H1. right. now left.
  - apply H2. simpl. intuition discriminate.
Defined.

Lemma jan1_2023_valid (hh : N) : (hh < 24)%N -> valid (wall (jan1_2023_naive hh)).
Proof.
  intros H. unfold valid.
  cbn [wall jan1_2023_naive jan1_2023_utc replace_tzinfo year month day hour
       minute second microsecond].
  change (days_in_month (Z.of_N 2023) (Z.of_N 1)) with 31%Z. lia.
Qed.

Lemma year_2023_in_range : (2 <= 2023 <= 9998)%N.
Proof. lia. Qed.

Lemma july_2023_valid : valid (wall (naive 2023 7 1 0 0 false)).
Proof.
  unfold valid.
  cbn [wall naive year month day hour minute second microsecond].
  change (days_in_month (Z.of_N 2023) (Z.of_N 7)) with 31%Z. lia.
Qed.


Example adjust_tz_first_day :
  tz first_day = None
  /\ adjust_tz cet (Some first_day) false = Raise ValueError
  /\ adjust_tz cet (Some (naive 9999 12 31 23 0 false)) false = Raise ValueError.
Proof. repeat split; vm_compute; reflexivity. Qed.

(** The run started with that lower bound ends with the exception
    before anything is done. *)
Example script_first_day :
  script opaque_repr cet (quiet_then_busy 0) first_day_args 0
  = (Some (ExitFailure ValueError), []).
Proof. vm_compute. reflexivity. Qed.


(** A payload that carries a color sequence of its own, as the output
    of many programs does: the record exposes it as its text, but on
    the terminal the sequence is not shown and the payload is red. *)
Lemma colored_payload_breaks_shape :
  ~ renders_in_shape opaque_repr (text_entry red_payload)
      "vm-1" "2023-01-01T00:00:05Z" "INFO" red_payload.
Proof.
  intros (line & E & V & _).
  injection E as <-. vm_compute in V. discriminate V.
Qed.

Example colored_payload_rendering :
  exposes opaque_repr (text_entry red_payload)
    "vm-1" "2023-01-01T00:00:05Z" "INFO" red_payload
  /\ (exists line,
         line_format opaque_repr (text_entry red_payload) = Ok (JStr line)
         /\ visible_text line = "vm-1 [2023-01-01T00:00:05Z] (INFO): red"
         /\ render line Text default_style =
            (paint "vm-1" green ++ paint " [2023-01-01T00:00:05Z] " cyan ++
             paint "(INFO): " bright_cyan ++
             paint "red" {| fg := Some 31%N; bright := false |})%list).
Proof.
  split; [apply text_entry_exposes|].
  eexists. split; [reflexivity|]. split; vm_compute; reflexivity.
Qed.

Lemma line_format_shape_witness :
  exposes opaque_repr (text_entry "hello world")
    "vm-1" "2023-01-01T00:00:05Z" "INFO" "hello world"
  /\ line_format opaque_repr (text_entry "hello world") = Ok (JStr hello_line)
  /\ visible_text hello_line =
     "vm-1 [2023-01-01T00:00:05Z] (INFO): hello world".
Proof.
  split; [apply text_entry_exposes|].
  destruct (line_format_shape opaque_repr (text_entry "hello world")
              "vm-1" "2023-01-01T00:00:05Z" "INFO" "hello world"
              (text_entry_exposes "hello world"))
    as (line & E & L & V & _).
  subst line. split; [exact E|].
  apply V; unfold plain; simpl; intuition discriminate.
Defined.

(** The signal during the sleep of the third pass, and the signal in the
    middle of the first query: both end in a successful exit with the
    notice as the only line on the error stream. *)
Lemma interrupt_ends_tail_cleanly_witness :
  Args.tail tail_args = true
  /\ starts cet (quiet_then_busy 2) tail_args
       (local_plus_one (jan1_2023_naive 0)) None
  /\ fst (script opaque_repr cet (quiet_then_busy 2) tail_args 3)
     = Some ExitSuccess
  /\ printed is_stderr
       (snd (script opaque_repr cet (quiet_then_busy 2) tail_args 3))
     = [interrupt_notice]
  /\ fst (script opaque_repr cet interrupted_query tail_args 1)
     = Some ExitSuccess.
Proof.
  split; [reflexivity|].
  split; [repeat split; intros; reflexivity|].
  destruct (interrupt_ends_tail_cleanly opaque_repr cet
              (quiet_then_busy 2) tail_args 3
              (local_plus_one (jan1_2023_naive 0)) None
              (snd (tail_loop opaque_repr cet (quiet_then_busy 2)
                      (Args.machine tail_args)
                      (formatter_of opaque_repr tail_args) (output_file tail_args) 3 0
                      (local_plus_one (jan1_2023_naive 0)) (opening tail_args)))
              eq_refl ltac:(repeat split; intros; reflexivity) eq_refl)
    as (_ & E & P & _).
  destruct (interrupt_ends_tail_cleanly opaque_repr cet
              interrupted_query tail_args 1
              (local_plus_one (jan1_2023_naive 0)) None
              (snd (tail_loop opaque_repr cet interrupted_query
                      (Args.machine tail_args)
                      (formatter_of opaque_repr tail_args) (output_file tail_args) 1 0
                      (local_plus_one (jan1_2023_naive 0)) (opening tail_args)))
              eq_refl ltac:(repeat split; intros; reflexivity) eq_refl)
    as (_ & E' & _).
  split; [now rewrite E|]. split; [exact P | now rewrite E'].
Defined.

(** The signal arrives after the first of two records: the loop ends
    without the second record ever being printed. *)
Lemma interrupt_cuts_query_short :
  ~ query_runs_to_completion opaque_repr cet interrupted_query
      ["vm-1"] (jan1_2023_utc 0) (line_format opaque_repr) Stdout.
Proof.
  intros H.
  pose proof (H 1 _ eq_refl 0 _ eq_refl (text_entry "bye") _
                (or_intror (or_introl eq_refl))
                (line_format_formats opaque_repr _ _ _ _ _
                   (text_entry_exposes "bye"))) as Hin.
  vm_compute in Hin. destruct Hin as [Hin | []]. discriminate Hin.
Qed.

Lemma interrupt_takes_effect_where_raised_witness :
  failure (client interrupted_query 0
             (make_filter ["vm-1"] (jan1_2023_utc 0)
                (Some (local_plus_one (now interrupted_query 0)))) PAGE_SIZE)
  = Some KeyboardInterrupt
  /\ tail_loop opaque_repr cet interrupted_query ["vm-1"]
       (line_format opaque_repr) Stdout 1 0 (jan1_2023_utc 0) [] =
     (Raise KeyboardInterrupt,
      [Query (make_filter ["vm-1"] (jan1_2023_utc 0)
                (Some (local_plus_one (now interrupted_query 0)))) PAGE_SIZE;
       Print Stdout hello_line])
  /\ List.length
       (matching (client interrupted_query 0
                    (make_filter ["vm-1"] (jan1_2023_utc 0)
                       (Some (local_plus_one (now interrupted_query 0))))
                    PAGE_SIZE)) = 2.
Proof.
  split; [reflexivity|]. split; [|reflexivity].
  refine (proj1 (proj1 (interrupt_takes_effect_where_raised opaque_repr
                          cet interrupted_query ["vm-1"]
                          (line_format opaque_repr) Stdout 0 0 (jan1_2023_utc 0)
                          (local_plus_one (jan1_2023_naive 1))
                          [] [hello_line] eq_refl _) eq_refl)).
  constructor; [|constructor].
  apply (line_format_formats opaque_repr _ _ _ _ _ (text_entry_exposes "hello world")).
Defined.

Lemma omitted_to_date_witness :
  Args.to_date peek_args = None
  /\ Args.tail peek_args = false
  /\ queries (snd (main opaque_repr cet (quiet_then_busy 0)
                     peek_args 0 [])) =
     ["resource.type=" ++ dq ++ "gce_instance" ++ dq ++
      " AND (resource.labels.instance_id=" ++ dq ++ "vm-1" ++ dq ++ ")" ++
      " AND timestamp >= " ++ dq ++ "2023-01-01T00:00:00+00:00" ++ dq].
Proof.
  split; [reflexivity|]. split; [reflexivity|].
  destruct (omitted_to_date opaque_repr cet true) as (_ & _ & H).
  destruct (H (quiet_then_busy 0) peek_args 0 (jan1_2023_utc 0) None
              eq_refl eq_refl eq_refl
              ltac:(repeat split; intros; discriminate))
    as (_ & Q).
  rewrite Q. reflexivity.
Defined.

(* ------------------------------------------------------------------ *)
(** * The further properties at work on the test data *)

Lemma hello_formats :
  formats opaque_repr (line_format opaque_repr) (text_entry "hello world") hello_line.
Proof.
  apply (line_format_formats opaque_repr _ _ _ _ _ (text_entry_exposes "hello world")).
Qed.

Lemma bye_formats :
  formats opaque_repr (line_format opaque_repr) (text_entry "bye") bye_line.
Proof.
  apply (line_format_formats opaque_repr _ _ _ _ _ (text_entry_exposes "bye")).
Qed.

(** A structured entry between two text entries: the first line is
    printed, then [KeyError] leaves [print_logs]. *)
Lemma print_logs_formatter_error_witness :
  line_format opaque_repr struct_entry = Raise (KeyError "textPayload")
  /\ print_logs opaque_repr
       (always (yield_all [text_entry "hello world"; struct_entry; text_entry "bye"]))
       ["vm-1"] (jan1_2023_utc 0) None (line_format opaque_repr) Stdout [] =
     (Raise (KeyError "textPayload"),
      [Query (make_filter ["vm-1"] (jan1_2023_utc 0) None) PAGE_SIZE;
       Print Stdout hello_line]).
Proof.
  split; [reflexivity|].
  refine (proj1 (print_logs_formatter_error opaque_repr
                   (always (yield_all [text_entry "hello world"; struct_entry;
                                       text_entry "bye"]))
                   ["vm-1"] (jan1_2023_utc 0) None (line_format opaque_repr) Stdout []
                   [text_entry "hello world"] struct_entry [text_entry "bye"]
                   [hello_line] (KeyError "textPayload") eq_refl _ eq_refl)).
  constructor; [apply hello_formats | constructor].
Defined.

Lemma print_logs_client_error_witness :
  failure (client failing_backend 0 (make_filter ["vm-1"] (jan1_2023_utc 0) None)
             PAGE_SIZE) = Some (BackendError "503 Service Unavailable")
  /\ print_logs opaque_repr (client failing_backend 0) ["vm-1"] (jan1_2023_utc 0)
       None (line_format opaque_repr) Stdout [] =
     (Raise (BackendError "503 Service Unavailable"),
      [Query (make_filter ["vm-1"] (jan1_2023_utc 0) None) PAGE_SIZE;
       Print Stdout hello_line]).
Proof.
  split; [reflexivity|].
  refine (proj1 (print_logs_client_error opaque_repr (client failing_backend 0)
                   ["vm-1"] (jan1_2023_utc 0) None (line_format opaque_repr) Stdout []
                   [hello_line] (BackendError "503 Service Unavailable") eq_refl _)).
  constructor; [apply hello_formats | constructor].
Defined.

Lemma adjust_tz_idempotent_witness :
  adjust_tz cet (Some (jan1_2023_naive 0)) false
  = Ok (Some (local_plus_one (jan1_2023_naive 0)))
  /\ adjust_tz cet (Some (local_plus_one (jan1_2023_naive 0))) true
     = Ok (Some (local_plus_one (jan1_2023_naive 0)))
  /\ tz (local_plus_one (jan1_2023_naive 0)) <> None.
Proof.
  split; [reflexivity|].
  destruct (adjust_tz_idempotent cet (Some (jan1_2023_naive 0)) false true
              (Some (local_plus_one (jan1_2023_naive 0))) eq_refl) as (H1 & H2).
  split; [exact H1 | exact (H2 _ eq_refl)].
Defined.

(** A tail run into a file that is interrupted: the file is opened and
    closed.  Runs that fail to start: no credentials, a file that
    cannot be opened, a lower bound that cannot be adjusted. *)
Lemma output_file_opened_and_closed_witness :
  starts cet (quiet_then_busy 2) tail_args
    (local_plus_one (jan1_2023_naive 0)) None
  /\ file_events (snd (main opaque_repr cet (quiet_then_busy 2) tail_args 3 []))
     = [Open "out.log"; Close "out.log"]
  /\ (exists e, main opaque_repr cet (quiet_then_busy 0) first_day_args 0 []
                = (Some (Raise e), []))
  /\ snd (main opaque_repr cet no_credentials tail_args 3 []) = []
  /\ snd (main opaque_repr cet read_only tail_args 3 []) = [].
Proof.
  assert (Hst : starts cet (quiet_then_busy 2) tail_args
                  (local_plus_one (jan1_2023_naive 0)) None)
    by (repeat split; intros; reflexivity).
  split; [exact Hst|].
  destruct (output_file_opened_and_closed opaque_repr cet (quiet_then_busy 2)
              tail_args 3) as (H1 & _ & _ & _ & H5).
  destruct (output_file_opened_and_closed opaque_repr cet (quiet_then_busy 0)
              first_day_args 0) as (_ & H2 & _).
  destruct (output_file_opened_and_closed opaque_repr cet no_credentials
              tail_args 3) as (_ & _ & H3 & _).
  destruct (output_file_opened_and_closed opaque_repr cet read_only
              tail_args 3) as (_ & _ & _ & H4 & _).
  split; [|split; [|split]].
  - destruct (H1 _ _ Hst) as (E & M).
    destruct (M "out.log" (Ok tt) eq_refl eq_refl) as (middle & _ & _).
    destruct (H5 (Ok tt) eq_refl) as [E5 | (path & _ & E5)].
    + rewrite E5 in E. discriminate E.
    + rewrite E. reflexivity.
  - apply H2. intros f t (E & _). vm_compute in E. discriminate E.
  - exact (proj1 (H3 _ eq_refl)).
  - exact (proj1 (H4 "out.log" OSError eq_refl eq_refl)).
Defined.

Lemma calm_after_first (j : nat) :
  2 <= j -> client calm j = always Stop.
Proof.
  intros H. unfold calm, client.
  destruct j as [|[|j]]; [lia | lia | reflexivity].
Qed.

(** Three polls of [calm] from its third pass on find nothing: the
    lower bound is still the starting one. *)
Lemma tail_holds_low_watermark_witness :
  fst (tail_loop opaque_repr cet calm ["vm-1"]
         (line_format opaque_repr) Stdout 3 2 (jan1_2023_utc 0) [])
  = Ok (jan1_2023_utc 0).
Proof.
  rewrite (tail_holds_low_watermark opaque_repr cet calm ["vm-1"]
             (line_format opaque_repr) Stdout (jan1_2023_utc 0)
             (fun j => local_plus_one (hourly j)) 3 2 []).
  - reflexivity.
  - intros j Hj. split; [|split; [|reflexivity]].
    + apply clock_in_cet; [reflexivity | lia].
    + rewrite calm_after_first by lia. reflexivity.
Defined.

Lemma tail_loop_polls_witness :
  sleeps (snd (tail_loop opaque_repr cet calm ["vm-1"]
                 (line_format opaque_repr) Stdout 2 0 (jan1_2023_utc 0) []))
  = [1; 1].
Proof.
  destruct (tail_loop_polls opaque_repr cet calm ["vm-1"]
              (line_format opaque_repr) Stdout 2 0 (jan1_2023_utc 0)
              (local_plus_one (jan1_2023_naive 2)) []
              (snd (tail_loop opaque_repr cet calm ["vm-1"]
                      (line_format opaque_repr) Stdout 2 0 (jan1_2023_utc 0) []))
              eq_refl) as (H & _).
  exact H.
Defined.

Lemma calm_never_fails (j : nat) (filter_ : string) :
  failure (client calm j filter_ PAGE_SIZE) = None
  /\ forall entry,
      In entry (matching (client calm j filter_ PAGE_SIZE)) ->
      exists obj, line_format opaque_repr entry = Ok obj.
Proof.
  unfold calm, client. destruct (Nat.eqb j 1); simpl.
  - split; [reflexivity|].
    intros entry [<- | [<- | []]]; eexists; reflexivity.
  - split; [reflexivity | intros entry []].
Qed.

Lemma tail_runs_until_stopped_witness :
  fst (tail opaque_repr cet calm ["vm-1"] (jan1_2023_utc 0)
         (line_format opaque_repr) Stdout 7 []) = None
  /\ List.length
       (queries (snd (tail opaque_repr cet calm ["vm-1"]
                        (jan1_2023_utc 0) (line_format opaque_repr) Stdout 7 [])))
     = 7.
Proof.
  apply (tail_runs_until_stopped opaque_repr cet calm ["vm-1"]
           (jan1_2023_utc 0) (line_format opaque_repr) Stdout 7 []).
  - intros j. eexists. apply clock_in_cet; [reflexivity | lia].
  - intros j f. apply calm_never_fails.
  - intros j f. apply calm_never_fails.
  - reflexivity.
Defined.

Lemma peek_run_witness :
  Args.tail peek_file_args = false
  /\ script opaque_repr cet busy peek_file_args 0 =
     (Some ExitSuccess,
      [Open "out.log";
       Query (make_filter ["vm-1"] (jan1_2023_utc 0) (Some (jan1_2023_utc 1)))
         PAGE_SIZE;
       Print (File "out.log") hello_line;
       Print (File "out.log") bye_line;
       Close "out.log"]).
Proof.
  split; [reflexivity|].
  refine (proj1 (peek_run opaque_repr cet busy peek_file_args 0
                   (jan1_2023_utc 0) (Some (jan1_2023_utc 1))
                   [text_entry "hello world"; text_entry "bye"]
                   [hello_line; bye_line] eq_refl
                   ltac:(repeat split; intros; reflexivity) eq_refl _)).
  constructor; [apply hello_formats|].
  constructor; [apply bye_formats | constructor].
Defined.

(** The interrupt during a peek: a failure exit, and no notice. *)
Lemma peek_exception_is_failure_witness :
  Args.tail peek_file_args = false
  /\ fst (script opaque_repr cet interrupted_query peek_file_args 0)
     = Some (ExitFailure KeyboardInterrupt)
  /\ printed is_stderr
       (snd (script opaque_repr cet interrupted_query peek_file_args 0))
     = [].
Proof.
  split; [reflexivity|].
  assert (Hl : Forall2 (formats opaque_repr (formatter_of opaque_repr peek_file_args))
                 (delivered (client interrupted_query 0
                               (make_filter (Args.machine peek_file_args)
                                  (jan1_2023_utc 0)
                                  (Some (jan1_2023_utc 1))) PAGE_SIZE))
                 [hello_line]).
  { constructor; [apply hello_formats | constructor]. }
  destruct (peek_exception_is_failure opaque_repr cet interrupted_query
              peek_file_args 0 (jan1_2023_utc 0) (Some (jan1_2023_utc 1))
              [hello_line] KeyboardInterrupt
              eq_refl ltac:(repeat split; intros; reflexivity) eq_refl Hl)
    as (E & P).
  split; [now rewrite E | exact P].
Defined.

Lemma tail_exception_is_failure_witness :
  Args.tail tail_args = true
  /\ BackendError "503 Service Unavailable" <> KeyboardInterrupt
  /\ fst (script opaque_repr cet failing_backend tail_args 1)
     = Some (ExitFailure (BackendError "503 Service Unavailable"))
  /\ printed is_stderr
       (snd (script opaque_repr cet failing_backend tail_args 1)) = [].
Proof.
  split; [reflexivity|]. split; [discriminate|].
  destruct (tail_exception_is_failure opaque_repr cet failing_backend
              tail_args 1 (local_plus_one (jan1_2023_naive 0)) None
              (BackendError "503 Service Unavailable")
              (snd (tail_loop opaque_repr cet failing_backend
                      (Args.machine tail_args)
                      (formatter_of opaque_repr tail_args) (output_file tail_args)
                      1 0 (local_plus_one (jan1_2023_naive 0)) (opening tail_args)))
              eq_refl ltac:(repeat split; intros; reflexivity) eq_refl
              ltac:(discriminate)) as (E & P & _).
  split; [now rewrite E | exact P].
Defined.

Lemma line_format_resets_style_witness :
  plain "vm-1" /\ plain "hello world"
  /\ exists line,
      line_format opaque_repr (text_entry "hello world") = Ok (JStr line)
      /\ render (line ++ "next") Text default_style =
         (render line Text default_style ++ paint "next" default_style)%list.
Proof.
  assert (P1 : plain "vm-1") by (unfold plain; simpl; intuition discriminate).
  assert (P2 : plain "2023-01-01T00:00:05Z")
    by (unfold plain; simpl; intuition discriminate).
  assert (P3 : plain "INFO") by (unfold plain; simpl; intuition discriminate).
  assert (P4 : plain "hello world") by (unfold plain; simpl; intuition discriminate).
  split; [exact P1|]. split; [exact P4|].
  exact (line_format_resets_style opaque_repr (text_entry "hello world")
           "vm-1" "2023-01-01T00:00:05Z" "INFO" "hello world" "next"
           (text_entry_exposes "hello world") P1 P2 P3 P4).
Defined.

(** The second pass of [calm] finds records: the third query starts
    where the second ended. *)
Lemma tail_windows_share_boundary_witness :
  sleep_interrupted calm 1 = false
  /\ is_suffix (" AND timestamp <= " ++ dq ++ "2023-01-01T02:00:00+01:00" ++ dq)
       (make_filter ["vm-1"] (jan1_2023_utc 0)
          (Some (local_plus_one (now calm 1))))
  /\ is_suffix (" AND timestamp >= " ++ dq ++ "2023-01-01T02:00:00+01:00" ++ dq ++
                " AND timestamp <= " ++ dq ++ "2023-01-01T03:00:00+01:00" ++ dq)
       (make_filter ["vm-1"] (local_plus_one (now calm 1))
          (Some (local_plus_one (now calm 2)))).
Proof.
  split; [reflexivity|].
  destruct (tail_windows_share_boundary opaque_repr cet calm ["vm-1"]
              (line_format opaque_repr) Stdout 1 (jan1_2023_utc 0)
              (local_plus_one (jan1_2023_naive 2))
              (local_plus_one (jan1_2023_naive 3)) []
              (snd (print_logs opaque_repr (client calm 1) ["vm-1"]
                      (jan1_2023_utc 0) (Some (local_plus_one (now calm 1)))
                      (line_format opaque_repr) Stdout []))
              eq_refl eq_refl eq_refl eq_refl) as (H1 & H2 & _).
  split; [exact H1 | exact H2].
Defined.
